(** * LRES Hierarchy Explorer: the orchestrator component

    A shallow embedding of [lresHierarchyExplorer.js], the Lightning web
    component that fetches a record hierarchy, lays it out as an org chart,
    re-flows the rows when card heights are measured, centres the root in the
    viewport and pans the canvas.

    Conventions of the embedding.
    - A JavaScript number that carries a pixel quantity is a rational [Q]:
      arithmetic is exact, the rounding of IEEE doubles is not modelled.
      The sums of the re-flow are the sums of the code where the doubles
      add without rounding, which they do on whole numbers of pixels:
      the nominal height 180, the gap 70 and the heights the resize
      observer stores after [Math.round].  The equations and bounds on
      re-flowed pixel positions are therefore stated for measured
      heights that are [whole].
      Where the source tells apart NaN, infinities or [undefined], the
      embedding uses [nanable] (a number or NaN/undefined) or [number]
      (the full case split).
    - A string-valued property that may be [null] or [undefined] is an
      [option string]; [None] stands for both.
    - A JavaScript [Map] is an insertion-ordered association list with
      unique keys ([JsMap]).
    - The class is a record [explorer]; a method is a function from the
      record (and its arguments) to the next record, paired with the
      effects it performs (requests, toasts, pointer capture).
    - Functions the component imports from modules that are not part of
      this development ([normalizeString], [computeTreeLayout],
      [buildOrthogonalPaths], [parseError]) are section variables. *)

From Stdlib Require Import QArith Qround Qminmax.
From Stdlib Require Import ZArith List String Bool Arith Lia Lqa.
From Stdlib Require Import DecimalString.
Import ListNotations.

Local Open Scope Q_scope.

(* ------------------------------------------------------------------ *)
(** ** JavaScript numbers *)

Module JsNum.

(** [a < b] on finite numbers, as a boolean. *)
Definition Qlt_b (a b : Q) : bool := negb (Qle_bool b a).

(** [Math.ceil] and [Math.round] on a finite number.  [Math.round] rounds
    a tie towards plus infinity. *)
Definition Math_ceil (x : Q) : Q := inject_Z (Qceiling x).
Definition Math_round (x : Q) : Q := inject_Z (Qfloor (x + (1 # 2))).

(** A number that may be NaN (or a missing array slot, which every use
    below converts to NaN): [None] is NaN. *)
Definition nanable := option Q.

(** [!x] on such a number: 0 and NaN are falsy. *)
Definition falsy (x : nanable) : bool :=
  match x with
  | Some q => Qeq_bool q 0
  | None => true
  end.

(** [x || 0]. *)
Definition or_zero (x : nanable) : Q :=
  match x with
  | Some q => if Qeq_bool q 0 then 0 else q
  | None => 0
  end.

(** [Math.max(x, h)] with a finite [h]: NaN is absorbing. *)
Definition Math_max (x : nanable) (h : Q) : nanable :=
  match x with
  | Some q => Some (Qmax q h)
  | None => None
  end.

(** [x + y] where either side may be NaN. *)
Definition add (x y : nanable) : nanable :=
  match x, y with
  | Some a, Some b => Some (a + b)
  | _, _ => None
  end.

(** A double in full: the result of [Number(v)] and the zoom scale. *)
Inductive number : Type :=
| NaN
| PosInfinity
| NegInfinity
| Finite (q : Q).

(** [Number.isFinite(n) && n > 0], returning the finite value. *)
Definition positiveFinite (n : number) : option Q :=
  match n with
  | Finite q => if Qlt_b 0 q then Some q else None
  | _ => None
  end.

End JsNum.
Import JsNum.

(* ------------------------------------------------------------------ *)
(** ** JavaScript arrays of numbers, written by index *)

Module JsArray.

(** [new Array(n).fill(v)]. *)
Definition filled (n : nat) (v : Q) : list nanable := repeat (Some v) n.

(** [a[i]]: a slot past the end reads [undefined], here NaN. *)
Definition get (a : list nanable) (i : nat) : nanable :=
  match nth_error a i with
  | Some x => x
  | None => None
  end.

(** [a[i] = v]: a write past the end extends the array, the slots in
    between are holes. *)
Fixpoint set (a : list nanable) (i : nat) (v : nanable) : list nanable :=
  match a, i with
  | [], O => [v]
  | [], S i' => None :: set [] i' v
  | _ :: rest, O => v :: rest
  | x :: rest, S i' => x :: set rest i' v
  end.

End JsArray.

(* ------------------------------------------------------------------ *)
(** ** JavaScript [Map] with string keys *)

Module JsMap.

Definition t (V : Type) : Type := list (string * V).

Definition empty {V} : t V := [].

Fixpoint get {V} (k : string) (m : t V) : option V :=
  match m with
  | [] => None
  | (k', v) :: rest => if String.eqb k k' then Some v else get k rest
  end.

(** [m.set(k, v)]: an existing key keeps its place, a new key goes last. *)
Fixpoint set {V} (k : string) (v : V) (m : t V) : t V :=
  match m with
  | [] => [(k, v)]
  | (k', v') :: rest =>
      if String.eqb k k' then (k', v) :: rest else (k', v') :: set k v rest
  end.

Definition keys {V} (m : t V) : list string := map fst m.

(** A loop [for (const e of entries) m.set(e[0], f(e))]. *)
Definition collect {A V} (f : string * A -> V) (l : list (string * A))
  (acc : t V) : t V :=
  fold_left (fun acc e => set (fst e) (f e) acc) l acc.

End JsMap.

(* ------------------------------------------------------------------ *)
(** ** Data model *)

(** One node of a fetched hierarchy.  Only the fields the orchestrator
    itself reads are kept; the card's detail rows, icons and labels are
    presentation data that no layout or interaction decision looks at. *)
Record hierarchyNode : Type := {
  node_id : option string;
  node_objectApiName : option string;
  node_title : option string;
  node_enableTextWrap : bool
}.

Record hierarchyEdge : Type := {
  parentId : string;
  childId : string
}.

(** The result of [getHierarchy].  [nodes] and [edges] are [None] when the
    property is absent or not an array. *)
Record hierarchyResult : Type := {
  rootId : option string;
  nodes : option (list hierarchyNode);
  edges : option (list hierarchyEdge);
  capped : bool;
  capMessage : option string
}.

(** What [computeTreeLayout] returns for a node, as far as it is read. *)
Record treePosition : Type := {
  tree_left : Q;
  tree_centerX : Q;
  tree_depth : nat
}.

Record layoutBounds : Type := {
  bounds_width : Q;
  bounds_height : Q
}.

Record layoutOptions : Type := {
  opt_nodeWidth : Q;
  opt_nodeHeight : Q;
  opt_gapX : Q;
  opt_gapY : Q
}.

(** An entry of [basePositionsById]. *)
Record basePosition : Type := {
  base_left : Q;
  base_centerX : Q;
  base_depth : nat
}.

(** An entry of [positionsById] after the row-height resolution. *)
Record position : Type := {
  left : Q;
  top : Q;
  depth : nat;
  centerX : Q;
  centerY : Q;
  bottomY : Q
}.

Record layoutMeta : Type := {
  basePositionsById : JsMap.t basePosition;
  positionsById : JsMap.t position;
  nodeWidth : Q;
  nodeMaxHeight : Q;
  gapY : Q;
  maxDepth : nat
}.

Record nodeEntry : Type := {
  entry_id : string;
  entry_card : hierarchyNode
}.

(** A rendered node.  [style] and [scrollStyle] are CSS text in the source
    ([left:..px;top:..px;width:..px;] and the card's maximum height); the
    record keeps the numbers that the text prints. *)
Record positionedNode : Type := {
  pn_id : string;
  pn_card : hierarchyNode;
  pn_enableTextWrap : bool;
  style_left : Q;
  style_top : Q;
  style_width : Q;
  scrollStyle_maxHeight : Q
}.

Definition MAX_LEVELS : nat := 10.
Definition MAX_NODES : nat := 50.
Definition DEFAULT_NODE_WIDTH : Q := 280.
Definition DEFAULT_NODE_HEIGHT : Q := 180.
Definition GAP_X : Q := 60.
Definition GAP_Y : Q := 70.

(** The argument object of [getHierarchy]. *)
Record hierarchyRequest : Type := {
  req_templateDeveloperName : option string;
  req_effectiveRootRecordId : option string;
  req_maxLevels : nat;
  req_maxNodes : nat
}.

(** The rectangle [getBoundingClientRect()] returns; a property that is
    missing or NaN is [None]. *)
Record domRect : Type := {
  rect_width : nanable;
  rect_height : nanable
}.

(** What [template.querySelector(".hierarchy-explorer_viewport")] finds:
    no element, an element without a rectangle, or an element with one. *)
Inductive viewportQuery : Type :=
| NoViewport
| ViewportWithoutRect
| ViewportRect (rect : domRect).

(** The target of a pointer event, by the three [closest(...)] tests the
    handler makes on it. *)
Record eventTarget : Type := {
  closest_controls : bool;
  closest_node : bool;
  closest_card : bool
}.

Record pointerEvent : Type := {
  target : option eventTarget;
  currentTarget_capturesPointer : bool;
  button : Z;
  pointerId : Z;
  clientX : Q;
  clientY : Q
}.

(** An entry the resize observer reports: whether its target is the
    viewport element, the node id of the target ([dataset.nodeId]), and the
    height read from it ([contentRect.height || offsetHeight ||
    getBoundingClientRect().height], NaN when all are missing). *)
Record resizeEntry : Type := {
  resize_isViewport : bool;
  resize_nodeId : option string;
  resize_height : number
}.

(** A primitive value.  A BigInt is known by the double [Number] makes of
    it, which is all the component asks of one. *)
Inductive primitive : Type :=
| PUndefined
| PNull
| PBoolean (b : bool)
| PNumber (n : number)
| PString (s : string)
| PSymbol
| PBigInt (numeric : number).

(** What a call throws: the TypeError of a built-in conversion, or whatever
    code of the caller throws (a getter, a proxy trap, a conversion
    method). *)
Inductive exn : Type :=
| TypeError
| Thrown.

(** The outcome of a call that may throw. *)
Inductive completion (A : Type) : Type :=
| Normal (a : A)
| Throw (e : exn).
Arguments Normal {A} a.
Arguments Throw {A} e.

(** A JavaScript value, as far as [relayoutWithHeights] can tell values
    apart: a primitive, or an object.  Of an object the method sees
    whether it is callable ([typeof] gives ["function"]), what
    [Object.entries] makes of it (its own enumerable string-keyed
    properties in order, or what a getter or a proxy trap throws), and what
    its conversion to a primitive yields (through [Symbol.toPrimitive],
    [valueOf] and [toString]: a primitive, or an exception). *)
#[warnings="-register-all"]
Inductive value : Type :=
| VPrimitive (p : primitive)
| VObject (callable : bool)
    (entries : completion (list (string * value)))
    (toPrimitive : completion primitive).

(* ------------------------------------------------------------------ *)
(** ** The component *)

Section Explorer.

(** A connector path, as [buildOrthogonalPaths] produces it, and the
    error value of a rejected fetch. *)
Context {path error : Type}.

(** The fields of [LresHierarchyExplorer].  The metadata cache
    ([_objectInfoByApiName]) and the refresh latch ([_refreshScheduled])
    are left out: the first only feeds label text, the second only
    coalesces calls of [refreshHierarchy].  [_resizeObserver] records
    whether an observer exists. *)
Record explorer : Type := {
  _recordId : option string;
  _templateDeveloperName : option string;
  _rootRecordId : option string;
  hierarchy : option hierarchyResult;
  errorMessage : option string;
  isLoading : bool;
  positionedNodes : list positionedNode;
  connectorPaths : list path;
  objectApiNames : option (list string);
  _canvasWidth : Q;
  _canvasHeight : Q;
  _scale : number;
  _translateX : Q;
  _translateY : Q;
  _isPanning : bool;
  _panStartX : Q;
  _panStartY : Q;
  _panStartTranslateX : Q;
  _panStartTranslateY : Q;
  _activePointerId : option Z;
  _pendingCenter : bool;
  _layoutMeta : option layoutMeta;
  _centeredHierarchyKey : option string;
  _resizeObserver : bool;
  _observedNodeIds : list string;
  _measuredHeightsById : JsMap.t Q;
  _nodeEntries : list nodeEntry;
  _edges : list hierarchyEdge;
  _viewportObserved : bool;
  _relayoutQueued : bool
}.

(** Field assignments, [this.f = v]. *)

Definition with_hierarchy (v : option hierarchyResult) (s : explorer) : explorer :=
  {| _recordId := _recordId s; _templateDeveloperName :=
  _templateDeveloperName s; _rootRecordId := _rootRecordId s; hierarchy :=
  v; errorMessage := errorMessage s; isLoading := isLoading s;
  positionedNodes := positionedNodes s; connectorPaths := connectorPaths s;
  objectApiNames := objectApiNames s; _canvasWidth := _canvasWidth s;
  _canvasHeight := _canvasHeight s; _scale := _scale s; _translateX :=
  _translateX s; _translateY := _translateY s; _isPanning := _isPanning s;
  _panStartX := _panStartX s; _panStartY := _panStartY s;
  _panStartTranslateX := _panStartTranslateX s; _panStartTranslateY :=
  _panStartTranslateY s; _activePointerId := _activePointerId s;
  _pendingCenter := _pendingCenter s; _layoutMeta := _layoutMeta s;
  _centeredHierarchyKey := _centeredHierarchyKey s; _resizeObserver :=
  _resizeObserver s; _observedNodeIds := _observedNodeIds s;
  _measuredHeightsById := _measuredHeightsById s; _nodeEntries :=
  _nodeEntries s; _edges := _edges s; _viewportObserved := _viewportObserved s;
  _relayoutQueued := _relayoutQueued s |}.

Definition with_errorMessage (v : option string) (s : explorer) : explorer :=
  {| _recordId := _recordId s; _templateDeveloperName :=
  _templateDeveloperName s; _rootRecordId := _rootRecordId s; hierarchy :=
  hierarchy s; errorMessage := v; isLoading := isLoading s; positionedNodes
  := positionedNodes s; connectorPaths := connectorPaths s; objectApiNames
  := objectApiNames s; _canvasWidth := _canvasWidth s; _canvasHeight :=
  _canvasHeight s; _scale := _scale s; _translateX := _translateX s;
  _translateY := _translateY s; _isPanning := _isPanning s; _panStartX :=
  _panStartX s; _panStartY := _panStartY s; _panStartTranslateX :=
  _panStartTranslateX s; _panStartTranslateY := _panStartTranslateY s;
  _activePointerId := _activePointerId s; _pendingCenter := _pendingCenter
  s; _layoutMeta := _layoutMeta s; _centeredHierarchyKey :=
  _centeredHierarchyKey s; _resizeObserver := _resizeObserver s;
  _observedNodeIds := _observedNodeIds s; _measuredHeightsById :=
  _measuredHeightsById s; _nodeEntries := _nodeEntries s; _edges := _edges
  s; _viewportObserved := _viewportObserved s;
  _relayoutQueued := _relayoutQueued s |}.

Definition with_isLoading (v : bool) (s : explorer) : explorer :=
  {| _recordId := _recordId s; _templateDeveloperName :=
  _templateDeveloperName s; _rootRecordId := _rootRecordId s; hierarchy :=
  hierarchy s; errorMessage := errorMessage s; isLoading := v;
  positionedNodes := positionedNodes s; connectorPaths := connectorPaths s;
  objectApiNames := objectApiNames s; _canvasWidth := _canvasWidth s;
  _canvasHeight := _canvasHeight s; _scale := _scale s; _translateX :=
  _translateX s; _translateY := _translateY s; _isPanning := _isPanning s;
  _panStartX := _panStartX s; _panStartY := _panStartY s;
  _panStartTranslateX := _panStartTranslateX s; _panStartTranslateY :=
  _panStartTranslateY s; _activePointerId := _activePointerId s;
  _pendingCenter := _pendingCenter s; _layoutMeta := _layoutMeta s;
  _centeredHierarchyKey := _centeredHierarchyKey s; _resizeObserver :=
  _resizeObserver s; _observedNodeIds := _observedNodeIds s;
  _measuredHeightsById := _measuredHeightsById s; _nodeEntries :=
  _nodeEntries s; _edges := _edges s; _viewportObserved := _viewportObserved s;
  _relayoutQueued := _relayoutQueued s |}.

Definition with_positionedNodes (v : list positionedNode) (s : explorer) : explorer :=
  {| _recordId := _recordId s; _templateDeveloperName :=
  _templateDeveloperName s; _rootRecordId := _rootRecordId s; hierarchy :=
  hierarchy s; errorMessage := errorMessage s; isLoading := isLoading s;
  positionedNodes := v; connectorPaths := connectorPaths s; objectApiNames
  := objectApiNames s; _canvasWidth := _canvasWidth s; _canvasHeight :=
  _canvasHeight s; _scale := _scale s; _translateX := _translateX s;
  _translateY := _translateY s; _isPanning := _isPanning s; _panStartX :=
  _panStartX s; _panStartY := _panStartY s; _panStartTranslateX :=
  _panStartTranslateX s; _panStartTranslateY := _panStartTranslateY s;
  _activePointerId := _activePointerId s; _pendingCenter := _pendingCenter
  s; _layoutMeta := _layoutMeta s; _centeredHierarchyKey :=
  _centeredHierarchyKey s; _resizeObserver := _resizeObserver s;
  _observedNodeIds := _observedNodeIds s; _measuredHeightsById :=
  _measuredHeightsById s; _nodeEntries := _nodeEntries s; _edges := _edges
  s; _viewportObserved := _viewportObserved s;
  _relayoutQueued := _relayoutQueued s |}.

Definition with_connectorPaths (v : list path) (s : explorer) : explorer :=
  {| _recordId := _recordId s; _templateDeveloperName :=
  _templateDeveloperName s; _rootRecordId := _rootRecordId s; hierarchy :=
  hierarchy s; errorMessage := errorMessage s; isLoading := isLoading s;
  positionedNodes := positionedNodes s; connectorPaths := v; objectApiNames
  := objectApiNames s; _canvasWidth := _canvasWidth s; _canvasHeight :=
  _canvasHeight s; _scale := _scale s; _translateX := _translateX s;
  _translateY := _translateY s; _isPanning := _isPanning s; _panStartX :=
  _panStartX s; _panStartY := _panStartY s; _panStartTranslateX :=
  _panStartTranslateX s; _panStartTranslateY := _panStartTranslateY s;
  _activePointerId := _activePointerId s; _pendingCenter := _pendingCenter
  s; _layoutMeta := _layoutMeta s; _centeredHierarchyKey :=
  _centeredHierarchyKey s; _resizeObserver := _resizeObserver s;
  _observedNodeIds := _observedNodeIds s; _measuredHeightsById :=
  _measuredHeightsById s; _nodeEntries := _nodeEntries s; _edges := _edges
  s; _viewportObserved := _viewportObserved s;
  _relayoutQueued := _relayoutQueued s |}.

Definition with_objectApiNames (v : option (list string)) (s : explorer) : explorer :=
  {| _recordId := _recordId s; _templateDeveloperName :=
  _templateDeveloperName s; _rootRecordId := _rootRecordId s; hierarchy :=
  hierarchy s; errorMessage := errorMessage s; isLoading := isLoading s;
  positionedNodes := positionedNodes s; connectorPaths := connectorPaths s;
  objectApiNames := v; _canvasWidth := _canvasWidth s; _canvasHeight :=
  _canvasHeight s; _scale := _scale s; _translateX := _translateX s;
  _translateY := _translateY s; _isPanning := _isPanning s; _panStartX :=
  _panStartX s; _panStartY := _panStartY s; _panStartTranslateX :=
  _panStartTranslateX s; _panStartTranslateY := _panStartTranslateY s;
  _activePointerId := _activePointerId s; _pendingCenter := _pendingCenter
  s; _layoutMeta := _layoutMeta s; _centeredHierarchyKey :=
  _centeredHierarchyKey s; _resizeObserver := _resizeObserver s;
  _observedNodeIds := _observedNodeIds s; _measuredHeightsById :=
  _measuredHeightsById s; _nodeEntries := _nodeEntries s; _edges := _edges
  s; _viewportObserved := _viewportObserved s;
  _relayoutQueued := _relayoutQueued s |}.

Definition with_canvasWidth (v : Q) (s : explorer) : explorer :=
  {| _recordId := _recordId s; _templateDeveloperName :=
  _templateDeveloperName s; _rootRecordId := _rootRecordId s; hierarchy :=
  hierarchy s; errorMessage := errorMessage s; isLoading := isLoading s;
  positionedNodes := positionedNodes s; connectorPaths := connectorPaths s;
  objectApiNames := objectApiNames s; _canvasWidth := v; _canvasHeight :=
  _canvasHeight s; _scale := _scale s; _translateX := _translateX s;
  _translateY := _translateY s; _isPanning := _isPanning s; _panStartX :=
  _panStartX s; _panStartY := _panStartY s; _panStartTranslateX :=
  _panStartTranslateX s; _panStartTranslateY := _panStartTranslateY s;
  _activePointerId := _activePointerId s; _pendingCenter := _pendingCenter
  s; _layoutMeta := _layoutMeta s; _centeredHierarchyKey :=
  _centeredHierarchyKey s; _resizeObserver := _resizeObserver s;
  _observedNodeIds := _observedNodeIds s; _measuredHeightsById :=
  _measuredHeightsById s; _nodeEntries := _nodeEntries s; _edges := _edges
  s; _viewportObserved := _viewportObserved s;
  _relayoutQueued := _relayoutQueued s |}.

Definition with_canvasHeight (v : Q) (s : explorer) : explorer :=
  {| _recordId := _recordId s; _templateDeveloperName :=
  _templateDeveloperName s; _rootRecordId := _rootRecordId s; hierarchy :=
  hierarchy s; errorMessage := errorMessage s; isLoading := isLoading s;
  positionedNodes := positionedNodes s; connectorPaths := connectorPaths s;
  objectApiNames := objectApiNames s; _canvasWidth := _canvasWidth s;
  _canvasHeight := v; _scale := _scale s; _translateX := _translateX s;
  _translateY := _translateY s; _isPanning := _isPanning s; _panStartX :=
  _panStartX s; _panStartY := _panStartY s; _panStartTranslateX :=
  _panStartTranslateX s; _panStartTranslateY := _panStartTranslateY s;
  _activePointerId := _activePointerId s; _pendingCenter := _pendingCenter
  s; _layoutMeta := _layoutMeta s; _centeredHierarchyKey :=
  _centeredHierarchyKey s; _resizeObserver := _resizeObserver s;
  _observedNodeIds := _observedNodeIds s; _measuredHeightsById :=
  _measuredHeightsById s; _nodeEntries := _nodeEntries s; _edges := _edges
  s; _viewportObserved := _viewportObserved s;
  _relayoutQueued := _relayoutQueued s |}.

Definition with_translateX (v : Q) (s : explorer) : explorer :=
  {| _recordId := _recordId s; _templateDeveloperName :=
  _templateDeveloperName s; _rootRecordId := _rootRecordId s; hierarchy :=
  hierarchy s; errorMessage := errorMessage s; isLoading := isLoading s;
  positionedNodes := positionedNodes s; connectorPaths := connectorPaths s;
  objectApiNames := objectApiNames s; _canvasWidth := _canvasWidth s;
  _canvasHeight := _canvasHeight s; _scale := _scale s; _translateX := v;
  _translateY := _translateY s; _isPanning := _isPanning s; _panStartX :=
  _panStartX s; _panStartY := _panStartY s; _panStartTranslateX :=
  _panStartTranslateX s; _panStartTranslateY := _panStartTranslateY s;
  _activePointerId := _activePointerId s; _pendingCenter := _pendingCenter
  s; _layoutMeta := _layoutMeta s; _centeredHierarchyKey :=
  _centeredHierarchyKey s; _resizeObserver := _resizeObserver s;
  _observedNodeIds := _observedNodeIds s; _measuredHeightsById :=
  _measuredHeightsById s; _nodeEntries := _nodeEntries s; _edges := _edges
  s; _viewportObserved := _viewportObserved s;
  _relayoutQueued := _relayoutQueued s |}.

Definition with_translateY (v : Q) (s : explorer) : explorer :=
  {| _recordId := _recordId s; _templateDeveloperName :=
  _templateDeveloperName s; _rootRecordId := _rootRecordId s; hierarchy :=
  hierarchy s; errorMessage := errorMessage s; isLoading := isLoading s;
  positionedNodes := positionedNodes s; connectorPaths := connectorPaths s;
  objectApiNames := objectApiNames s; _canvasWidth := _canvasWidth s;
  _canvasHeight := _canvasHeight s; _scale := _scale s; _translateX :=
  _translateX s; _translateY := v; _isPanning := _isPanning s; _panStartX :=
  _panStartX s; _panStartY := _panStartY s; _panStartTranslateX :=
  _panStartTranslateX s; _panStartTranslateY := _panStartTranslateY s;
  _activePointerId := _activePointerId s; _pendingCenter := _pendingCenter
  s; _layoutMeta := _layoutMeta s; _centeredHierarchyKey :=
  _centeredHierarchyKey s; _resizeObserver := _resizeObserver s;
  _observedNodeIds := _observedNodeIds s; _measuredHeightsById :=
  _measuredHeightsById s; _nodeEntries := _nodeEntries s; _edges := _edges
  s; _viewportObserved := _viewportObserved s;
  _relayoutQueued := _relayoutQueued s |}.

Definition with_isPanning (v : bool) (s : explorer) : explorer :=
  {| _recordId := _recordId s; _templateDeveloperName :=
  _templateDeveloperName s; _rootRecordId := _rootRecordId s; hierarchy :=
  hierarchy s; errorMessage := errorMessage s; isLoading := isLoading s;
  positionedNodes := positionedNodes s; connectorPaths := connectorPaths s;
  objectApiNames := objectApiNames s; _canvasWidth := _canvasWidth s;
  _canvasHeight := _canvasHeight s; _scale := _scale s; _translateX :=
  _translateX s; _translateY := _translateY s; _isPanning := v; _panStartX
  := _panStartX s; _panStartY := _panStartY s; _panStartTranslateX :=
  _panStartTranslateX s; _panStartTranslateY := _panStartTranslateY s;
  _activePointerId := _activePointerId s; _pendingCenter := _pendingCenter
  s; _layoutMeta := _layoutMeta s; _centeredHierarchyKey :=
  _centeredHierarchyKey s; _resizeObserver := _resizeObserver s;
  _observedNodeIds := _observedNodeIds s; _measuredHeightsById :=
  _measuredHeightsById s; _nodeEntries := _nodeEntries s; _edges := _edges
  s; _viewportObserved := _viewportObserved s;
  _relayoutQueued := _relayoutQueued s |}.

Definition with_panStartX (v : Q) (s : explorer) : explorer :=
  {| _recordId := _recordId s; _templateDeveloperName :=
  _templateDeveloperName s; _rootRecordId := _rootRecordId s; hierarchy :=
  hierarchy s; errorMessage := errorMessage s; isLoading := isLoading s;
  positionedNodes := positionedNodes s; connectorPaths := connectorPaths s;
  objectApiNames := objectApiNames s; _canvasWidth := _canvasWidth s;
  _canvasHeight := _canvasHeight s; _scale := _scale s; _translateX :=
  _translateX s; _translateY := _translateY s; _isPanning := _isPanning s;
  _panStartX := v; _panStartY := _panStartY s; _panStartTranslateX :=
  _panStartTranslateX s; _panStartTranslateY := _panStartTranslateY s;
  _activePointerId := _activePointerId s; _pendingCenter := _pendingCenter
  s; _layoutMeta := _layoutMeta s; _centeredHierarchyKey :=
  _centeredHierarchyKey s; _resizeObserver := _resizeObserver s;
  _observedNodeIds := _observedNodeIds s; _measuredHeightsById :=
  _measuredHeightsById s; _nodeEntries := _nodeEntries s; _edges := _edges
  s; _viewportObserved := _viewportObserved s;
  _relayoutQueued := _relayoutQueued s |}.

Definition with_panStartY (v : Q) (s : explorer) : explorer :=
  {| _recordId := _recordId s; _templateDeveloperName :=
  _templateDeveloperName s; _rootRecordId := _rootRecordId s; hierarchy :=
  hierarchy s; errorMessage := errorMessage s; isLoading := isLoading s;
  positionedNodes := positionedNodes s; connectorPaths := connectorPaths s;
  objectApiNames := objectApiNames s; _canvasWidth := _canvasWidth s;
  _canvasHeight := _canvasHeight s; _scale := _scale s; _translateX :=
  _translateX s; _translateY := _translateY s; _isPanning := _isPanning s;
  _panStartX := _panStartX s; _panStartY := v; _panStartTranslateX :=
  _panStartTranslateX s; _panStartTranslateY := _panStartTranslateY s;
  _activePointerId := _activePointerId s; _pendingCenter := _pendingCenter
  s; _layoutMeta := _layoutMeta s; _centeredHierarchyKey :=
  _centeredHierarchyKey s; _resizeObserver := _resizeObserver s;
  _observedNodeIds := _observedNodeIds s; _measuredHeightsById :=
  _measuredHeightsById s; _nodeEntries := _nodeEntries s; _edges := _edges
  s; _viewportObserved := _viewportObserved s;
  _relayoutQueued := _relayoutQueued s |}.

Definition with_panStartTranslateX (v : Q) (s : explorer) : explorer :=
  {| _recordId := _recordId s; _templateDeveloperName :=
  _templateDeveloperName s; _rootRecordId := _rootRecordId s; hierarchy :=
  hierarchy s; errorMessage := errorMessage s; isLoading := isLoading s;
  positionedNodes := positionedNodes s; connectorPaths := connectorPaths s;
  objectApiNames := objectApiNames s; _canvasWidth := _canvasWidth s;
  _canvasHeight := _canvasHeight s; _scale := _scale s; _translateX :=
  _translateX s; _translateY := _translateY s; _isPanning := _isPanning s;
  _panStartX := _panStartX s; _panStartY := _panStartY s;
  _panStartTranslateX := v; _panStartTranslateY := _panStartTranslateY s;
  _activePointerId := _activePointerId s; _pendingCenter := _pendingCenter
  s; _layoutMeta := _layoutMeta s; _centeredHierarchyKey :=
  _centeredHierarchyKey s; _resizeObserver := _resizeObserver s;
  _observedNodeIds := _observedNodeIds s; _measuredHeightsById :=
  _measuredHeightsById s; _nodeEntries := _nodeEntries s; _edges := _edges
  s; _viewportObserved := _viewportObserved s;
  _relayoutQueued := _relayoutQueued s |}.

Definition with_panStartTranslateY (v : Q) (s : explorer) : explorer :=
  {| _recordId := _recordId s; _templateDeveloperName :=
  _templateDeveloperName s; _rootRecordId := _rootRecordId s; hierarchy :=
  hierarchy s; errorMessage := errorMessage s; isLoading := isLoading s;
  positionedNodes := positionedNodes s; connectorPaths := connectorPaths s;
  objectApiNames := objectApiNames s; _canvasWidth := _canvasWidth s;
  _canvasHeight := _canvasHeight s; _scale := _scale s; _translateX :=
  _translateX s; _translateY := _translateY s; _isPanning := _isPanning s;
  _panStartX := _panStartX s; _panStartY := _panStartY s;
  _panStartTranslateX := _panStartTranslateX s; _panStartTranslateY := v;
  _activePointerId := _activePointerId s; _pendingCenter := _pendingCenter
  s; _layoutMeta := _layoutMeta s; _centeredHierarchyKey :=
  _centeredHierarchyKey s; _resizeObserver := _resizeObserver s;
  _observedNodeIds := _observedNodeIds s; _measuredHeightsById :=
  _measuredHeightsById s; _nodeEntries := _nodeEntries s; _edges := _edges
  s; _viewportObserved := _viewportObserved s;
  _relayoutQueued := _relayoutQueued s |}.

Definition with_activePointerId (v : option Z) (s : explorer) : explorer :=
  {| _recordId := _recordId s; _templateDeveloperName :=
  _templateDeveloperName s; _rootRecordId := _rootRecordId s; hierarchy :=
  hierarchy s; errorMessage := errorMessage s; isLoading := isLoading s;
  positionedNodes := positionedNodes s; connectorPaths := connectorPaths s;
  objectApiNames := objectApiNames s; _canvasWidth := _canvasWidth s;
  _canvasHeight := _canvasHeight s; _scale := _scale s; _translateX :=
  _translateX s; _translateY := _translateY s; _isPanning := _isPanning s;
  _panStartX := _panStartX s; _panStartY := _panStartY s;
  _panStartTranslateX := _panStartTranslateX s; _panStartTranslateY :=
  _panStartTranslateY s; _activePointerId := v; _pendingCenter :=
  _pendingCenter s; _layoutMeta := _layoutMeta s; _centeredHierarchyKey :=
  _centeredHierarchyKey s; _resizeObserver := _resizeObserver s;
  _observedNodeIds := _observedNodeIds s; _measuredHeightsById :=
  _measuredHeightsById s; _nodeEntries := _nodeEntries s; _edges := _edges
  s; _viewportObserved := _viewportObserved s;
  _relayoutQueued := _relayoutQueued s |}.

Definition with_pendingCenter (v : bool) (s : explorer) : explorer :=
  {| _recordId := _recordId s; _templateDeveloperName :=
  _templateDeveloperName s; _rootRecordId := _rootRecordId s; hierarchy :=
  hierarchy s; errorMessage := errorMessage s; isLoading := isLoading s;
  positionedNodes := positionedNodes s; connectorPaths := connectorPaths s;
  objectApiNames := objectApiNames s; _canvasWidth := _canvasWidth s;
  _canvasHeight := _canvasHeight s; _scale := _scale s; _translateX :=
  _translateX s; _translateY := _translateY s; _isPanning := _isPanning s;
  _panStartX := _panStartX s; _panStartY := _panStartY s;
  _panStartTranslateX := _panStartTranslateX s; _panStartTranslateY :=
  _panStartTranslateY s; _activePointerId := _activePointerId s;
  _pendingCenter := v; _layoutMeta := _layoutMeta s; _centeredHierarchyKey
  := _centeredHierarchyKey s; _resizeObserver := _resizeObserver s;
  _observedNodeIds := _observedNodeIds s; _measuredHeightsById :=
  _measuredHeightsById s; _nodeEntries := _nodeEntries s; _edges := _edges
  s; _viewportObserved := _viewportObserved s;
  _relayoutQueued := _relayoutQueued s |}.

Definition with_layoutMeta (v : option layoutMeta) (s : explorer) : explorer :=
  {| _recordId := _recordId s; _templateDeveloperName :=
  _templateDeveloperName s; _rootRecordId := _rootRecordId s; hierarchy :=
  hierarchy s; errorMessage := errorMessage s; isLoading := isLoading s;
  positionedNodes := positionedNodes s; connectorPaths := connectorPaths s;
  objectApiNames := objectApiNames s; _canvasWidth := _canvasWidth s;
  _canvasHeight := _canvasHeight s; _scale := _scale s; _translateX :=
  _translateX s; _translateY := _translateY s; _isPanning := _isPanning s;
  _panStartX := _panStartX s; _panStartY := _panStartY s;
  _panStartTranslateX := _panStartTranslateX s; _panStartTranslateY :=
  _panStartTranslateY s; _activePointerId := _activePointerId s;
  _pendingCenter := _pendingCenter s; _layoutMeta := v;
  _centeredHierarchyKey := _centeredHierarchyKey s; _resizeObserver :=
  _resizeObserver s; _observedNodeIds := _observedNodeIds s;
  _measuredHeightsById := _measuredHeightsById s; _nodeEntries :=
  _nodeEntries s; _edges := _edges s; _viewportObserved := _viewportObserved s;
  _relayoutQueued := _relayoutQueued s |}.

Definition with_centeredHierarchyKey (v : option string) (s : explorer) : explorer :=
  {| _recordId := _recordId s; _templateDeveloperName :=
  _templateDeveloperName s; _rootRecordId := _rootRecordId s; hierarchy :=
  hierarchy s; errorMessage := errorMessage s; isLoading := isLoading s;
  positionedNodes := positionedNodes s; connectorPaths := connectorPaths s;
  objectApiNames := objectApiNames s; _canvasWidth := _canvasWidth s;
  _canvasHeight := _canvasHeight s; _scale := _scale s; _translateX :=
  _translateX s; _translateY := _translateY s; _isPanning := _isPanning s;
  _panStartX := _panStartX s; _panStartY := _panStartY s;
  _panStartTranslateX := _panStartTranslateX s; _panStartTranslateY :=
  _panStartTranslateY s; _activePointerId := _activePointerId s;
  _pendingCenter := _pendingCenter s; _layoutMeta := _layoutMeta s;
  _centeredHierarchyKey := v; _resizeObserver := _resizeObserver s;
  _observedNodeIds := _observedNodeIds s; _measuredHeightsById :=
  _measuredHeightsById s; _nodeEntries := _nodeEntries s; _edges := _edges
  s; _viewportObserved := _viewportObserved s;
  _relayoutQueued := _relayoutQueued s |}.

Definition with_resizeObserver (v : bool) (s : explorer) : explorer :=
  {| _recordId := _recordId s; _templateDeveloperName :=
  _templateDeveloperName s; _rootRecordId := _rootRecordId s; hierarchy :=
  hierarchy s; errorMessage := errorMessage s; isLoading := isLoading s;
  positionedNodes := positionedNodes s; connectorPaths := connectorPaths s;
  objectApiNames := objectApiNames s; _canvasWidth := _canvasWidth s;
  _canvasHeight := _canvasHeight s; _scale := _scale s; _translateX :=
  _translateX s; _translateY := _translateY s; _isPanning := _isPanning s;
  _panStartX := _panStartX s; _panStartY := _panStartY s;
  _panStartTranslateX := _panStartTranslateX s; _panStartTranslateY :=
  _panStartTranslateY s; _activePointerId := _activePointerId s;
  _pendingCenter := _pendingCenter s; _layoutMeta := _layoutMeta s;
  _centeredHierarchyKey := _centeredHierarchyKey s; _resizeObserver := v;
  _observedNodeIds := _observedNodeIds s; _measuredHeightsById :=
  _measuredHeightsById s; _nodeEntries := _nodeEntries s; _edges := _edges
  s; _viewportObserved := _viewportObserved s;
  _relayoutQueued := _relayoutQueued s |}.

Definition with_observedNodeIds (v : list string) (s : explorer) : explorer :=
  {| _recordId := _recordId s; _templateDeveloperName :=
  _templateDeveloperName s; _rootRecordId := _rootRecordId s; hierarchy :=
  hierarchy s; errorMessage := errorMessage s; isLoading := isLoading s;
  positionedNodes := positionedNodes s; connectorPaths := connectorPaths s;
  objectApiNames := objectApiNames s; _canvasWidth := _canvasWidth s;
  _canvasHeight := _canvasHeight s; _scale := _scale s; _translateX :=
  _translateX s; _translateY := _translateY s; _isPanning := _isPanning s;
  _panStartX := _panStartX s; _panStartY := _panStartY s;
  _panStartTranslateX := _panStartTranslateX s; _panStartTranslateY :=
  _panStartTranslateY s; _activePointerId := _activePointerId s;
  _pendingCenter := _pendingCenter s; _layoutMeta := _layoutMeta s;
  _centeredHierarchyKey := _centeredHierarchyKey s; _resizeObserver :=
  _resizeObserver s; _observedNodeIds := v; _measuredHeightsById :=
  _measuredHeightsById s; _nodeEntries := _nodeEntries s; _edges := _edges
  s; _viewportObserved := _viewportObserved s;
  _relayoutQueued := _relayoutQueued s |}.

Definition with_measuredHeightsById (v : JsMap.t Q) (s : explorer) : explorer :=
  {| _recordId := _recordId s; _templateDeveloperName :=
  _templateDeveloperName s; _rootRecordId := _rootRecordId s; hierarchy :=
  hierarchy s; errorMessage := errorMessage s; isLoading := isLoading s;
  positionedNodes := positionedNodes s; connectorPaths := connectorPaths s;
  objectApiNames := objectApiNames s; _canvasWidth := _canvasWidth s;
  _canvasHeight := _canvasHeight s; _scale := _scale s; _translateX :=
  _translateX s; _translateY := _translateY s; _isPanning := _isPanning s;
  _panStartX := _panStartX s; _panStartY := _panStartY s;
  _panStartTranslateX := _panStartTranslateX s; _panStartTranslateY :=
  _panStartTranslateY s; _activePointerId := _activePointerId s;
  _pendingCenter := _pendingCenter s; _layoutMeta := _layoutMeta s;
  _centeredHierarchyKey := _centeredHierarchyKey s; _resizeObserver :=
  _resizeObserver s; _observedNodeIds := _observedNodeIds s;
  _measuredHeightsById := v; _nodeEntries := _nodeEntries s; _edges :=
  _edges s; _viewportObserved := _viewportObserved s;
  _relayoutQueued := _relayoutQueued s |}.

Definition with_nodeEntries (v : list nodeEntry) (s : explorer) : explorer :=
  {| _recordId := _recordId s; _templateDeveloperName :=
  _templateDeveloperName s; _rootRecordId := _rootRecordId s; hierarchy :=
  hierarchy s; errorMessage := errorMessage s; isLoading := isLoading s;
  positionedNodes := positionedNodes s; connectorPaths := connectorPaths s;
  objectApiNames := objectApiNames s; _canvasWidth := _canvasWidth s;
  _canvasHeight := _canvasHeight s; _scale := _scale s; _translateX :=
  _translateX s; _translateY := _translateY s; _isPanning := _isPanning s;
  _panStartX := _panStartX s; _panStartY := _panStartY s;
  _panStartTranslateX := _panStartTranslateX s; _panStartTranslateY :=
  _panStartTranslateY s; _activePointerId := _activePointerId s;
  _pendingCenter := _pendingCenter s; _layoutMeta := _layoutMeta s;
  _centeredHierarchyKey := _centeredHierarchyKey s; _resizeObserver :=
  _resizeObserver s; _observedNodeIds := _observedNodeIds s;
  _measuredHeightsById := _measuredHeightsById s; _nodeEntries := v; _edges
  := _edges s; _viewportObserved := _viewportObserved s;
  _relayoutQueued := _relayoutQueued s |}.

Definition with_edges (v : list hierarchyEdge) (s : explorer) : explorer :=
  {| _recordId := _recordId s; _templateDeveloperName :=
  _templateDeveloperName s; _rootRecordId := _rootRecordId s; hierarchy :=
  hierarchy s; errorMessage := errorMessage s; isLoading := isLoading s;
  positionedNodes := positionedNodes s; connectorPaths := connectorPaths s;
  objectApiNames := objectApiNames s; _canvasWidth := _canvasWidth s;
  _canvasHeight := _canvasHeight s; _scale := _scale s; _translateX :=
  _translateX s; _translateY := _translateY s; _isPanning := _isPanning s;
  _panStartX := _panStartX s; _panStartY := _panStartY s;
  _panStartTranslateX := _panStartTranslateX s; _panStartTranslateY :=
  _panStartTranslateY s; _activePointerId := _activePointerId s;
  _pendingCenter := _pendingCenter s; _layoutMeta := _layoutMeta s;
  _centeredHierarchyKey := _centeredHierarchyKey s; _resizeObserver :=
  _resizeObserver s; _observedNodeIds := _observedNodeIds s;
  _measuredHeightsById := _measuredHeightsById s; _nodeEntries :=
  _nodeEntries s; _edges := v; _viewportObserved := _viewportObserved s;
  _relayoutQueued := _relayoutQueued s |}.

Definition with_viewportObserved (v : bool) (s : explorer) : explorer :=
  {| _recordId := _recordId s; _templateDeveloperName :=
  _templateDeveloperName s; _rootRecordId := _rootRecordId s; hierarchy :=
  hierarchy s; errorMessage := errorMessage s; isLoading := isLoading s;
  positionedNodes := positionedNodes s; connectorPaths := connectorPaths s;
  objectApiNames := objectApiNames s; _canvasWidth := _canvasWidth s;
  _canvasHeight := _canvasHeight s; _scale := _scale s; _translateX :=
  _translateX s; _translateY := _translateY s; _isPanning := _isPanning s;
  _panStartX := _panStartX s; _panStartY := _panStartY s;
  _panStartTranslateX := _panStartTranslateX s; _panStartTranslateY :=
  _panStartTranslateY s; _activePointerId := _activePointerId s;
  _pendingCenter := _pendingCenter s; _layoutMeta := _layoutMeta s;
  _centeredHierarchyKey := _centeredHierarchyKey s; _resizeObserver :=
  _resizeObserver s; _observedNodeIds := _observedNodeIds s;
  _measuredHeightsById := _measuredHeightsById s; _nodeEntries :=
  _nodeEntries s; _edges := _edges s; _viewportObserved := v;
  _relayoutQueued := _relayoutQueued s |}.

Definition with_recordId (v : option string) (s : explorer) : explorer :=
  {| _recordId := v; _templateDeveloperName := _templateDeveloperName s;
  _rootRecordId := _rootRecordId s; hierarchy := hierarchy s; errorMessage
  := errorMessage s; isLoading := isLoading s; positionedNodes :=
  positionedNodes s; connectorPaths := connectorPaths s; objectApiNames :=
  objectApiNames s; _canvasWidth := _canvasWidth s; _canvasHeight :=
  _canvasHeight s; _scale := _scale s; _translateX := _translateX s;
  _translateY := _translateY s; _isPanning := _isPanning s; _panStartX :=
  _panStartX s; _panStartY := _panStartY s; _panStartTranslateX :=
  _panStartTranslateX s; _panStartTranslateY := _panStartTranslateY s;
  _activePointerId := _activePointerId s; _pendingCenter := _pendingCenter
  s; _layoutMeta := _layoutMeta s; _centeredHierarchyKey :=
  _centeredHierarchyKey s; _resizeObserver := _resizeObserver s;
  _observedNodeIds := _observedNodeIds s; _measuredHeightsById :=
  _measuredHeightsById s; _nodeEntries := _nodeEntries s; _edges := _edges
  s; _viewportObserved := _viewportObserved s;
  _relayoutQueued := _relayoutQueued s |}.

Definition with_templateDeveloperName (v : option string) (s : explorer) : explorer :=
  {| _recordId := _recordId s; _templateDeveloperName := v; _rootRecordId :=
  _rootRecordId s; hierarchy := hierarchy s; errorMessage := errorMessage s;
  isLoading := isLoading s; positionedNodes := positionedNodes s;
  connectorPaths := connectorPaths s; objectApiNames := objectApiNames s;
  _canvasWidth := _canvasWidth s; _canvasHeight := _canvasHeight s; _scale
  := _scale s; _translateX := _translateX s; _translateY := _translateY s;
  _isPanning := _isPanning s; _panStartX := _panStartX s; _panStartY :=
  _panStartY s; _panStartTranslateX := _panStartTranslateX s;
  _panStartTranslateY := _panStartTranslateY s; _activePointerId :=
  _activePointerId s; _pendingCenter := _pendingCenter s; _layoutMeta :=
  _layoutMeta s; _centeredHierarchyKey := _centeredHierarchyKey s;
  _resizeObserver := _resizeObserver s; _observedNodeIds := _observedNodeIds
  s; _measuredHeightsById := _measuredHeightsById s; _nodeEntries :=
  _nodeEntries s; _edges := _edges s; _viewportObserved := _viewportObserved s;
  _relayoutQueued := _relayoutQueued s |}.

Definition with_rootRecordId (v : option string) (s : explorer) : explorer :=
  {| _recordId := _recordId s; _templateDeveloperName :=
  _templateDeveloperName s; _rootRecordId := v; hierarchy := hierarchy s;
  errorMessage := errorMessage s; isLoading := isLoading s; positionedNodes
  := positionedNodes s; connectorPaths := connectorPaths s; objectApiNames
  := objectApiNames s; _canvasWidth := _canvasWidth s; _canvasHeight :=
  _canvasHeight s; _scale := _scale s; _translateX := _translateX s;
  _translateY := _translateY s; _isPanning := _isPanning s; _panStartX :=
  _panStartX s; _panStartY := _panStartY s; _panStartTranslateX :=
  _panStartTranslateX s; _panStartTranslateY := _panStartTranslateY s;
  _activePointerId := _activePointerId s; _pendingCenter := _pendingCenter
  s; _layoutMeta := _layoutMeta s; _centeredHierarchyKey :=
  _centeredHierarchyKey s; _resizeObserver := _resizeObserver s;
  _observedNodeIds := _observedNodeIds s; _measuredHeightsById :=
  _measuredHeightsById s; _nodeEntries := _nodeEntries s; _edges := _edges
  s; _viewportObserved := _viewportObserved s;
  _relayoutQueued := _relayoutQueued s |}.

Definition with_scale (v : number) (s : explorer) : explorer :=
  {| _recordId := _recordId s; _templateDeveloperName :=
  _templateDeveloperName s; _rootRecordId := _rootRecordId s; hierarchy :=
  hierarchy s; errorMessage := errorMessage s; isLoading := isLoading s;
  positionedNodes := positionedNodes s; connectorPaths := connectorPaths s;
  objectApiNames := objectApiNames s; _canvasWidth := _canvasWidth s;
  _canvasHeight := _canvasHeight s; _scale := v; _translateX := _translateX
  s; _translateY := _translateY s; _isPanning := _isPanning s; _panStartX :=
  _panStartX s; _panStartY := _panStartY s; _panStartTranslateX :=
  _panStartTranslateX s; _panStartTranslateY := _panStartTranslateY s;
  _activePointerId := _activePointerId s; _pendingCenter := _pendingCenter
  s; _layoutMeta := _layoutMeta s; _centeredHierarchyKey :=
  _centeredHierarchyKey s; _resizeObserver := _resizeObserver s;
  _observedNodeIds := _observedNodeIds s; _measuredHeightsById :=
  _measuredHeightsById s; _nodeEntries := _nodeEntries s; _edges := _edges
  s; _viewportObserved := _viewportObserved s;
  _relayoutQueued := _relayoutQueued s |}.



Definition with_relayoutQueued (v : bool) (s : explorer) : explorer :=
  {| _recordId := _recordId s; _templateDeveloperName :=
  _templateDeveloperName s; _rootRecordId := _rootRecordId s; hierarchy :=
  hierarchy s; errorMessage := errorMessage s; isLoading := isLoading s;
  positionedNodes := positionedNodes s; connectorPaths := connectorPaths s;
  objectApiNames := objectApiNames s; _canvasWidth := _canvasWidth s;
  _canvasHeight := _canvasHeight s; _scale := _scale s; _translateX :=
  _translateX s; _translateY := _translateY s; _isPanning := _isPanning s;
  _panStartX := _panStartX s; _panStartY := _panStartY s;
  _panStartTranslateX := _panStartTranslateX s; _panStartTranslateY :=
  _panStartTranslateY s; _activePointerId := _activePointerId s;
  _pendingCenter := _pendingCenter s; _layoutMeta := _layoutMeta s;
  _centeredHierarchyKey := _centeredHierarchyKey s; _resizeObserver :=
  _resizeObserver s; _observedNodeIds := _observedNodeIds s;
  _measuredHeightsById := _measuredHeightsById s; _nodeEntries :=
  _nodeEntries s; _edges := _edges s; _viewportObserved := _viewportObserved
  s; _relayoutQueued := v |}.

(** *** Imported functions *)

(** [normalizeString] of [c/lresFieldUtils]: from a string-or-null value
    to a string-or-null value. *)
Variable normalizeString : option string -> option string.

(** [computeTreeLayout] and [buildOrthogonalPaths] of [./layout], both
    pure functions of their arguments. *)
Variable computeTreeLayout :
  list hierarchyNode -> list hierarchyEdge -> layoutOptions ->
  JsMap.t treePosition * layoutBounds.
Variable buildOrthogonalPaths :
  list hierarchyEdge -> JsMap.t position -> list path.

(** [parseError(error).message] of [c/lresErrorHandler]. *)
Variable parseError : error -> option string.

(** *** Truthiness of string-or-null values *)

(** [Boolean(v)]: [null], [undefined] and the empty string are falsy. *)
Definition truthy (v : option string) : bool :=
  match v with
  | Some s => negb (String.eqb s "")
  | None => false
  end.

(** [a || b]. *)
Definition js_or (a b : option string) : option string :=
  if truthy a then a else b.

(** [`${v || ""}`] inside a template literal. *)
Definition or_empty (v : option string) : string :=
  match js_or v (Some ""%string) with
  | Some s => s
  | None => ""
  end.

(** *** Row-height re-flow *)

(** The height a node contributes: the measured height capped at
    [nodeMaxHeight] when [Number.isFinite(measured) && measured > 0], the
    nominal [nodeMaxHeight] otherwise ([measured] is [None] when the map
    has no entry). *)
Definition resolvedHeight (measured : option Q) (nodeMaxHeight : Q) : Q :=
  match measured with
  | Some m => if Qlt_b 0 m then Qmin m nodeMaxHeight else nodeMaxHeight
  | None => nodeMaxHeight
  end.

(** First loop of [applyRowHeightLayout]: the running maximum per depth. *)
Definition accumulateMaxHeights (lm : layoutMeta) (measured : JsMap.t Q)
  : list nanable :=
  fold_left
    (fun maxHeightByDepth (e : string * basePosition) =>
       let depth := base_depth (snd e) in
       let height :=
         resolvedHeight (JsMap.get (fst e) measured) (nodeMaxHeight lm) in
       JsArray.set maxHeightByDepth depth
         (Math_max (JsArray.get maxHeightByDepth depth) height))
    (basePositionsById lm)
    (JsArray.filled (maxDepth lm + 1) 0).

(** Second loop: every slot that is still falsy takes the nominal
    height. *)
Definition fillMissingHeights (lm : layoutMeta) (maxHeightByDepth : list nanable)
  : list nanable :=
  map (fun h => if falsy h then Some (nodeMaxHeight lm) else h)
      maxHeightByDepth.

Definition maxHeightByDepth (lm : layoutMeta) (measured : JsMap.t Q)
  : list nanable :=
  fillMissingHeights lm (accumulateMaxHeights lm measured).

(** Third loop: [topByDepth[depth] = topByDepth[depth - 1] +
    maxHeightByDepth[depth - 1] + gapY] for [depth] from 1 to
    [maxDepth].  The sums are exact; they are the doubles of the code
    when the heights are whole numbers of pixels. *)
Definition topByDepth (lm : layoutMeta) (heights : list nanable)
  : list nanable :=
  fold_left
    (fun tops depth =>
       JsArray.set tops depth
         (add (add (JsArray.get tops (depth - 1))
                   (JsArray.get heights (depth - 1)))
              (Some (gapY lm))))
    (seq 1 (maxDepth lm))
    (JsArray.filled (maxDepth lm + 1) 0).

(** Fourth loop: the adjusted position of every node. *)
Definition adjustedPosition (lm : layoutMeta) (measured : JsMap.t Q)
  (tops : list nanable) (e : string * basePosition) : position :=
  let pos := snd e in
  let depth := base_depth pos in
  let height :=
    resolvedHeight (JsMap.get (fst e) measured) (nodeMaxHeight lm) in
  let top := or_zero (JsArray.get tops depth) in
  {| left := base_left pos;
     top := top;
     depth := depth;
     centerX := base_centerX pos;
     centerY := top + height / 2;
     bottomY := top + height |}.

Definition adjustedPositions (lm : layoutMeta) (measured : JsMap.t Q)
  (tops : list nanable) : JsMap.t position :=
  JsMap.collect (adjustedPosition lm measured tops)
    (basePositionsById lm) JsMap.empty.

(** [Math.ceil(lastRowBottom + gapY)]. *)
Definition canvasHeightOf (lm : layoutMeta) (heights tops : list nanable) : Q :=
  let lastRowBottom :=
    or_zero (JsArray.get tops (maxDepth lm))
    + or_zero (JsArray.get heights (maxDepth lm)) in
  Math_ceil (lastRowBottom + gapY lm).

(** [_nodeEntries.map(...).filter(Boolean)]: entries without a position
    are dropped. *)
Definition renderNodes (lm : layoutMeta) (positions : JsMap.t position)
  (entries : list nodeEntry) : list positionedNode :=
  flat_map
    (fun entry =>
       match JsMap.get (entry_id entry) positions with
       | None => []
       | Some pos =>
           [ {| pn_id := entry_id entry;
                pn_card := entry_card entry;
                pn_enableTextWrap := node_enableTextWrap (entry_card entry);
                style_left := left pos;
                style_top := top pos;
                style_width := nodeWidth lm;
                scrollStyle_maxHeight := nodeMaxHeight lm |} ]
       end)
    entries.

Definition with_positionsById (v : JsMap.t position) (lm : layoutMeta)
  : layoutMeta :=
  {| basePositionsById := basePositionsById lm;
     positionsById := v;
     nodeWidth := nodeWidth lm;
     nodeMaxHeight := nodeMaxHeight lm;
     gapY := gapY lm;
     maxDepth := maxDepth lm |}.

Definition applyRowHeightLayout (s : explorer) : explorer :=
  match _layoutMeta s with
  | None => s
  | Some lm =>
      let heights := maxHeightByDepth lm (_measuredHeightsById s) in
      let tops := topByDepth lm heights in
      let adjustedPositionsById :=
        adjustedPositions lm (_measuredHeightsById s) tops in
      let s := with_canvasHeight (canvasHeightOf lm heights tops) s in
      let s := with_layoutMeta
                 (Some (with_positionsById adjustedPositionsById lm)) s in
      let s := with_positionedNodes
                 (renderNodes lm adjustedPositionsById (_nodeEntries s)) s in
      with_connectorPaths
        (buildOrthogonalPaths (_edges s) adjustedPositionsById) s
  end.

(** [relayout()]. *)
Definition relayout (s : explorer) : explorer := applyRowHeightLayout s.

(** *** Building the render model of a fetched hierarchy *)

Definition disconnectResizeObserver (s : explorer) : explorer :=
  with_viewportObserved false
    (with_observedNodeIds [] (with_resizeObserver false s)).

(** The copy of [positionsById] into [basePositionsById]; [pos.depth || 0]
    is [pos.depth] on a row index. *)
Definition copyBasePositions (positions : JsMap.t treePosition)
  : JsMap.t basePosition :=
  JsMap.collect
    (fun e =>
       {| base_left := tree_left (snd e);
          base_centerX := tree_centerX (snd e);
          base_depth := tree_depth (snd e) |})
    positions JsMap.empty.

Definition maxDepthOf (positions : JsMap.t treePosition) : nat :=
  fold_left (fun m (e : string * treePosition) => Nat.max m (tree_depth (snd e)))
    positions 0%nat.

(** [nodes.map(...).filter(Boolean)]: a node without an id has no
    entry.  The card of an entry is the node itself. *)
Definition nodeEntriesOf (ns : list hierarchyNode) : list nodeEntry :=
  flat_map
    (fun node =>
       match node_id node with
       | Some id =>
           if truthy (Some id)
           then [ {| entry_id := id; entry_card := node |} ]
           else []
       | None => []
       end)
    ns.

Definition hierarchyNodes (s : explorer) : list hierarchyNode :=
  match hierarchy s with
  | Some h => match nodes h with Some ns => ns | None => [] end
  | None => []
  end.

Definition hierarchyEdges (s : explorer) : list hierarchyEdge :=
  match hierarchy s with
  | Some h => match edges h with Some es => es | None => [] end
  | None => []
  end.

Definition buildRenderModel (s : explorer) : explorer :=
  let s := with_measuredHeightsById JsMap.empty s in
  let s := disconnectResizeObserver s in
  let ns := hierarchyNodes s in
  let es := hierarchyEdges s in
  let s := with_edges es s in
  let layout :=
    computeTreeLayout ns es
      {| opt_nodeWidth := DEFAULT_NODE_WIDTH;
         opt_nodeHeight := DEFAULT_NODE_HEIGHT;
         opt_gapX := GAP_X;
         opt_gapY := GAP_Y |} in
  let s := with_canvasWidth
             (Math_ceil (bounds_width (snd layout) + GAP_X)) s in
  let s := with_layoutMeta
             (Some {| basePositionsById := copyBasePositions (fst layout);
                      positionsById := JsMap.empty;
                      nodeWidth := DEFAULT_NODE_WIDTH;
                      nodeMaxHeight := DEFAULT_NODE_HEIGHT;
                      gapY := GAP_Y;
                      maxDepth := maxDepthOf (fst layout) |}) s in
  let s := with_nodeEntries (nodeEntriesOf ns) s in
  let s := applyRowHeightLayout s in
  with_pendingCenter true s.


(** *** Imperative re-layout with supplied heights *)

(** The numeric value of a string (the built-in StringToNumber). *)
Variable StringToNumber : string -> number.

(** [Boolean(v)]. *)
Definition value_truthy (v : value) : bool :=
  match v with
  | VPrimitive PUndefined | VPrimitive PNull => false
  | VPrimitive (PBoolean b) => b
  | VPrimitive (PNumber (Finite q)) | VPrimitive (PBigInt (Finite q)) =>
      negb (Qeq_bool q 0)
  | VPrimitive (PNumber NaN) | VPrimitive (PBigInt NaN) => false
  | VPrimitive (PNumber _) | VPrimitive (PBigInt _) => true
  | VPrimitive (PString s) => negb (String.eqb s "")
  | VPrimitive PSymbol => true
  | VObject _ _ _ => true
  end.

(** [typeof v === "object"]. *)
Definition typeof_object (v : value) : bool :=
  match v with
  | VPrimitive PNull => true
  | VPrimitive _ => false
  | VObject callable _ _ => negb callable
  end.

(** [Object.entries(v)] of a truthy value of type object. *)
Definition Object_entries (v : value) : completion (list (string * value)) :=
  match v with
  | VObject _ entries _ => entries
  | VPrimitive _ => Normal []
  end.

(** The built-in conversion of a primitive to a number.  A symbol has no
    numeric value. *)
Definition primitiveToNumber (p : primitive) : completion number :=
  match p with
  | PUndefined => Normal NaN
  | PNull => Normal (Finite 0)
  | PBoolean b => Normal (Finite (if b then 1 else 0))
  | PNumber n => Normal n
  | PString s => Normal (StringToNumber s)
  | PSymbol => Throw TypeError
  | PBigInt numeric => Normal numeric
  end.

(** The built-in [Number(v)]: an object is converted to a primitive
    first. *)
Definition Number (v : value) : completion number :=
  match v with
  | VPrimitive p => primitiveToNumber p
  | VObject _ _ toPrimitive =>
      match toPrimitive with
      | Normal p => primitiveToNumber p
      | Throw e => Throw e
      end
  end.

(** The [forEach] over the entries, filling [nextMap]. *)
Fixpoint collectHeights (entries : list (string * value)) (nextMap : JsMap.t Q)
  : completion (JsMap.t Q) :=
  match entries with
  | [] => Normal nextMap
  | (id, height) :: rest =>
      if String.eqb id "" then collectHeights rest nextMap
      else
        match Number height with
        | Throw e => Throw e
        | Normal numeric =>
            match positiveFinite numeric with
            | Some q => collectHeights rest (JsMap.set id q nextMap)
            | None => collectHeights rest nextMap
            end
        end
  end.

(** [nextMap] as the method has filled it when it reaches the
    assignment. *)
Definition nextMapOf (heightsById : value) : completion (JsMap.t Q) :=
  if value_truthy heightsById && typeof_object heightsById
  then
    match Object_entries heightsById with
    | Normal entries => collectHeights entries JsMap.empty
    | Throw e => Throw e
    end
  else Normal JsMap.empty.

Definition relayoutWithHeights (heightsById : value) (s : explorer)
  : completion explorer :=
  match nextMapOf heightsById with
  | Throw e => Throw e
  | Normal nextMap =>
      Normal (applyRowHeightLayout (with_measuredHeightsById nextMap s))
  end.

(** *** Fetching *)

(** What a method asks of its surroundings. *)
Inductive effect : Type :=
| GetHierarchy (request : hierarchyRequest)
| ShowErrorToast (e : error) (title : string)
| SetPointerCapture (id : Z)
| ReleasePointerCapture (id : option Z)
| PreventDefault.

(** The getter [effectiveRootRecordId]. *)
Definition effectiveRootRecordId (s : explorer) : option string :=
  js_or (normalizeString (_rootRecordId s)) (normalizeString (_recordId s)).

Definition hasError (s : explorer) : bool := truthy (errorMessage s).

Definition hasData (s : explorer) : bool :=
  match hierarchy s with Some _ => true | None => false end.

Definition nodeCount (s : explorer) : nat := List.length (hierarchyNodes s).

Definition isCapped (s : explorer) : bool :=
  match hierarchy s with Some h => capped h | None => false end.

(** The getter [capMessage]. *)
Definition capMessageOf (s : explorer) : option string :=
  js_or (match hierarchy s with Some h => capMessage h | None => None end)
        (Some "Results were capped."%string).

(** [extractObjectApiNames]: the distinct normalised object names, in
    order of first appearance, or [undefined] when there is none. *)
Definition extractObjectApiNames (ns : list hierarchyNode)
  : option (list string) :=
  let unique :=
    fold_left
      (fun unique node =>
         match normalizeString (node_objectApiName node) with
         | Some apiName =>
             if truthy (Some apiName)
             then if existsb (String.eqb apiName) unique
                  then unique else unique ++ [apiName]
             else unique
         | None => unique
         end)
      ns [] in
  match unique with
  | [] => None
  | _ => Some unique
  end.

(** [refreshHierarchy], up to the call of [getHierarchy]. *)
Definition refreshHierarchy (s : explorer) : explorer * list effect :=
  let templateDeveloperName := normalizeString (_templateDeveloperName s) in
  let effectiveRootRecordId := effectiveRootRecordId s in
  if negb (truthy templateDeveloperName) || negb (truthy effectiveRootRecordId)
  then (with_errorMessage None (with_hierarchy None s), [])
  else
    (with_errorMessage None (with_isLoading true s),
     [ GetHierarchy
         {| req_templateDeveloperName := templateDeveloperName;
            req_effectiveRootRecordId := effectiveRootRecordId;
            req_maxLevels := MAX_LEVELS;
            req_maxNodes := MAX_NODES |} ]).

(** The [then] callback; [result] is [None] for a null result. *)
Definition onHierarchyResolved (result : option hierarchyResult) (s : explorer)
  : explorer :=
  let s := with_hierarchy result s in
  let s := with_objectApiNames
             (extractObjectApiNames
                (match result with
                 | Some h => match nodes h with Some ns => ns | None => [] end
                 | None => []
                 end)) s in
  let s := buildRenderModel s in
  with_pendingCenter true s.

(** The [catch] callback. *)
Definition onHierarchyRejected (e : error) (s : explorer)
  : explorer * list effect :=
  let s := with_hierarchy None s in
  let s := with_positionedNodes [] s in
  let s := with_connectorPaths [] s in
  let s := with_errorMessage (parseError e) s in
  let s := with_objectApiNames None s in
  (s, [ShowErrorToast e "Hierarchy Explorer Error"]).

(** The [finally] callback. *)
Definition onHierarchySettled (s : explorer) : explorer :=
  with_isLoading false s.

(** How a pending [getHierarchy] promise settles. *)
Inductive fetchOutcome : Type :=
| Resolved (result : option hierarchyResult)
| Rejected (e : error).

Definition settleHierarchy (o : fetchOutcome) (s : explorer)
  : explorer * list effect :=
  match o with
  | Resolved result => (onHierarchySettled (onHierarchyResolved result s), [])
  | Rejected e =>
      let r := onHierarchyRejected e s in
      (onHierarchySettled (fst r), snd r)
  end.

(** *** Centering *)

Definition nat_to_string (n : nat) : string :=
  NilEmpty.string_of_uint (Nat.to_uint n).

(** The identity key of the displayed hierarchy. *)
Definition hierarchyKey (s : explorer) : string :=
  (or_empty (normalizeString (_templateDeveloperName s))
   ++ "|" ++ or_empty (normalizeString (effectiveRootRecordId s))
   ++ "|" ++ or_empty (match hierarchy s with Some h => rootId h | None => None end)
   ++ "|" ++ nat_to_string (List.length (hierarchyNodes s))
   ++ "|" ++ nat_to_string (List.length (hierarchyEdges s)))%string.

(** The root to centre on: the result's root id, else the effective root
    id, else the first node. *)
Definition resolveRootId (s : explorer) : option string :=
  js_or (normalizeString
           (match hierarchy s with Some h => rootId h | None => None end))
    (js_or (normalizeString (effectiveRootRecordId s))
       (normalizeString
          (match hierarchyNodes s with
           | node :: _ => node_id node
           | [] => None
           end))).

(** [Number.isFinite(this._scale) ? this._scale : 1]. *)
Definition currentScale (s : explorer) : Q :=
  match _scale s with
  | Finite q => q
  | _ => 1
  end.

(** [this._centeredHierarchyKey === hierarchyKey]. *)
Definition isCenteredKey (centered : option string) (key : string) : bool :=
  match centered with
  | Some k => String.eqb k key
  | None => false
  end.

Definition centerRootInViewport (viewport : viewportQuery) (s : explorer)
  : bool * explorer :=
  match viewport, _layoutMeta s with
  | NoViewport, _ => (false, s)
  | _, None => (false, s)
  | _, Some layoutMeta =>
      let rect :=
        match viewport with
        | ViewportRect rect => Some rect
        | _ => None
        end in
      let viewportWidth :=
        or_zero (match rect with Some r => rect_width r | None => None end) in
      let viewportHeight :=
        or_zero (match rect with Some r => rect_height r | None => None end) in
      if Qle_bool viewportWidth 0 || Qle_bool viewportHeight 0
      then (false, s)
      else
        let hierarchyKey := hierarchyKey s in
        if isCenteredKey (_centeredHierarchyKey s) hierarchyKey
        then (true, s)
        else
          let rootId := resolveRootId s in
          if negb (truthy rootId) then (false, s)
          else
            match rootId with
            | None => (false, s)
            | Some rootId =>
                match JsMap.get rootId (positionsById layoutMeta) with
                | None => (false, s)
                | Some rootPos =>
                    let rootCenterX := centerX rootPos in
                    let rootCenterY := centerY rootPos in
                    let scale := currentScale s in
                    let nextTranslateX :=
                      Math_round (viewportWidth / 2 - rootCenterX * scale) in
                    let nextTranslateY :=
                      Math_round (viewportHeight / 2 - rootCenterY * scale) in
                    let s := with_translateX nextTranslateX s in
                    let s := with_translateY nextTranslateY s in
                    (true, with_centeredHierarchyKey (Some hierarchyKey) s)
                end
            end
  end.

Definition tryCenterRootInViewport (viewport : viewportQuery) (s : explorer)
  : explorer :=
  let r := centerRootInViewport viewport s in
  if fst r then with_pendingCenter false (snd r) else snd r.

(** [recenter()]. *)
Definition recenter (viewport : viewportQuery) (s : explorer) : explorer :=
  tryCenterRootInViewport viewport (with_pendingCenter true s).

(** *** Size observation *)

(** [queueRelayout], up to the microtask it schedules. *)
Definition queueRelayout (s : explorer) : explorer :=
  if _relayoutQueued s then s else with_relayoutQueued true s.

(** The microtask of [queueRelayout]. *)
Definition runQueuedRelayout (isConnected : bool) (viewport : viewportQuery)
  (s : explorer) : explorer :=
  let s := with_relayoutQueued false s in
  if negb isConnected || negb (hasData s) then s
  else
    let s := applyRowHeightLayout s in
    if _pendingCenter s then tryCenterRootInViewport viewport s else s.

(** [this._measuredHeightsById.get(id) !== rounded]. *)
Definition heightDiffers (measured : option Q) (rounded : Q) : bool :=
  match measured with
  | Some m => negb (Qeq_bool m rounded)
  | None => true
  end.

(** One turn of the [forEach] in [handleNodeResizes]: the state and the
    [didUpdate] flag. *)
Definition handleNodeResize (viewport : viewportQuery)
  (acc : explorer * bool) (entry : resizeEntry) : explorer * bool :=
  let s := fst acc in
  let s :=
    if _pendingCenter s && resize_isViewport entry
    then tryCenterRootInViewport viewport s else s in
  match resize_nodeId entry with
  | None => (s, snd acc)
  | Some id =>
      if negb (truthy (Some id)) then (s, snd acc)
      else
        match positiveFinite (resize_height entry) with
        | None => (s, snd acc)
        | Some height =>
            let rounded := Math_round height in
            if heightDiffers (JsMap.get id (_measuredHeightsById s)) rounded
            then
              (with_measuredHeightsById
                 (JsMap.set id rounded (_measuredHeightsById s)) s, true)
            else (s, snd acc)
        end
  end.

Definition handleNodeResizes (viewport : viewportQuery)
  (entries : list resizeEntry) (s : explorer) : explorer :=
  let r := fold_left (handleNodeResize viewport) entries (s, false) in
  if snd r then queueRelayout (fst r) else fst r.

(** *** Panning *)

(** [target?.closest?.(...)] for the three excluded regions. *)
Definition hitsExcludedRegion (t : option eventTarget) : bool :=
  match t with
  | Some t => closest_controls t || closest_node t || closest_card t
  | None => false
  end.

(** [handleCanvasPointerDown]; [None] is a missing event. *)
Definition handleCanvasPointerDown (event : option pointerEvent) (s : explorer)
  : explorer * list effect :=
  match event with
  | None => (s, [])
  | Some event =>
      if _isPanning s then (s, [])
      else if hitsExcludedRegion (target event) then (s, [])
      else if negb (Z.eqb (button event) 0) then (s, [])
      else
        let s := with_isPanning true s in
        let s := with_activePointerId (Some (pointerId event)) s in
        let s := with_panStartX (clientX event) s in
        let s := with_panStartY (clientY event) s in
        let s := with_panStartTranslateX (_translateX s) s in
        let s := with_panStartTranslateY (_translateY s) s in
        (s,
         (if currentTarget_capturesPointer event
          then [SetPointerCapture (pointerId event)] else [])
         ++ [PreventDefault])
  end.

(** [this._activePointerId !== undefined && event.pointerId !==
    this._activePointerId]. *)
Definition otherPointer (event : pointerEvent) (s : explorer) : bool :=
  match _activePointerId s with
  | Some active => negb (Z.eqb (pointerId event) active)
  | None => false
  end.

Definition handleCanvasPointerMove (event : pointerEvent) (s : explorer)
  : explorer * list effect :=
  if negb (_isPanning s) then (s, [])
  else if otherPointer event s then (s, [])
  else
    let dx := clientX event - _panStartX s in
    let dy := clientY event - _panStartY s in
    let s' := with_translateX (_panStartTranslateX s + dx) s in
    let s' := with_translateY (_panStartTranslateY s + dy) s' in
    (s', [PreventDefault]).

(** [handleCanvasPointerUp]; [None] is a missing event, whose [pointerId]
    reads [undefined]. *)
Definition handleCanvasPointerUp (event : option pointerEvent) (s : explorer)
  : explorer * list effect :=
  let eventPointerId :=
    match event with Some e => Some (pointerId e) | None => None end in
  let otherPointer :=
    match _activePointerId s, eventPointerId with
    | Some active, Some id => negb (Z.eqb id active)
    | Some _, None => true
    | None, _ => false
    end in
  if otherPointer then (s, [])
  else
    let s := with_isPanning false s in
    let s := with_activePointerId None s in
    (s,
     match event with
     | Some e =>
         (if currentTarget_capturesPointer e
          then [ReleasePointerCapture eventPointerId] else [])
         ++ [PreventDefault]
     | None => []
     end).

(** *** The component over time *)

(** The component together with the number of [getHierarchy] promises
    that have not settled yet. *)
Record running : Type := {
  component : explorer;
  pendingFetches : nat
}.

Definition fetchesIn (effects : list effect) : nat :=
  List.length
    (filter (fun e => match e with GetHierarchy _ => true | _ => false end)
       effects).

(** One event of the component's life: a public property is set, a
    refresh runs, a pending fetch settles, a public method, a pointer
    handler or the resize observer runs, a queued re-layout runs. *)
Inductive step : running -> running -> Prop :=
| step_setRecordId v r :
    step r {| component := with_recordId v (component r);
              pendingFetches := pendingFetches r |}
| step_setTemplateDeveloperName v r :
    step r {| component := with_templateDeveloperName v (component r);
              pendingFetches := pendingFetches r |}
| step_setRootRecordId v r :
    step r {| component := with_rootRecordId v (component r);
              pendingFetches := pendingFetches r |}
| step_refresh r :
    step r {| component := fst (refreshHierarchy (component r));
              pendingFetches :=
                pendingFetches r
                + fetchesIn (snd (refreshHierarchy (component r))) |}
| step_settle o r n :
    pendingFetches r = S n ->
    step r {| component := fst (settleHierarchy o (component r));
              pendingFetches := n |}
| step_recenter viewport r :
    step r {| component := recenter viewport (component r);
              pendingFetches := pendingFetches r |}
| step_relayout r :
    step r {| component := relayout (component r);
              pendingFetches := pendingFetches r |}
| step_relayoutWithHeights heightsById r s' :
    relayoutWithHeights heightsById (component r) = Normal s' ->
    step r {| component := s'; pendingFetches := pendingFetches r |}
| step_pointerDown event r :
    step r {| component := fst (handleCanvasPointerDown event (component r));
              pendingFetches := pendingFetches r |}
| step_pointerMove event r :
    step r {| component := fst (handleCanvasPointerMove event (component r));
              pendingFetches := pendingFetches r |}
| step_pointerUp event r :
    step r {| component := fst (handleCanvasPointerUp event (component r));
              pendingFetches := pendingFetches r |}
| step_resize viewport entries r :
    step r {| component := handleNodeResizes viewport entries (component r);
              pendingFetches := pendingFetches r |}
| step_queuedRelayout isConnected viewport r :
    _relayoutQueued (component r) = true ->
    step r {| component :=
                runQueuedRelayout isConnected viewport (component r);
              pendingFetches := pendingFetches r |}.

(** The component as its field initialisers leave it. *)
Definition initial : explorer :=
  {| _recordId := None;
     _templateDeveloperName := None;
     _rootRecordId := None;
     hierarchy := None;
     errorMessage := None;
     isLoading := false;
     positionedNodes := [];
     connectorPaths := [];
     objectApiNames := None;
     _canvasWidth := 0;
     _canvasHeight := 0;
     _scale := Finite (7 # 10);
     _translateX := 0;
     _translateY := 0;
     _isPanning := false;
     _panStartX := 0;
     _panStartY := 0;
     _panStartTranslateX := 0;
     _panStartTranslateY := 0;
     _activePointerId := None;
     _pendingCenter := false;
     _layoutMeta := None;
     _centeredHierarchyKey := None;
     _resizeObserver := false;
     _observedNodeIds := [];
     _measuredHeightsById := JsMap.empty;
     _nodeEntries := [];
     _edges := [];
     _viewportObserved := false;
     _relayoutQueued := false |}.

Inductive reachable : running -> Prop :=
| reachable_initial :
    reachable {| component := initial; pendingFetches := 0 |}
| reachable_step r r' : reachable r -> step r r' -> reachable r'.

End Explorer.

(* ------------------------------------------------------------------ *)
(** ** Observing rendered elements *)

(** What [renderedCallback] finds in the rendered template: whether the
    platform has [ResizeObserver], the [dataset.nodeId] of every
    [.hierarchy-explorer_node[data-node-id]] element in document order,
    and the viewport element. *)
Record renderedDom : Type := {
  dom_resizeObserverSupported : bool;
  dom_nodeIds : list (option string);
  dom_viewport : viewportQuery
}.

(** A call of [this._resizeObserver.observe(...)]. *)
Inductive observation : Type :=
| ObserveNode (id : string)
| ObserveViewport.

Section Rendering.

Context {path : Type}.
Variable normalizeString : option string -> option string.

(** [ensureResizeObserver]. *)
Definition ensureResizeObserver (supported : bool) (s : @explorer path)
  : @explorer path :=
  if _resizeObserver s || negb supported then s
  else with_observedNodeIds [] (with_resizeObserver true s).

(** [this._observedNodeIds.has(id)]. *)
Definition isObserved (id : string) (s : @explorer path) : bool :=
  existsb (String.eqb id) (_observedNodeIds s).

(** One turn of the [forEach] in [observeRenderedNodes]. *)
Definition observeRenderedNode (acc : @explorer path * list observation)
  (nodeId : option string) : @explorer path * list observation :=
  match nodeId with
  | None => acc
  | Some id =>
      if negb (truthy (Some id)) || isObserved id (fst acc) then acc
      else
        (with_observedNodeIds (_observedNodeIds (fst acc) ++ [id]) (fst acc),
         snd acc ++ [ObserveNode id])
  end.

(** [observeRenderedNodes]. *)
Definition observeRenderedNodes (nodeIds : list (option string))
  (s : @explorer path) : @explorer path * list observation :=
  if negb (_resizeObserver s) then (s, [])
  else fold_left observeRenderedNode nodeIds (s, []).

(** [observeViewportForCentering]. *)
Definition observeViewportForCentering (viewport : viewportQuery)
  (s : @explorer path) : @explorer path * list observation :=
  if _viewportObserved s || negb (_resizeObserver s) then (s, [])
  else
    match viewport with
    | NoViewport => (s, [])
    | _ => (with_viewportObserved true s, [ObserveViewport])
    end.

(** [renderedCallback]. *)
Definition renderedCallback (dom : renderedDom) (s : @explorer path)
  : @explorer path * list observation :=
  if negb (hasData s) then (s, [])
  else
    let s := ensureResizeObserver (dom_resizeObserverSupported dom) s in
    let nodes := observeRenderedNodes (dom_nodeIds dom) s in
    let viewport := observeViewportForCentering (dom_viewport dom) (fst nodes) in
    let s := fst viewport in
    let s :=
      if _pendingCenter s
      then tryCenterRootInViewport normalizeString (dom_viewport dom) s
      else s in
    (s, snd nodes ++ snd viewport).

End Rendering.

(* ------------------------------------------------------------------ *)
(** ** Opening a record *)

(** How the host answers the calls of [openRecordInNewTab].  [None] is a
    rejected promise; a [false] outcome is a call that rejects or throws. *)
Record navigationHost : Type := {
  host_isConsoleNavigation : option bool;
  host_focusedTabId : option (option string);
  host_openSubtab : bool;
  host_openTab : bool;
  host_navigate : bool
}.

(** The calls [openRecordInNewTab] makes, in order. *)
Inductive navigationCall : Type :=
| OpenSubtab (parentTabId recordId : string)
| OpenTab (recordId : string)
| Navigate (recordId : string)
| NavigationErrorToast.

(** The second [try] of [openRecordInNewTab]: standard navigation, with a
    toast when it throws. *)
Definition standardNavigation (host : navigationHost) (recordId : string)
  : list navigationCall :=
  Navigate recordId
  :: (if host_navigate host then [] else [NavigationErrorToast]).

(** [openRecordInNewTab]. *)
Definition openRecordInNewTab (host : navigationHost) (recordId : string)
  : list navigationCall :=
  match host_isConsoleNavigation host with
  | Some true =>
      match host_focusedTabId host with
      | Some focused =>
          match focused with
          | Some parentTabId =>
              if truthy (Some parentTabId)
              then
                OpenSubtab parentTabId recordId
                :: (if host_openSubtab host then []
                    else standardNavigation host recordId)
              else
                OpenTab recordId
                :: (if host_openTab host then []
                    else standardNavigation host recordId)
          | None =>
              OpenTab recordId
              :: (if host_openTab host then []
                  else standardNavigation host recordId)
          end
      | None => standardNavigation host recordId
      end
  | Some false => standardNavigation host recordId
  | None => standardNavigation host recordId
  end.

(** [handleCardTitleClick] and [handleCardOpenExternalLink]: the argument
    is [event?.detail?.recordId]. *)
Definition handleCardTitleClick (host : navigationHost)
  (recordId : option string) : list navigationCall :=
  match recordId with
  | Some id => if truthy (Some id) then openRecordInNewTab host id else []
  | None => []
  end.

(** [handleTitleClick] and [handleExternalClick] of the card component:
    the [recordId] of the event it dispatches, if it dispatches one.  The
    argument is [this.card?.id]. *)
Definition cardTitleClick (cardId : option string) : option string :=
  if truthy cardId then cardId else None.

(* ------------------------------------------------------------------ *)
(** ** Scheduling a refresh *)

(** The three public properties whose setters schedule a refresh. *)
Inductive publicProperty : Type :=
| RecordId
| TemplateDeveloperName
| RootRecordId.

Section Scheduling.

Context {path error : Type}.
Variable normalizeString : option string -> option string.

(** The component together with its [_refreshScheduled] latch. *)
Record scheduledExplorer : Type := {
  scheduled_component : @explorer path;
  _refreshScheduled : bool
}.

(** [scheduleRefresh], up to the microtask it queues: the state and the
    number of microtasks queued. *)
Definition scheduleRefresh (st : scheduledExplorer) : scheduledExplorer * nat :=
  if _refreshScheduled st then (st, 0%nat)
  else
    ({| scheduled_component := scheduled_component st;
        _refreshScheduled := true |}, 1%nat).

(** The setters of [recordId], [templateDeveloperName] and
    [rootRecordId]. *)
Definition setProperty (property : publicProperty) (value : option string)
  (st : scheduledExplorer) : scheduledExplorer * nat :=
  let s := scheduled_component st in
  let s :=
    match property with
    | RecordId => with_recordId value s
    | TemplateDeveloperName => with_templateDeveloperName value s
    | RootRecordId => with_rootRecordId value s
    end in
  scheduleRefresh
    {| scheduled_component := s; _refreshScheduled := _refreshScheduled st |}.

(** [connectedCallback]. *)
Definition connectedCallback (st : scheduledExplorer)
  : scheduledExplorer * nat :=
  scheduleRefresh st.

(** The microtask of [scheduleRefresh]. *)
Definition runScheduledRefresh (isConnected : bool) (st : scheduledExplorer)
  : scheduledExplorer * list (@effect error) :=
  if negb isConnected
  then
    ({| scheduled_component := scheduled_component st;
        _refreshScheduled := false |}, [])
  else
    let r := refreshHierarchy normalizeString (scheduled_component st) in
    ({| scheduled_component := fst r; _refreshScheduled := false |}, snd r).

(** A run of property assignments within one task: the state and the
    number of microtasks queued on the way. *)
Definition setProperties (assignments : list (publicProperty * option string))
  (st : scheduledExplorer) : scheduledExplorer * nat :=
  fold_left
    (fun acc assignment =>
       let r := setProperty (fst assignment) (snd assignment) (fst acc) in
       (fst r, (snd acc + snd r)%nat))
    assignments (st, 0%nat).

End Scheduling.

(* ------------------------------------------------------------------ *)
(** ** Cards for display *)

(** A detail row of a card as [getHierarchy] returns it, and a card.  The
    properties the component does not read are carried along as they
    are, as the object spread does. *)
Record cardDetail {other : Type} : Type := {
  detail_apiName : option string;
  detail_label : option string;
  detail_iconEmoji : option string;
  detail_iconName : option string;
  detail_other : other
}.

Record card {other : Type} : Type := {
  card_objectApiName : option string;
  card_titleEmoji : option string;
  card_titleIcon : option string;
  card_showCardFieldLabels : value;
  card_enableTextWrap : value;
  card_details : option (list (@cardDetail other));
  card_other : other
}.

(** The card handed to the card component. *)
Record displayCard {other : Type} : Type := {
  display_objectApiName : option string;
  display_titleEmoji : option string;
  display_titleIcon : option string;
  display_showCardFieldLabels : bool;
  display_enableTextWrap : bool;
  display_details : list (@cardDetail other);
  display_other : other
}.

(** The result of [parseIconEntry]. *)
Record iconEntry : Type := {
  iconName : option string;
  emoji : option string
}.

Section CardDisplay.

Context {other objectInfo : Type}.
Variable normalizeString : option string -> option string.

(** The imports from [c/lresFieldDisplayUtils]. *)
Variable resolveEmoji : string -> option string.
Variable coerceIconName : string -> option string.
Variable getFieldLabel : string -> objectInfo -> string -> option string.

(** [parseIconEntry]. *)
Definition parseIconEntry (rawValue : option string) : iconEntry :=
  match normalizeString rawValue with
  | Some value =>
      if negb (truthy (Some value))
      then {| iconName := None; emoji := None |}
      else
        let emoji := resolveEmoji value in
        if truthy emoji then {| iconName := None; emoji := emoji |}
        else {| iconName := coerceIconName value; emoji := None |}
  | None => {| iconName := None; emoji := None |}
  end.

(** [token ? this.parseIconEntry(token) : { iconName: null, emoji: null }]
    for [token = a || b]. *)
Definition iconOf (a b : option string) : iconEntry :=
  let token := js_or a b in
  if truthy token then parseIconEntry token
  else {| iconName := None; emoji := None |}.

(** [resolveDetailLabel]; the first argument is
    [this._objectInfoByApiName]. *)
Definition resolveDetailLabel (objectInfoByApiName : JsMap.t objectInfo)
  (objectApiName fieldPath fallbackLabel : option string) : option string :=
  match normalizeString objectApiName, normalizeString fieldPath with
  | Some apiName, Some field =>
      if truthy (Some apiName) && truthy (Some field)
      then
        match JsMap.get apiName objectInfoByApiName with
        | Some objectInfo =>
            let label := getFieldLabel apiName objectInfo field in
            if truthy label then label else fallbackLabel
        | None => fallbackLabel
        end
      else fallbackLabel
  | _, _ => fallbackLabel
  end.

(** The callback of [details.map] in [normalizeCardForDisplay]. *)
Definition normalizeDetail (objectInfoByApiName : JsMap.t objectInfo)
  (objectApiName : option string) (detail : @cardDetail other)
  : @cardDetail other :=
  let iconMeta := iconOf (detail_iconEmoji detail) (detail_iconName detail) in
  {| detail_apiName := detail_apiName detail;
     detail_label :=
       resolveDetailLabel objectInfoByApiName objectApiName
         (detail_apiName detail) (detail_label detail);
     detail_iconEmoji := emoji iconMeta;
     detail_iconName := iconName iconMeta;
     detail_other := detail_other detail |}.

(** [normalizeCardForDisplay]; [None] is a missing card, which is
    returned as it is. *)
Definition normalizeCardForDisplay (objectInfoByApiName : JsMap.t objectInfo)
  (c : option (@card other)) : option (@displayCard other) :=
  match c with
  | None => None
  | Some c =>
      let objectApiName := normalizeString (card_objectApiName c) in
      let titleMeta := iconOf (card_titleEmoji c) (card_titleIcon c) in
      let details :=
        match card_details c with Some ds => ds | None => [] end in
      Some
        {| display_objectApiName := card_objectApiName c;
           display_titleEmoji := emoji titleMeta;
           display_titleIcon := iconName titleMeta;
           display_showCardFieldLabels :=
             value_truthy (card_showCardFieldLabels c);
           display_enableTextWrap := value_truthy (card_enableTextWrap c);
           display_details :=
             map (normalizeDetail objectInfoByApiName objectApiName) details;
           display_other := card_other c |}
  end.

End CardDisplay.

(* ------------------------------------------------------------------ *)
(** ** Scenario data *)

(** The hierarchy of the test "relayouts rows using max height per depth":
    a root, two children, one grandchild under the first child. *)
Definition plainNode (id title : string) : hierarchyNode :=
  {| node_id := Some id;
     node_objectApiName := None;
     node_title := Some title;
     node_enableTextWrap := false |}.

Definition fourNodeHierarchy : hierarchyResult :=
  {| rootId := Some "001"%string;
     nodes := Some [ plainNode "001" "Root"; plainNode "002" "Child A";
                     plainNode "003" "Child B"; plainNode "004" "Grandchild" ];
     edges := Some [ {| parentId := "001"; childId := "002" |};
                     {| parentId := "001"; childId := "003" |};
                     {| parentId := "002"; childId := "004" |} ];
     capped := false;
     capMessage := None |}.

(** An object literal with the given data properties, none of them named
    [valueOf] or [toString]: it is not callable, [Object.entries] lists
    the properties, and the inherited conversion gives the text
    [[object Object]]. *)
Definition plainObject (properties : list (string * value)) : value :=
  VObject false (Normal properties) (Normal (PString "[object Object]")).

(** The argument of [relayoutWithHeights] in that test. *)
Definition explicitHeights : value :=
  plainObject [ ("001"%string, VPrimitive (PNumber (Finite 60)));
                ("002"%string, VPrimitive (PNumber (Finite 150)));
                ("003"%string, VPrimitive (PNumber (Finite 80)));
                ("004"%string, VPrimitive (PNumber (Finite 70))) ].

(** The depth of every laid-out node, in map order. *)
Definition depthsOf (positions : JsMap.t treePosition) : list (string * nat) :=
  map (fun e => (fst e, tree_depth (snd e))) positions.

(** A layout that gives the four nodes of the scenario the depths 0, 1,
    1, 2, whatever their horizontal positions. *)
Definition fourDepths (l1 c1 l2 c2 l3 c3 l4 c4 : Q) : JsMap.t treePosition :=
  [ ("001"%string, {| tree_left := l1; tree_centerX := c1; tree_depth := 0 |});
    ("002"%string, {| tree_left := l2; tree_centerX := c2; tree_depth := 1 |});
    ("003"%string, {| tree_left := l3; tree_centerX := c3; tree_depth := 1 |});
    ("004"%string, {| tree_left := l4; tree_centerX := c4; tree_depth := 2 |}) ].

(** The hierarchy of the other tests: a single root. *)
Definition singleNodeHierarchy : hierarchyResult :=
  {| rootId := Some "001"%string;
     nodes := Some [ plainNode "001" "Root" ];
     edges := Some [];
     capped := false;
     capMessage := None |}.

(** Modelled from the spec: [layout.js] is not among the sources.  The
    initial layout gives every node the depth that is its distance from
    the root (4.1), lays leaves out left to right [nodeWidth + gapX] apart
    and centres a parent over its children.  These are the layouts of the
    two test hierarchies under that description. *)
Definition fourNodeLayout : JsMap.t treePosition * layoutBounds :=
  ([ ("001"%string, {| tree_left := 170; tree_centerX := 310; tree_depth := 0 |});
     ("002"%string, {| tree_left := 0; tree_centerX := 140; tree_depth := 1 |});
     ("003"%string, {| tree_left := 340; tree_centerX := 480; tree_depth := 1 |});
     ("004"%string, {| tree_left := 0; tree_centerX := 140; tree_depth := 2 |}) ],
   {| bounds_width := 620; bounds_height := 680 |}).

Definition singleNodeLayout : JsMap.t treePosition * layoutBounds :=
  ([ ("001"%string, {| tree_left := 0; tree_centerX := 140; tree_depth := 0 |}) ],
   {| bounds_width := 280; bounds_height := 180 |}).

(** Stand-ins for the imported functions in the scenarios: the layout
    above by number of nodes, identifiers that are already normalised, no
    connector geometry, no string-valued heights. *)
Definition scenarioLayout (ns : list hierarchyNode) (es : list hierarchyEdge)
  (o : layoutOptions) : JsMap.t treePosition * layoutBounds :=
  match ns with
  | [_] => singleNodeLayout
  | _ => fourNodeLayout
  end.

Definition scenarioNormalize (v : option string) : option string := v.

Definition scenarioPaths (es : list hierarchyEdge) (positions : JsMap.t position)
  : list unit :=
  map (fun _ => tt) es.

Definition scenarioStringToNumber (s : string) : number := NaN.

Definition scenarioParseError (e : string) : option string := Some e.

(** The component configured as in the tests: a record page with record
    [001] and template [MyTemplate]. *)
Definition configured : @explorer unit :=
  with_templateDeveloperName (Some "MyTemplate"%string)
    (with_recordId (Some "001"%string) initial).

(** The component after the single-node, and after the four-node,
    hierarchy has loaded. *)
Definition singleLoaded : @explorer unit :=
  onHierarchyResolved scenarioNormalize scenarioLayout scenarioPaths
    (Some singleNodeHierarchy) configured.

Definition fourLoaded : @explorer unit :=
  onHierarchyResolved scenarioNormalize scenarioLayout scenarioPaths
    (Some fourNodeHierarchy) configured.

(** A measured height of half a pixel for the root. *)
Definition halfPixelHeight : value :=
  plainObject [ ("001"%string, VPrimitive (PNumber (Finite (1 # 2)))) ].

(** The hierarchy of the test "shows warning banner when capped". *)
Definition cappedHierarchy : hierarchyResult :=
  {| rootId := Some "001"%string;
     nodes := Some [ plainNode "001" "Root" ];
     edges := Some [];
     capped := true;
     capMessage := Some "Capped at 50 nodes"%string |}.

(** The component of the test "uses rootRecordId over recordId when
    provided": record [001], root override [002]. *)
Definition overridden : @explorer unit :=
  with_rootRecordId (Some "002"%string) configured.

(** The viewport of the centering test, 800 by 600 pixels, and a viewport
    that is rendered with no size. *)
Definition viewport800x600 : viewportQuery :=
  ViewportRect {| rect_width := Some 800; rect_height := Some 600 |}.

Definition viewportWithoutSize : viewportQuery :=
  ViewportRect {| rect_width := Some 0; rect_height := Some 0 |}.

(** Pointer events of the tests: pointer 1 at (10, 10), on a given target
    and with a given button. *)
Definition pointerAt (t : eventTarget) (b : Z) (x y : Q) : pointerEvent :=
  {| target := Some t;
     currentTarget_capturesPointer := true;
     button := b;
     pointerId := 1;
     clientX := x;
     clientY := y |}.

Definition onCanvas : eventTarget :=
  {| closest_controls := false; closest_node := false; closest_card := false |}.

Definition onNode : eventTarget :=
  {| closest_controls := false; closest_node := true; closest_card := false |}.

(** The single-node component centred in the 800 by 600 viewport, and the
    same after a drag of the canvas by 10 pixels to the right. *)
Definition centred : @explorer unit :=
  recenter scenarioNormalize viewport800x600 singleLoaded.

Definition pannedAfterCentering : @explorer unit :=
  fst (handleCanvasPointerMove (error := string) (pointerAt onCanvas 0 20 10)
         (fst (handleCanvasPointerDown (error := string)
                 (Some (pointerAt onCanvas 0 10 10)) centred))).

(** Arguments of [relayoutWithHeights] whose values have no numeric
    value: a symbol, and an object with a data property [toString]. *)
Definition symbolHeight : value :=
  plainObject [ ("001"%string, VPrimitive PSymbol) ].

Definition opaqueObjectHeight : value :=
  plainObject
    [ ("001"%string,
       VObject false
         (Normal [ ("toString"%string, VPrimitive (PNumber (Finite 1))) ])
         (Throw TypeError)) ].

(** An argument of [relayoutWithHeights] with malformed entries: an empty
    id, a text that is no number, a negative and an infinite height, a
    null, one good number, an empty object literal, and an object whose
    [valueOf] gives 60. *)
Definition malformedEntries : list (string * value) :=
  [ (""%string, VPrimitive (PNumber (Finite 5)));
    ("a"%string, VPrimitive (PString "tall"));
    ("b"%string, VPrimitive (PNumber (Finite (-3))));
    ("c"%string, VPrimitive (PNumber PosInfinity));
    ("d"%string, VPrimitive PNull);
    ("e"%string, VPrimitive (PNumber (Finite 42)));
    ("f"%string, plainObject []);
    ("g"%string,
     VObject false (Normal []) (Normal (PNumber (Finite 60)))) ].

Definition malformedHeights : value :=
  plainObject malformedEntries.

(** The life of the component in the four-node test: configured,
    refreshed, and the fetch resolved with the four-node hierarchy. *)
Definition fourLoadedRun : @running unit :=
  {| component :=
       fst (settleHierarchy scenarioNormalize scenarioLayout scenarioPaths
              scenarioParseError (Resolved (Some fourNodeHierarchy))
              (fst (refreshHierarchy (error := string) scenarioNormalize
                      configured)));
     pendingFetches := 0 |}.

(** A report of the resize observer: the grandchild is 120.4 pixels high,
    an element without node id 50, and the first child has no height. *)
Definition observedSizes : list resizeEntry :=
  [ {| resize_isViewport := false;
       resize_nodeId := Some "004"%string;
       resize_height := Finite (1204 # 10) |};
    {| resize_isViewport := false;
       resize_nodeId := Some ""%string;
       resize_height := Finite 50 |};
    {| resize_isViewport := false;
       resize_nodeId := Some "002"%string;
       resize_height := NaN |} ].

(** The four-node component after that report. *)
Definition fourMeasuredRun : @running unit :=
  {| component :=
       handleNodeResizes scenarioNormalize viewport800x600 observedSizes
         (component fourLoadedRun);
     pendingFetches := pendingFetches fourLoadedRun |}.

(** The centred single-node component after a report of 120.4 pixels for
    its root. *)
Definition rootSize : list resizeEntry :=
  [ {| resize_isViewport := false;
       resize_nodeId := Some "001"%string;
       resize_height := Finite (1204 # 10) |} ].

Definition centredMeasured : @explorer unit :=
  handleNodeResizes scenarioNormalize viewport800x600 rootSize centred.

(** The rendered template of the single-node component: the root's node
    element, an element with an empty node id, the root again, and the
    viewport, on a platform with [ResizeObserver]. *)
Definition renderedSingle : renderedDom :=
  {| dom_resizeObserverSupported := true;
     dom_nodeIds := [ Some "001"%string; Some ""%string; Some "001"%string ];
     dom_viewport := viewport800x600 |}.

(** The workspace of the console test: console navigation, focused tab
    [tab-1], every call succeeds. *)
Definition consoleHost : navigationHost :=
  {| host_isConsoleNavigation := Some true;
     host_focusedTabId := Some (Some "tab-1"%string);
     host_openSubtab := true;
     host_openTab := true;
     host_navigate := true |}.

(** The three properties of the override test, assigned in one task to a
    fresh component. *)
Definition overrideAssignments : list (publicProperty * option string) :=
  [ (RecordId, Some "001"%string);
    (RootRecordId, Some "002"%string);
    (TemplateDeveloperName, Some "MyTemplate"%string) ].

Definition fresh : @scheduledExplorer unit :=
  {| scheduled_component := initial; _refreshScheduled := false |}.

(** The card of the test "uses UI API metadata labels when available": an
    Account with one detail whose label is its field name, and the
    metadata that labels that field.  Stand-ins for the imported display
    functions: no emoji, icon names as they are. *)
Definition metadataCard : @card unit :=
  {| card_objectApiName := Some "Account"%string;
     card_titleEmoji := None;
     card_titleIcon := None;
     card_showCardFieldLabels := VPrimitive PUndefined;
     card_enableTextWrap := VPrimitive PUndefined;
     card_details :=
       Some [ {| detail_apiName := Some "Custom_Field__c"%string;
                 detail_label := Some "Custom_Field__c"%string;
                 detail_iconEmoji := None;
                 detail_iconName := None;
                 detail_other := tt |} ];
     card_other := tt |}.

Definition accountInfos : JsMap.t unit := [ ("Account"%string, tt) ].

Definition scenarioFieldLabel (apiName : string) (info : unit)
  (field : string) : option string :=
  if String.eqb field "Custom_Field__c"
  then Some "Custom Field"%string else None.

Definition scenarioEmoji (value : string) : option string := None.

Definition scenarioIconName (value : string) : option string := Some value.

(* ------------------------------------------------------------------ *)
(** ** Vocabulary of the specification *)

(** The re-flow as the specification words it.  The heights of the nodes
    of row [d]: *)
Definition rowHeights (lm : layoutMeta) (measured : JsMap.t Q) (d : nat)
  : list Q :=
  map (fun e => resolvedHeight (JsMap.get (fst e) measured) (nodeMaxHeight lm))
      (filter (fun e => Nat.eqb (base_depth (snd e)) d) (basePositionsById lm)).

(** The maximum height of row [d]; a row without nodes counts with the
    nominal height. *)
Definition rowMaxHeight (lm : layoutMeta) (measured : JsMap.t Q) (d : nat) : Q :=
  match rowHeights lm measured d with
  | [] => nodeMaxHeight lm
  | h :: hs => fold_left Qmax hs h
  end.

(** The top of row [d]: the sum, over the rows above, of the row's maximum
    height plus the gap. *)
Fixpoint rowTop (lm : layoutMeta) (measured : JsMap.t Q) (d : nat) : Q :=
  match d with
  | O => 0
  | S d' => rowTop lm measured d' + (rowMaxHeight lm measured d' + gapY lm)
  end.

(** What [buildRenderModel] guarantees of the layout it stores: one entry
    per id, no depth beyond [maxDepth], a positive nominal height. *)
Definition wellFormed (lm : layoutMeta) : Prop :=
  NoDup (JsMap.keys (basePositionsById lm))
  /\ (forall id bp, In (id, bp) (basePositionsById lm) ->
                    (base_depth bp <= maxDepth lm)%nat)
  /\ 0 < nodeMaxHeight lm.

(** The options [buildRenderModel] passes to [computeTreeLayout]. *)
Definition layoutOptionsOfComponent : layoutOptions :=
  {| opt_nodeWidth := DEFAULT_NODE_WIDTH;
     opt_nodeHeight := DEFAULT_NODE_HEIGHT;
     opt_gapX := GAP_X;
     opt_gapY := GAP_Y |}.

(** The entry of [positionsById] for a node, when there is a layout. *)
Definition positionOf {path : Type} (s : @explorer path) (id : string)
  : option position :=
  match _layoutMeta s with
  | Some lm => JsMap.get id (positionsById lm)
  | None => None
  end.

(** The layout [buildRenderModel] stores before the first re-flow. *)
Definition baseLayout (layout : JsMap.t treePosition * layoutBounds)
  : layoutMeta :=
  {| basePositionsById := copyBasePositions (fst layout);
     positionsById := JsMap.empty;
     nodeWidth := DEFAULT_NODE_WIDTH;
     nodeMaxHeight := DEFAULT_NODE_HEIGHT;
     gapY := GAP_Y;
     maxDepth := maxDepthOf (fst layout) |}.

(** The size the viewport reports, 0 when the element or its rectangle is
    missing. *)
Definition viewportWidthOf (viewport : viewportQuery) : Q :=
  match viewport with
  | ViewportRect rect => or_zero (rect_width rect)
  | _ => 0
  end.

Definition viewportHeightOf (viewport : viewportQuery) : Q :=
  match viewport with
  | ViewportRect rect => or_zero (rect_height rect)
  | _ => 0
  end.

(** The entries the specification keeps: a non-empty id and a value whose
    number is finite and positive. *)
Definition keptHeights (StringToNumber : string -> number)
  (entries : list (string * value)) : JsMap.t Q :=
  flat_map
    (fun e =>
       if String.eqb (fst e) "" then []
       else
         match Number StringToNumber (snd e) with
         | Normal n =>
             match positiveFinite n with
             | Some q => [(fst e, q)]
             | None => []
             end
         | Throw _ => []
         end)
    entries.

(** Every value under a non-empty id has a number. *)
Definition convertible (StringToNumber : string -> number)
  (entries : list (string * value)) : Prop :=
  Forall
    (fun e => fst e = ""%string
              \/ exists n, Number StringToNumber (snd e) = Normal n)
    entries.

(** A whole number of pixels, as [Math.round] yields it.  Doubles add
    whole numbers of this size without rounding. *)
Definition whole (q : Q) : Prop := exists z : Z, q == inject_Z z.

(* ------------------------------------------------------------------ *)
(** ** Vocabulary of the further properties *)

(** A map of measured heights with one entry per node id, no entry under
    an empty id, and no negative height. *)
Definition soundHeights (measured : JsMap.t Q) : Prop :=
  NoDup (JsMap.keys measured)
  /\ Forall (fun e : string * Q => fst e <> ""%string /\ 0 <= snd e) measured.

(** The layout the component holds is the re-flow of its base layout
    under some map of heights, with the nominal height and gap of the
    component, and the canvas is as high as that re-flow makes it. *)
Definition reflowed {path : Type} (s : @explorer path) : Prop :=
  match _layoutMeta s with
  | None => True
  | Some lm =>
      wellFormed lm
      /\ nodeMaxHeight lm = DEFAULT_NODE_HEIGHT /\ gapY lm = GAP_Y
      /\ exists measured : JsMap.t Q,
          positionsById lm
          = adjustedPositions lm measured
              (topByDepth lm (maxHeightByDepth lm measured))
          /\ _canvasHeight s
             = canvasHeightOf lm (maxHeightByDepth lm measured)
                 (topByDepth lm (maxHeightByDepth lm measured))
  end.

(** Two states with the same layout, canvas height and rendered nodes. *)
Definition sameLayout {path : Type} (s s' : @explorer path) : Prop :=
  _layoutMeta s' = _layoutMeta s
  /\ _canvasHeight s' = _canvasHeight s
  /\ positionedNodes s' = positionedNodes s.

(** Every rendered node box is drawn where the position map has the node,
    with the nominal width and maximum height. *)
Definition drawnAtLayout {path : Type} (s : @explorer path) : Prop :=
  match _layoutMeta s with
  | Some lm =>
      nodeWidth lm = DEFAULT_NODE_WIDTH
      /\ nodeMaxHeight lm = DEFAULT_NODE_HEIGHT
  | None => True
  end
  /\ forall pn : positionedNode,
      In pn (positionedNodes s) ->
      exists p,
        positionOf s (pn_id pn) = Some p
        /\ style_left pn = left p /\ style_top pn = top p
        /\ style_width pn = DEFAULT_NODE_WIDTH
        /\ scrollStyle_maxHeight pn = DEFAULT_NODE_HEIGHT.

(* ================================================================== *)
(** * Properties *)

(* ------------------------------------------------------------------ *)
(** ** Facts about numbers, arrays and maps *)

Lemma Qlt_b_true (a b : Q) : Qlt_b a b = true <-> a < b.
Proof.
  unfold Qlt_b. rewrite negb_true_iff.
  split; intro H.
  - apply Qnot_le_lt. intro Hle. apply Qle_bool_iff in Hle. congruence.
  - destruct (Qle_bool b a) eqn:E; [|reflexivity].
    apply Qle_bool_iff in E. exfalso. apply (Qlt_not_le _ _ H E).
Qed.

Lemma Qlt_b_false (a b : Q) : Qlt_b a b = false <-> b <= a.
Proof.
  unfold Qlt_b. rewrite negb_false_iff. apply Qle_bool_iff.
Qed.

Lemma Qmax_zero_pos (h : Q) : 0 < h -> Qmax 0 h = h.
Proof.
  intro H. unfold Qmax, GenericMinMax.gmax.
  pose proof (proj1 (Qlt_alt 0 h) H) as E. now rewrite E.
Qed.

Lemma or_zero_eq (q : Q) : or_zero (Some q) == q.
Proof.
  unfold or_zero. destruct (Qeq_bool q 0) eqn:E; [|reflexivity].
  apply Qeq_bool_eq in E. symmetry. exact E.
Qed.

Lemma falsy_pos (q : Q) : 0 < q -> falsy (Some q) = false.
Proof.
  intro H. unfold falsy. destruct (Qeq_bool q 0) eqn:E; [|reflexivity].
  apply Qeq_bool_eq in E. rewrite E in H. exfalso. apply (Qlt_irrefl _ H).
Qed.

Lemma array_get_set_same a i v : JsArray.get (JsArray.set a i v) i = v.
Proof.
  revert a; induction i as [|i IH]; intros [|x a]; simpl; try reflexivity.
  - apply (IH []).
  - apply IH.
Qed.

Lemma array_get_nil i : JsArray.get [] i = None.
Proof. destruct i; reflexivity. Qed.

Lemma array_get_set_other a i j v :
  i <> j -> JsArray.get (JsArray.set a i v) j = JsArray.get a j.
Proof.
  revert a j; induction i as [|i IH]; intros [|x a] [|j] Hij;
    try congruence; try reflexivity.
  - simpl. change (JsArray.get [] j = JsArray.get [] (S j)).
    now rewrite !array_get_nil.
  - simpl. change (JsArray.get (JsArray.set [] i v) j = JsArray.get [] (S j)).
    rewrite IH by congruence. now rewrite !array_get_nil.
  - simpl. change (JsArray.get (JsArray.set a i v) j = JsArray.get a j).
    apply IH. congruence.
Qed.

Lemma array_get_filled n v i :
  (i < n)%nat -> JsArray.get (JsArray.filled n v) i = Some v.
Proof.
  revert i; induction n as [|n IH]; intros i H; [lia|].
  destruct i as [|i]; [reflexivity|].
  change (JsArray.get (JsArray.filled n v) i = Some v). apply IH. lia.
Qed.

Lemma array_get_map (f : nanable -> nanable) a i q :
  JsArray.get a i = Some q -> JsArray.get (map f a) i = f (Some q).
Proof.
  revert i; induction a as [|x a IH]; intros [|i]; simpl; try discriminate.
  - unfold JsArray.get. simpl. now intros ->.
  - intro H. apply (IH i H).
Qed.

Lemma map_get_set_same {V} k (v : V) m : JsMap.get k (JsMap.set k v m) = Some v.
Proof.
  induction m as [|[k' v'] m IH]; simpl.
  - rewrite String.eqb_refl. reflexivity.
  - destruct (String.eqb k k') eqn:E; simpl; rewrite E; auto.
Qed.

Lemma map_get_set_other {V} k k' (v : V) m :
  k <> k' -> JsMap.get k' (JsMap.set k v m) = JsMap.get k' m.
Proof.
  intro Hne. induction m as [|[k0 v0] m IH]; simpl.
  - destruct (String.eqb k' k) eqn:E; [|reflexivity].
    apply String.eqb_eq in E. congruence.
  - destruct (String.eqb k k0) eqn:E; simpl.
    + apply String.eqb_eq in E. subst k0.
      destruct (String.eqb k' k) eqn:E'; [|reflexivity].
      apply String.eqb_eq in E'. congruence.
    + rewrite IH. reflexivity.
Qed.

Lemma map_get_In {V} k (v : V) m : JsMap.get k m = Some v -> In (k, v) m.
Proof.
  induction m as [|[k' v'] m IH]; simpl; [discriminate|].
  destruct (String.eqb k k') eqn:E.
  - apply String.eqb_eq in E. intros [= ->]. left. congruence.
  - intro H. right. auto.
Qed.

Lemma map_get_None_keys {V} k (m : JsMap.t V) :
  JsMap.get k m = None <-> ~ In k (JsMap.keys m).
Proof.
  induction m as [|[k' v'] m IH]; simpl.
  - tauto.
  - destruct (String.eqb k k') eqn:E.
    + apply String.eqb_eq in E. split; [discriminate|]. intro H. exfalso. auto.
    + apply String.eqb_neq in E. rewrite IH. split.
      * intros H [H'|H']; [congruence|auto].
      * intros H H'. auto.
Qed.

Lemma map_set_new {V} k (v : V) m :
  JsMap.get k m = None -> JsMap.set k v m = m ++ [(k, v)].
Proof.
  induction m as [|[k' v'] m IH]; simpl; [reflexivity|].
  destruct (String.eqb k k'); [discriminate|].
  intro H. rewrite IH by assumption. reflexivity.
Qed.

Lemma map_keys_set {V} k (v : V) m :
  JsMap.keys (JsMap.set k v m)
  = match JsMap.get k m with
    | Some _ => JsMap.keys m
    | None => JsMap.keys m ++ [k]
    end.
Proof.
  induction m as [|[k' v'] m IH]; simpl; [reflexivity|].
  destruct (String.eqb k k') eqn:E; simpl; [reflexivity|].
  rewrite IH. destruct (JsMap.get k m); reflexivity.
Qed.

Lemma map_set_NoDup {V} k (v : V) m :
  NoDup (JsMap.keys m) -> NoDup (JsMap.keys (JsMap.set k v m)).
Proof.
  intro H. rewrite map_keys_set. destruct (JsMap.get k m) eqn:E; [assumption|].
  apply map_get_None_keys in E.
  apply NoDup_app; [assumption|repeat constructor; simpl; tauto|].
  intros x Hx [<-|[]]. auto.
Qed.

Lemma map_In_set {V} k (v : V) m k' v' :
  In (k', v') (JsMap.set k v m) -> (k', v') = (k, v) \/ In (k', v') m.
Proof.
  induction m as [|[k0 v0] m IH]; simpl.
  - intros [H|[]]; auto.
  - destruct (String.eqb k k0) eqn:E; simpl.
    + apply String.eqb_eq in E. subst k0. intros [H|H]; auto.
    + intros [H|H]; auto. destruct (IH H); auto.
Qed.

Lemma collect_NoDup {A V} (f : string * A -> V) l acc :
  NoDup (JsMap.keys acc) -> NoDup (JsMap.keys (JsMap.collect f l acc)).
Proof.
  revert acc; induction l as [|e l IH]; intros acc H; simpl; [assumption|].
  apply IH. apply map_set_NoDup. assumption.
Qed.

Lemma collect_In {A V} (f : string * A -> V) l acc k v :
  In (k, v) (JsMap.collect f l acc) ->
  In (k, v) acc \/ exists a, In (k, a) l /\ v = f (k, a).
Proof.
  revert acc; induction l as [|[k0 a0] l IH]; intros acc H; simpl in *; [auto|].
  destruct (IH _ H) as [H'|(a & Ha & ->)].
  - apply map_In_set in H'. destruct H' as [[= -> ->]|H']; [|auto].
    right. exists a0. auto.
  - right. exists a. auto.
Qed.

Lemma collect_app {A V} (f : string * A -> V) l acc :
  NoDup (JsMap.keys acc ++ JsMap.keys l) ->
  JsMap.collect f l acc = acc ++ map (fun e => (fst e, f e)) l.
Proof.
  revert acc; induction l as [|[k a] l IH]; intros acc H; simpl in *.
  - now rewrite app_nil_r.
  - assert (Hk : JsMap.get k acc = None).
    { apply map_get_None_keys. intro Hin.
      apply NoDup_remove_2 in H. apply H. apply in_or_app. auto. }
    rewrite map_set_new by assumption.
    rewrite IH.
    + rewrite <- app_assoc. reflexivity.
    + unfold JsMap.keys in *. rewrite map_app. simpl.
      rewrite <- app_assoc. exact H.
Qed.

Lemma collect_empty {A V} (f : string * A -> V) l :
  NoDup (JsMap.keys l) ->
  JsMap.collect f l JsMap.empty = map (fun e => (fst e, f e)) l.
Proof. intro H. apply (collect_app f l JsMap.empty). exact H. Qed.

Lemma map_get_map {A V} (f : string * A -> V) l k a :
  JsMap.get k l = Some a ->
  JsMap.get k (map (fun e => (fst e, f e)) l) = Some (f (k, a)).
Proof.
  induction l as [|[k' a'] l IH]; simpl; [discriminate|].
  destruct (String.eqb k k') eqn:E; [|exact IH].
  apply String.eqb_eq in E. subst k'. now intros [= ->].
Qed.

Lemma map_get_map_None {A V} (f : string * A -> V) l k :
  JsMap.get k l = None ->
  JsMap.get k (map (fun e => (fst e, f e)) l) = None.
Proof.
  induction l as [|[k' a'] l IH]; simpl; [reflexivity|].
  destruct (String.eqb k k'); [discriminate|exact IH].
Qed.

(* ------------------------------------------------------------------ *)
(** ** Row-height re-flow *)

Lemma resolvedHeight_pos m H : 0 < H -> 0 < resolvedHeight m H.
Proof.
  intro HH. unfold resolvedHeight. destruct m as [m|]; [|assumption].
  destruct (Qlt_b 0 m) eqn:E; [|assumption].
  apply Qlt_b_true in E. apply Q.min_glb_lt; assumption.
Qed.

Lemma accumulate_get (h : string * basePosition -> Q) l arr d :
  JsArray.get
    (fold_left
       (fun a (e : string * basePosition) =>
          JsArray.set a (base_depth (snd e))
            (Math_max (JsArray.get a (base_depth (snd e))) (h e)))
       l arr) d
  = fold_left
      (fun x e => if Nat.eqb (base_depth (snd e)) d then Math_max x (h e) else x)
      l (JsArray.get arr d).
Proof.
  revert arr; induction l as [|e l IH]; intro arr; simpl; [reflexivity|].
  rewrite IH. f_equal.
  destruct (Nat.eqb_spec (base_depth (snd e)) d) as [->|Hne].
  - apply array_get_set_same.
  - apply array_get_set_other. assumption.
Qed.

Lemma fold_Math_max (h : string * basePosition -> Q) l d q :
  fold_left
    (fun x e => if Nat.eqb (base_depth (snd e)) d then Math_max x (h e) else x)
    l (Some q)
  = Some (fold_left Qmax
            (map h (filter (fun e => Nat.eqb (base_depth (snd e)) d) l)) q).
Proof.
  revert q; induction l as [|e l IH]; intro q; simpl; [reflexivity|].
  destruct (Nat.eqb (base_depth (snd e)) d); simpl; apply IH.
Qed.

Lemma fold_Qmax_le hs h : h <= fold_left Qmax hs h.
Proof.
  revert h; induction hs as [|x hs IH]; intro h; simpl.
  - apply Qle_refl.
  - eapply Qle_trans; [apply (Q.le_max_l h x)|apply IH].
Qed.

Lemma accumulated_height lm measured d :
  (d <= maxDepth lm)%nat ->
  JsArray.get (accumulateMaxHeights lm measured) d
  = Some (fold_left Qmax (rowHeights lm measured d) 0).
Proof.
  intro Hd. unfold accumulateMaxHeights.
  rewrite (accumulate_get
             (fun e => resolvedHeight (JsMap.get (fst e) measured)
                         (nodeMaxHeight lm))).
  rewrite array_get_filled by lia.
  apply fold_Math_max.
Qed.

Lemma row_height lm measured d :
  0 < nodeMaxHeight lm -> (d <= maxDepth lm)%nat ->
  JsArray.get (maxHeightByDepth lm measured) d
  = Some (rowMaxHeight lm measured d).
Proof.
  intros HH Hd. unfold maxHeightByDepth, fillMissingHeights.
  rewrite (array_get_map _ _ _ _ (accumulated_height lm measured d Hd)).
  unfold rowMaxHeight.
  assert (Hpos : Forall (fun h => 0 < h) (rowHeights lm measured d)).
  { unfold rowHeights. apply Forall_forall. intros h Hin.
    apply in_map_iff in Hin. destruct Hin as (e & <- & _).
    apply resolvedHeight_pos. assumption. }
  destruct (rowHeights lm measured d) as [|h hs]; simpl.
  - reflexivity.
  - inversion Hpos as [|? ? Hh _]; subst.
    rewrite (Qmax_zero_pos h Hh).
    change (Qeq_bool (fold_left Qmax hs h) 0)
      with (falsy (Some (fold_left Qmax hs h))).
    rewrite falsy_pos; [reflexivity|].
    eapply Qlt_le_trans; [exact Hh|apply fold_Qmax_le].
Qed.

Lemma tops_prefix lm measured heights n k :
  (forall i, (i < n)%nat ->
             JsArray.get heights i = Some (rowMaxHeight lm measured i)) ->
  (k < n)%nat ->
  forall d, (d < n)%nat ->
    exists t,
      JsArray.get
        (fold_left
           (fun tops i =>
              JsArray.set tops i
                (add (add (JsArray.get tops (i - 1))
                          (JsArray.get heights (i - 1)))
                     (Some (gapY lm))))
           (seq 1 k) (JsArray.filled n 0)) d = Some t
      /\ ((d <= k)%nat -> t == rowTop lm measured d)
      /\ ((k < d)%nat -> t = 0).
Proof.
  intros Hh. induction k as [|k IH]; intros Hk d Hd.
  - simpl. exists 0. rewrite array_get_filled by assumption.
    split; [reflexivity|]. split; [|reflexivity].
    intro H0. assert (d = 0)%nat as -> by lia. reflexivity.
  - rewrite seq_S, fold_left_app. change (1 + k)%nat with (S k).
    cbn [fold_left].
    replace (S k - 1)%nat with k by lia.
    destruct (Nat.eq_dec (S k) d) as [<-|Hne].
    + rewrite array_get_set_same.
      destruct (IH ltac:(lia) k ltac:(lia)) as (t & -> & Ht & _).
      rewrite (Hh k) by lia. simpl add.
      eexists. split; [reflexivity|]. split; [|lia].
      intros _. simpl rowTop. rewrite (Ht (Nat.le_refl k)). ring.
    + rewrite array_get_set_other by assumption.
      destruct (IH ltac:(lia) d Hd) as (t & -> & Ht & Hz).
      exists t. split; [reflexivity|]. split.
      * intro Hle. apply Ht. lia.
      * intro Hlt. apply Hz. lia.
Qed.

Lemma row_top lm measured d :
  0 < nodeMaxHeight lm -> (d <= maxDepth lm)%nat ->
  exists t,
    JsArray.get (topByDepth lm (maxHeightByDepth lm measured)) d = Some t
    /\ t == rowTop lm measured d.
Proof.
  intros HH Hd. unfold topByDepth.
  destruct (tops_prefix lm measured (maxHeightByDepth lm measured)
              (maxDepth lm + 1) (maxDepth lm)) with (d := d)
    as (t & Ht & Heq & _).
  - intros i Hi. apply row_height; [assumption|lia].
  - lia.
  - lia.
  - exists t. split; [exact Ht|]. apply Heq. assumption.
Qed.

Lemma adjusted_lookup lm measured tops id bp :
  NoDup (JsMap.keys (basePositionsById lm)) ->
  JsMap.get id (basePositionsById lm) = Some bp ->
  JsMap.get id (adjustedPositions lm measured tops)
  = Some (adjustedPosition lm measured tops (id, bp)).
Proof.
  intros Hnd Hget. unfold adjustedPositions.
  rewrite collect_empty by assumption.
  apply map_get_map. assumption.
Qed.

Lemma adjusted_member lm measured tops id p :
  JsMap.get id (adjustedPositions lm measured tops) = Some p ->
  exists bp, p = adjustedPosition lm measured tops (id, bp).
Proof.
  intro H. apply map_get_In in H. unfold adjustedPositions in H.
  apply collect_In in H. destruct H as [[]|(bp & _ & ->)].
  exists bp. reflexivity.
Qed.

Lemma maxDepthOf_acc (positions : JsMap.t treePosition) (m : nat) :
  (m <= fold_left
          (fun m (e : string * treePosition) => Nat.max m (tree_depth (snd e)))
          positions m)%nat
  /\ forall id tp, In (id, tp) positions ->
       (tree_depth tp
        <= fold_left
             (fun m (e : string * treePosition) => Nat.max m (tree_depth (snd e)))
             positions m)%nat.
Proof.
  revert m; induction positions as [|e l IH]; intro m; simpl.
  - split; [lia|]. intros ? ? [].
  - destruct (IH (Nat.max m (tree_depth (snd e)))) as [Hm Hin]. split; [lia|].
    intros id tp [->|H]; [cbn [snd] in *; lia|]. apply (Hin id tp H).
Qed.

Lemma maxDepthOf_ge positions id tp :
  In (id, tp) positions -> (tree_depth tp <= maxDepthOf positions)%nat.
Proof. apply (proj2 (maxDepthOf_acc positions 0)). Qed.

Lemma baseLayout_wellFormed layout : wellFormed (baseLayout layout).
Proof.
  repeat split.
  - apply collect_NoDup. constructor.
  - intros id bp Hin. simpl in Hin. unfold copyBasePositions in Hin.
    apply collect_In in Hin. destruct Hin as [[]|(tp & Htp & ->)].
    simpl. apply (maxDepthOf_ge _ _ _ Htp).
Qed.

Lemma with_positionsById_wellFormed v lm :
  wellFormed lm -> wellFormed (with_positionsById v lm).
Proof. intro H. exact H. Qed.

Lemma whole_plus a b : whole a -> whole b -> whole (a + b).
Proof.
  intros (x & Hx) (y & Hy). exists (x + y)%Z.
  rewrite Hx, Hy, inject_Z_plus. reflexivity.
Qed.

Lemma whole_max a b : whole a -> whole b -> whole (Qmax a b).
Proof.
  intros (x & Hx) (y & Hy).
  destruct (Q.max_dec a b) as [E|E]; [exists x|exists y]; rewrite E; assumption.
Qed.

Lemma whole_min a b : whole a -> whole b -> whole (Qmin a b).
Proof.
  intros (x & Hx) (y & Hy).
  destruct (Q.min_dec a b) as [E|E]; [exists x|exists y]; rewrite E; assumption.
Qed.

Create HintDb whole.
#[local] Hint Resolve whole_plus whole_max whole_min : whole.

Lemma whole_ceil a : whole a -> Math_ceil a == a.
Proof.
  intros (x & Hx). unfold Math_ceil.
  rewrite (Qceiling_comp _ _ Hx), Qceiling_Z. symmetry. exact Hx.
Qed.

Lemma whole_resolvedHeight m H :
  (forall q, m = Some q -> whole q) -> whole H -> whole (resolvedHeight m H).
Proof.
  intros Hm HH. unfold resolvedHeight. destruct m as [q|]; [|assumption].
  destruct (Qlt_b 0 q); [|assumption].
  apply whole_min; [apply Hm; reflexivity|assumption].
Qed.

Lemma whole_fold_max hs h :
  Forall whole hs -> whole h -> whole (fold_left Qmax hs h).
Proof.
  revert h; induction hs as [|x hs IH]; intros h Hhs Hh; [assumption|].
  inversion Hhs; subst. simpl. apply IH; [assumption|].
  apply whole_max; assumption.
Qed.

Lemma whole_rowMaxHeight lm (measured : JsMap.t Q) d :
  Forall (fun e => whole (snd e)) measured -> whole (nodeMaxHeight lm) ->
  whole (rowMaxHeight lm measured d).
Proof.
  intros Hm HH. unfold rowMaxHeight.
  assert (Hall : Forall whole (rowHeights lm measured d)).
  { unfold rowHeights. apply Forall_forall. intros h Hin.
    apply in_map_iff in Hin. destruct Hin as (e & <- & _).
    apply whole_resolvedHeight; [|assumption].
    intros q Hq. apply map_get_In in Hq.
    apply (proj1 (Forall_forall _ _) Hm _ Hq). }
  destruct (rowHeights lm measured d) as [|h hs]; [assumption|].
  inversion Hall; subst. apply whole_fold_max; assumption.
Qed.

Lemma whole_rowTop lm (measured : JsMap.t Q) d :
  Forall (fun e => whole (snd e)) measured -> whole (nodeMaxHeight lm) ->
  whole (gapY lm) -> whole (rowTop lm measured d).
Proof.
  intros Hm HH Hg. induction d as [|d IH]; simpl.
  - exists 0%Z. reflexivity.
  - auto using whole_rowMaxHeight with whole.
Qed.

Section Reflow.

Context {path error : Type}.
Variable normalizeString : option string -> option string.
Variable computeTreeLayout :
  list hierarchyNode -> list hierarchyEdge -> layoutOptions ->
  JsMap.t treePosition * layoutBounds.
Variable buildOrthogonalPaths :
  list hierarchyEdge -> JsMap.t position -> list path.
Variable StringToNumber : string -> number.

Lemma applyRowHeightLayout_layout (s : @explorer path) lm :
  _layoutMeta s = Some lm ->
  let heights := maxHeightByDepth lm (_measuredHeightsById s) in
  let tops := topByDepth lm heights in
  _layoutMeta (applyRowHeightLayout buildOrthogonalPaths s)
  = Some (with_positionsById
            (adjustedPositions lm (_measuredHeightsById s) tops) lm)
  /\ _canvasHeight (applyRowHeightLayout buildOrthogonalPaths s)
     = canvasHeightOf lm heights tops
  /\ _measuredHeightsById (applyRowHeightLayout buildOrthogonalPaths s)
     = _measuredHeightsById s.
Proof.
  intro H. unfold applyRowHeightLayout. rewrite H. simpl. auto.
Qed.

Lemma layoutMeta_with_pendingCenter v (s : @explorer path) :
  _layoutMeta (with_pendingCenter v s) = _layoutMeta s.
Proof. reflexivity. Qed.

Lemma buildRenderModel_layout (s : @explorer path) :
  let lm := baseLayout
              (computeTreeLayout (hierarchyNodes s) (hierarchyEdges s)
                 layoutOptionsOfComponent) in
  _layoutMeta (buildRenderModel computeTreeLayout buildOrthogonalPaths s)
  = Some (with_positionsById
            (adjustedPositions lm JsMap.empty
               (topByDepth lm (maxHeightByDepth lm JsMap.empty))) lm).
Proof.
  intro lm. unfold buildRenderModel.
  cbv beta zeta. rewrite layoutMeta_with_pendingCenter.
  match goal with
  | |- _layoutMeta (applyRowHeightLayout _ ?s1) = _ => set (s1' := s1)
  end.
  assert (Hlm : _layoutMeta s1' = Some lm) by (destruct s; reflexivity).
  assert (Hm : _measuredHeightsById s1' = JsMap.empty) by reflexivity.
  destruct (applyRowHeightLayout_layout s1' lm Hlm) as (Hl & _).
  cbv zeta in Hl. rewrite Hl, Hm. reflexivity.
Qed.

Lemma reflow_position (s : @explorer path) lm id bp :
  _layoutMeta s = Some lm ->
  NoDup (JsMap.keys (basePositionsById lm)) ->
  JsMap.get id (basePositionsById lm) = Some bp ->
  positionOf (applyRowHeightLayout buildOrthogonalPaths s) id
  = Some (adjustedPosition lm (_measuredHeightsById s)
            (topByDepth lm (maxHeightByDepth lm (_measuredHeightsById s)))
            (id, bp)).
Proof.
  intros Hl Hnd Hget. unfold positionOf.
  destruct (applyRowHeightLayout_layout s lm Hl) as (-> & _).
  apply adjusted_lookup; assumption.
Qed.

Lemma onHierarchyResolved_layout result (s : @explorer path) :
  let s1 := with_hierarchy result s in
  let lm := baseLayout
              (computeTreeLayout (hierarchyNodes s1) (hierarchyEdges s1)
                 layoutOptionsOfComponent) in
  _layoutMeta
    (onHierarchyResolved normalizeString computeTreeLayout
       buildOrthogonalPaths result s)
  = Some (with_positionsById
            (adjustedPositions lm JsMap.empty
               (topByDepth lm (maxHeightByDepth lm JsMap.empty))) lm).
Proof.
  intros s1 lm. unfold onHierarchyResolved. cbv zeta.
  rewrite layoutMeta_with_pendingCenter.
  match goal with
  | |- _layoutMeta (buildRenderModel _ _ ?s2) = _ =>
      pose proof (buildRenderModel_layout s2) as H
  end.
  exact H.
Qed.

Lemma relayoutWithHeights_explicit (s : @explorer path) :
  relayoutWithHeights buildOrthogonalPaths StringToNumber explicitHeights s
  = Normal
      (applyRowHeightLayout buildOrthogonalPaths
         (with_measuredHeightsById
            [("001", 60); ("002", 150); ("003", 80); ("004", 70)]%string s)).
Proof. reflexivity. Qed.

Lemma depthsOf_four positions :
  depthsOf positions
  = [("001", 0); ("002", 1); ("003", 1); ("004", 2)]%nat%string ->
  exists l1 c1 l2 c2 l3 c3 l4 c4,
    positions = fourDepths l1 c1 l2 c2 l3 c3 l4 c4.
Proof.
  intro Hd.
  destruct positions as [|[k1 [l1 c1 d1]] [|[k2 [l2 c2 d2]] [|[k3 [l3 c3 d3]]
    [|[k4 [l4 c4 d4]] [|]]]]]; try discriminate.
  unfold depthsOf in Hd. simpl in Hd.
  injection Hd as -> -> -> -> -> -> -> ->.
  exists l1, c1, l2, c2, l3, c3, l4, c4. reflexivity.
Qed.

Lemma four_node_nominal (loaded : @explorer path) l1 c1 l2 c2 l3 c3 l4 c4 bounds :
  let lm := baseLayout (fourDepths l1 c1 l2 c2 l3 c3 l4 c4, bounds) in
  _layoutMeta loaded
  = Some (with_positionsById
            (adjustedPositions lm JsMap.empty
               (topByDepth lm (maxHeightByDepth lm JsMap.empty))) lm) ->
  exists p, positionOf loaded "004" = Some p /\ top p == 500.
Proof.
  intros lm Hl. unfold positionOf. rewrite Hl. eexists. split.
  - unfold with_positionsById, positionsById.
    apply adjusted_lookup; [|reflexivity].
    apply collect_NoDup. constructor.
  - vm_compute. reflexivity.
Qed.

Lemma four_node_explicit (loaded : @explorer path) l1 c1 l2 c2 l3 c3 l4 c4 bounds
  positions :
  let lm := baseLayout (fourDepths l1 c1 l2 c2 l3 c3 l4 c4, bounds) in
  _layoutMeta loaded = Some (with_positionsById positions lm) ->
  exists s2 p,
    relayoutWithHeights buildOrthogonalPaths StringToNumber
      explicitHeights loaded = Normal s2
    /\ positionOf s2 "004" = Some p /\ top p == 350.
Proof.
  intros lm Hl. rewrite relayoutWithHeights_explicit. eexists. eexists.
  split; [reflexivity|]. split.
  - eapply reflow_position.
    + exact Hl.
    + apply collect_NoDup. constructor.
    + reflexivity.
  - vm_compute. reflexivity.
Qed.

(** The four-node scenario, for any layout function that gives the four
    nodes the depths 0, 1, 1, 2. *)
Lemma four_node_tops (s0 : @explorer path) :
  depthsOf (fst (computeTreeLayout
                   (hierarchyNodes (with_hierarchy (Some fourNodeHierarchy) s0))
                   (hierarchyEdges (with_hierarchy (Some fourNodeHierarchy) s0))
                   layoutOptionsOfComponent))
  = [("001", 0); ("002", 1); ("003", 1); ("004", 2)]%nat%string ->
  let loaded :=
    onHierarchyResolved normalizeString computeTreeLayout buildOrthogonalPaths
      (Some fourNodeHierarchy) s0 in
  (exists p, positionOf loaded "004" = Some p /\ top p == 500)
  /\ (exists s2 p,
        relayoutWithHeights buildOrthogonalPaths StringToNumber
          explicitHeights loaded = Normal s2
        /\ positionOf s2 "004" = Some p /\ top p == 350).
Proof.
  intros Hd loaded.
  pose proof (onHierarchyResolved_layout (Some fourNodeHierarchy) s0) as Hl.
  cbv zeta in Hl. fold loaded in Hl. clearbody loaded.
  destruct (computeTreeLayout _ _ _) as [positions bounds].
  cbn [fst] in Hd. apply depthsOf_four in Hd.
  destruct Hd as (l1 & c1 & l2 & c2 & l3 & c3 & l4 & c4 & ->).
  split.
  - exact (four_node_nominal loaded _ _ _ _ _ _ _ _ _ Hl).
  - exact (four_node_explicit loaded _ _ _ _ _ _ _ _ _ _ Hl).
Qed.


Lemma reflow_node (s : @explorer path) lm id bp :
  _layoutMeta s = Some lm -> wellFormed lm ->
  JsMap.get id (basePositionsById lm) = Some bp ->
  let measured := _measuredHeightsById s in
  let height := resolvedHeight (JsMap.get id measured) (nodeMaxHeight lm) in
  exists p,
    positionOf (applyRowHeightLayout buildOrthogonalPaths s) id = Some p
    /\ left p = base_left bp /\ centerX p = base_centerX bp
    /\ depth p = base_depth bp
    /\ top p == rowTop lm measured (base_depth bp)
    /\ centerY p = top p + height / 2
    /\ bottomY p = top p + height.
Proof.
  intros Hl (Hnd & Hdepth & Hpos) Hget measured height.
  eexists. split; [apply (reflow_position s lm id bp Hl Hnd Hget)|].
  repeat (split; [reflexivity|]).
  split; [|split; reflexivity].
  cbn [top adjustedPosition snd].
  destruct (row_top lm measured (base_depth bp) Hpos) as (t & Ht & Heq).
  - apply (Hdepth id). apply map_get_In. assumption.
  - fold measured. rewrite Ht. rewrite or_zero_eq. exact Heq.
Qed.

Lemma reflow_canvas (s : @explorer path) lm :
  _layoutMeta s = Some lm -> wellFormed lm ->
  let measured := _measuredHeightsById s in
  _canvasHeight (applyRowHeightLayout buildOrthogonalPaths s)
  = Math_ceil (rowTop lm measured (maxDepth lm)
               + rowMaxHeight lm measured (maxDepth lm) + gapY lm).
Proof.
  intros Hl (_ & _ & Hpos) measured.
  destruct (applyRowHeightLayout_layout s lm Hl) as (_ & -> & _).
  unfold canvasHeightOf, Math_ceil. f_equal. apply Qceiling_comp.
  destruct (row_top lm measured (maxDepth lm) Hpos (Nat.le_refl _))
    as (t & Ht & Heq).
  fold measured. rewrite Ht.
  rewrite (row_height lm measured (maxDepth lm) Hpos (Nat.le_refl _)).
  rewrite !or_zero_eq, Heq. reflexivity.
Qed.

Lemma reflow_of_layout (built : @explorer path) lm (measured : JsMap.t Q) :
  _layoutMeta built = Some lm -> wellFormed lm ->
  let loaded := with_measuredHeightsById measured built in
  let s := applyRowHeightLayout buildOrthogonalPaths loaded in
  (forall id bp,
      JsMap.get id (basePositionsById lm) = Some bp ->
      let height :=
        resolvedHeight (JsMap.get id measured) (nodeMaxHeight lm) in
      exists p,
        positionOf s id = Some p
        /\ left p = base_left bp /\ centerX p = base_centerX bp
        /\ depth p = base_depth bp
        /\ top p == rowTop lm measured (base_depth bp)
        /\ centerY p = top p + height / 2
        /\ bottomY p = top p + height)
  /\ _canvasHeight s
     = Math_ceil (rowTop lm measured (maxDepth lm)
                  + rowMaxHeight lm measured (maxDepth lm) + gapY lm)
  /\ (Forall (fun e => whole (snd e)) measured ->
      whole (nodeMaxHeight lm) -> whole (gapY lm) ->
      _canvasHeight s
      == rowTop lm measured (maxDepth lm)
         + rowMaxHeight lm measured (maxDepth lm) + gapY lm).
Proof.
  intros Hb Hwf loaded s.
  assert (Hl : _layoutMeta loaded = Some lm) by exact Hb.
  assert (Hm : _measuredHeightsById loaded = measured) by reflexivity.
  subst s. clearbody loaded.
  pose proof (reflow_canvas loaded lm Hl Hwf) as Hc.
  cbv zeta in Hc. rewrite Hm in Hc.
  split; [|split].
  - intros id bp Hget.
    pose proof (reflow_node loaded lm id bp Hl Hwf Hget) as H.
    cbv zeta in H. rewrite Hm in H. exact H.
  - exact Hc.
  - intros Hw HH Hg. rewrite Hc. apply whole_ceil.
    apply whole_plus; [|assumption].
    apply whole_plus;
      [apply whole_rowTop|apply whole_rowMaxHeight]; assumption.
Qed.


(** C3.  In the position map the re-flow produces, two nodes of the same
    depth have the same top, whatever their measured heights. *)
Theorem reflow_rows_aligned (s : @explorer path) (id1 id2 : string)
  (p1 p2 : position) :
  positionOf (applyRowHeightLayout buildOrthogonalPaths s) id1 = Some p1 ->
  positionOf (applyRowHeightLayout buildOrthogonalPaths s) id2 = Some p2 ->
  depth p1 = depth p2 ->
  top p1 = top p2.
Proof.
  unfold positionOf. destruct (_layoutMeta s) as [lm|] eqn:Hl.
  - destruct (applyRowHeightLayout_layout s lm Hl) as (-> & _).
    cbn [positionsById with_positionsById].
    intros H1 H2. apply adjusted_member in H1, H2.
    destruct H1 as (bp1 & ->), H2 as (bp2 & ->).
    cbn [depth top adjustedPosition snd]. intros ->. reflexivity.
  - unfold applyRowHeightLayout. rewrite Hl. rewrite Hl. discriminate.
Qed.

(** C2.  Running the re-flow a second time, with the measured heights
    unchanged, changes nothing: the positions, the connector paths, the
    canvas height and the rendered nodes are those of the first run. *)
Theorem reflow_idempotent (s : @explorer path) :
  let once := applyRowHeightLayout buildOrthogonalPaths s in
  let twice := applyRowHeightLayout buildOrthogonalPaths once in
  twice = once
  /\ (forall id, positionOf twice id = positionOf once id)
  /\ connectorPaths twice = connectorPaths once
  /\ _canvasHeight twice = _canvasHeight once
  /\ positionedNodes twice = positionedNodes once.
Proof.
  intros once twice.
  assert (H : twice = once).
  { subst twice once. unfold applyRowHeightLayout.
    destruct (_layoutMeta s) as [lm|] eqn:Hl.
    - cbv zeta. destruct s. reflexivity.
    - rewrite Hl. reflexivity. }
  rewrite H. repeat split.
Qed.

End Reflow.



(** C3, at the two children of the four-node hierarchy after the explicit
    heights 150 and 80 have been supplied. *)
Lemma reflow_rows_aligned_witness :
  let measured :=
    with_measuredHeightsById
      [("001", 60); ("002", 150); ("003", 80); ("004", 70)]%string
      fourLoaded in
  let s := applyRowHeightLayout scenarioPaths measured in
  exists p1 p2,
    positionOf s "002" = Some p1 /\ positionOf s "003" = Some p2
    /\ depth p1 = depth p2 /\ top p1 = top p2.
Proof.
  intros measured s.
  let o := eval vm_compute in (positionOf s "002") in
  match o with Some ?p => exists p end.
  let o := eval vm_compute in (positionOf s "003") in
  match o with Some ?p => exists p end.
  assert (E1 : positionOf s "002"
               = Some {| left := 0; top := 130; depth := 1; centerX := 140;
                         centerY := 410 # 2; bottomY := 280 |})
    by (vm_compute; reflexivity).
  assert (E2 : positionOf s "003"
               = Some {| left := 340; top := 130; depth := 1; centerX := 480;
                         centerY := 340 # 2; bottomY := 210 |})
    by (vm_compute; reflexivity).
  split; [exact E1|]. split; [exact E2|]. split; [reflexivity|].
  exact (reflow_rows_aligned scenarioPaths measured "002" "003" _ _ E1 E2
           eq_refl).
Defined.

(* ------------------------------------------------------------------ *)
(** ** Fetching *)

Section Fetching.

Context {path error : Type}.
Variable normalizeString : option string -> option string.
Variable computeTreeLayout :
  list hierarchyNode -> list hierarchyEdge -> layoutOptions ->
  JsMap.t treePosition * layoutBounds.
Variable buildOrthogonalPaths :
  list hierarchyEdge -> JsMap.t position -> list path.
Variable parseError : error -> option string.
Variable StringToNumber : string -> number.

(** C10.  For a loaded result with [capped = true], the cap message on
    display is the fallback text when the result's [capMessage] is absent
    or empty, and the result's [capMessage] itself otherwise. *)
Theorem capMessage_fallback (s : @explorer path) (h : hierarchyResult) :
  hierarchy s = Some h -> capped h = true ->
  isCapped s = true
  /\ (capMessage h = None \/ capMessage h = Some ""%string ->
      capMessageOf s = Some "Results were capped."%string)
  /\ (forall m, capMessage h = Some m -> m <> ""%string ->
                capMessageOf s = Some m).
Proof.
  intros Hh Hc. unfold isCapped, capMessageOf. rewrite Hh.
  split; [exact Hc|]. split.
  - intros [-> | ->]; reflexivity.
  - intros m -> Hm. unfold js_or, truthy.
    destruct (String.eqb_spec m ""); [contradiction|reflexivity].
Qed.

(** C7.  The effective root id is the normalised root override when that
    is present and the normalised ambient record id otherwise.  With a
    template name, [refreshHierarchy] issues exactly one request: it
    carries the override when one is present, and the ambient record id
    when there is none and a record id is present, together with
    [maxLevels = 10] and [maxNodes = 50]; and every request that
    [refreshHierarchy] issues carries the effective root id and these
    limits. *)
Theorem fetch_uses_effective_root (s : @explorer path) :
  let template := normalizeString (_templateDeveloperName s) in
  let override := normalizeString (_rootRecordId s) in
  let ambient := normalizeString (_recordId s) in
  let requestFor root :=
    {| req_templateDeveloperName := template;
       req_effectiveRootRecordId := root;
       req_maxLevels := 10;
       req_maxNodes := 50 |} in
  (truthy override = true ->
   effectiveRootRecordId normalizeString s = override)
  /\ (truthy override = false ->
      effectiveRootRecordId normalizeString s = ambient)
  /\ (truthy template = true -> truthy override = true ->
      snd (refreshHierarchy (error := error) normalizeString s)
      = [GetHierarchy (requestFor override)])
  /\ (truthy template = true -> truthy override = false ->
      truthy ambient = true ->
      snd (refreshHierarchy (error := error) normalizeString s)
      = [GetHierarchy (requestFor ambient)])
  /\ (forall request : hierarchyRequest,
        In (GetHierarchy request)
           (snd (refreshHierarchy (error := error) normalizeString s)) ->
        req_effectiveRootRecordId request
        = effectiveRootRecordId normalizeString s
        /\ truthy (req_effectiveRootRecordId request) = true
        /\ (truthy override = true ->
            req_effectiveRootRecordId request = override)
        /\ (truthy override = false ->
            req_effectiveRootRecordId request = ambient)
        /\ req_templateDeveloperName request = template
        /\ req_maxLevels request = 10%nat
        /\ req_maxNodes request = 50%nat).
Proof.
  intros template override ambient requestFor.
  assert (Ho : truthy override = true ->
               effectiveRootRecordId normalizeString s = override).
  { intro H. unfold effectiveRootRecordId, js_or. fold override.
    now rewrite H. }
  assert (Ha : truthy override = false ->
               effectiveRootRecordId normalizeString s = ambient).
  { intro H. unfold effectiveRootRecordId, js_or. fold override.
    now rewrite H. }
  split; [exact Ho|]. split; [exact Ha|].
  unfold refreshHierarchy. fold template.
  split; [|split].
  - intros Et Er. rewrite Et, (Ho Er), Er. reflexivity.
  - intros Et Er Ea. rewrite Et, (Ha Er), Ea. reflexivity.
  - intro request.
    destruct (truthy template) eqn:Et; cbn [negb orb]; [|intros []].
    destruct (truthy (effectiveRootRecordId normalizeString s)) eqn:Er;
      cbn [negb snd]; [|intros []].
    intros [[= <-]|[]]. cbn.
    split; [reflexivity|]. split; [exact Er|].
    split; [exact Ho|]. split; [exact Ha|].
    repeat split.
Qed.

Lemma isLoading_applyRowHeightLayout (s : @explorer path) :
  isLoading (applyRowHeightLayout buildOrthogonalPaths s) = isLoading s.
Proof.
  unfold applyRowHeightLayout. destruct (_layoutMeta s); reflexivity.
Qed.

Lemma centerRootInViewport_cases viewport (s : @explorer path) :
  centerRootInViewport normalizeString viewport s = (false, s)
  \/ centerRootInViewport normalizeString viewport s = (true, s)
  \/ exists x y,
      centerRootInViewport normalizeString viewport s
      = (true,
         with_centeredHierarchyKey (Some (hierarchyKey normalizeString s))
           (with_translateY y (with_translateX x s))).
Proof.
  unfold centerRootInViewport.
  destruct viewport; destruct (_layoutMeta s); auto; cbv zeta;
    repeat match goal with
           | |- context [if ?b then _ else _] => destruct b; auto
           | |- context [match ?x with Some _ => _ | None => _ end] =>
               destruct x; auto
           end;
    right; right; eexists; eexists; reflexivity.
Qed.

Lemma isLoading_tryCenter viewport (s : @explorer path) :
  isLoading (tryCenterRootInViewport normalizeString viewport s)
  = isLoading s.
Proof.
  unfold tryCenterRootInViewport.
  destruct (centerRootInViewport_cases viewport s)
    as [-> | [-> | (x & y & ->)]]; reflexivity.
Qed.

Lemma isLoading_recenter viewport (s : @explorer path) :
  isLoading (recenter normalizeString viewport s) = isLoading s.
Proof. unfold recenter. now rewrite isLoading_tryCenter. Qed.

Lemma isLoading_handleNodeResize viewport (acc : @explorer path * bool) entry :
  isLoading (fst (handleNodeResize normalizeString viewport acc entry))
  = isLoading (fst acc).
Proof.
  unfold handleNodeResize. cbv zeta.
  set (s1 := if _pendingCenter (fst acc) && resize_isViewport entry
             then tryCenterRootInViewport normalizeString viewport (fst acc)
             else fst acc).
  assert (H1 : isLoading s1 = isLoading (fst acc)).
  { subst s1. destruct (_ && _); [apply isLoading_tryCenter|reflexivity]. }
  clearbody s1.
  destruct (resize_nodeId entry) as [id|]; [|exact H1].
  destruct (negb (truthy (Some id))); [exact H1|].
  destruct (positiveFinite (resize_height entry)); [|exact H1].
  destruct (heightDiffers _ _); exact H1.
Qed.

Lemma isLoading_handleNodeResizes viewport entries (s : @explorer path) :
  isLoading (handleNodeResizes normalizeString viewport entries s)
  = isLoading s.
Proof.
  unfold handleNodeResizes. cbv zeta.
  assert (H : forall acc : @explorer path * bool,
             isLoading
               (fst (fold_left (handleNodeResize normalizeString viewport)
                       entries acc))
             = isLoading (fst acc)).
  { induction entries as [|e entries IH]; intro acc; [reflexivity|].
    cbn [fold_left]. rewrite IH. apply isLoading_handleNodeResize. }
  specialize (H (s, false)).
  destruct (fold_left _ entries (s, false)) as [s' didUpdate].
  cbn [fst snd] in *. destruct didUpdate; [|exact H].
  unfold queueRelayout. destruct (_relayoutQueued s'); exact H.
Qed.

Lemma isLoading_runQueuedRelayout isConnected viewport (s : @explorer path) :
  isLoading
    (runQueuedRelayout normalizeString buildOrthogonalPaths isConnected
       viewport s)
  = isLoading s.
Proof.
  unfold runQueuedRelayout. cbv zeta.
  destruct (negb isConnected || negb (hasData (with_relayoutQueued false s)));
    [reflexivity|].
  destruct (_pendingCenter _);
    rewrite ?isLoading_tryCenter, isLoading_applyRowHeightLayout; reflexivity.
Qed.

Lemma relayoutWithHeights_Normal heightsById (s s' : @explorer path) :
  relayoutWithHeights buildOrthogonalPaths StringToNumber heightsById s
  = Normal s' ->
  exists nextMap,
    s' = applyRowHeightLayout buildOrthogonalPaths
           (with_measuredHeightsById nextMap s).
Proof.
  unfold relayoutWithHeights.
  destruct (nextMapOf StringToNumber heightsById) as [nextMap|e];
    [|discriminate].
  intros [= <-]. exists nextMap. reflexivity.
Qed.

Lemma isLoading_pointerDown event (s : @explorer path) :
  isLoading (fst (handleCanvasPointerDown (error := error) event s))
  = isLoading s.
Proof.
  unfold handleCanvasPointerDown. destruct event as [event|]; [|reflexivity].
  destruct (_isPanning s); [reflexivity|].
  destruct (hitsExcludedRegion (target event)); [reflexivity|].
  destruct (negb (button event =? 0)%Z); reflexivity.
Qed.

Lemma isLoading_pointerMove event (s : @explorer path) :
  isLoading (fst (handleCanvasPointerMove (error := error) event s))
  = isLoading s.
Proof.
  unfold handleCanvasPointerMove.
  destruct (negb (_isPanning s)); [reflexivity|].
  destruct (otherPointer event s); reflexivity.
Qed.

Lemma isLoading_pointerUp event (s : @explorer path) :
  isLoading (fst (handleCanvasPointerUp (error := error) event s))
  = isLoading s.
Proof.
  unfold handleCanvasPointerUp.
  destruct (_activePointerId s) as [active|], event as [e|]; cbv zeta;
    try reflexivity.
  destruct (negb (pointerId e =? active)%Z); reflexivity.
Qed.

Lemma refreshHierarchy_skipped (s : @explorer path) :
  truthy (normalizeString (_templateDeveloperName s)) = false
  \/ truthy (effectiveRootRecordId normalizeString s) = false ->
  refreshHierarchy (error := error) normalizeString s
  = (with_errorMessage None (with_hierarchy None s), []).
Proof.
  intro H. unfold refreshHierarchy.
  destruct H as [-> | ->]; [reflexivity|].
  rewrite orb_true_r. reflexivity.
Qed.

Lemma refreshHierarchy_loading (s : @explorer path) :
  let r := refreshHierarchy (error := error) normalizeString s in
  (fetchesIn (snd r) = 0%nat /\ isLoading (fst r) = isLoading s)
  \/ fetchesIn (snd r) = 1%nat.
Proof.
  unfold refreshHierarchy.
  destruct (negb (truthy (normalizeString (_templateDeveloperName s)))
            || negb (truthy (effectiveRootRecordId normalizeString s)));
    [left; split; reflexivity | right; reflexivity].
Qed.

Lemma settleHierarchy_loading o (s : @explorer path) :
  isLoading
    (fst (settleHierarchy normalizeString computeTreeLayout
            buildOrthogonalPaths parseError o s)) = false.
Proof. destruct o; reflexivity. Qed.

(** No fetch pending, no loading flag. *)
Lemma loading_invariant (r : @running path) :
  reachable normalizeString computeTreeLayout buildOrthogonalPaths parseError
    StringToNumber r ->
  pendingFetches r = 0%nat -> isLoading (component r) = false.
Proof.
  induction 1 as [|r r' Hr IH Hstep]; [reflexivity|].
  destruct Hstep; cbn [component pendingFetches]; intro Hp;
    try (rewrite <- (IH Hp); reflexivity).
  - destruct (refreshHierarchy_loading (component r)) as [[H0 Hl]|H1];
      cbv zeta in *.
    + rewrite Hl. apply IH. lia.
    + lia.
  - apply settleHierarchy_loading.
  - rewrite isLoading_recenter. auto.
  - unfold relayout. rewrite isLoading_applyRowHeightLayout. auto.
  - match goal with
    | H : relayoutWithHeights _ _ _ _ = Normal _ |- _ =>
        apply relayoutWithHeights_Normal in H; destruct H as (m & ->)
    end.
    rewrite isLoading_applyRowHeightLayout. apply IH. assumption.
  - rewrite isLoading_pointerDown. auto.
  - rewrite isLoading_pointerMove. auto.
  - rewrite isLoading_pointerUp. auto.
  - rewrite isLoading_handleNodeResizes. auto.
  - rewrite isLoading_runQueuedRelayout. auto.
Qed.


End Fetching.

(** C7, at the components of the test suite: with the record id [001]
    alone the request carries [001]; with the root override [002] it
    carries [002]. *)
Lemma fetch_uses_effective_root_witness :
  snd (refreshHierarchy (error := string) scenarioNormalize configured)
  = [GetHierarchy
       {| req_templateDeveloperName := Some "MyTemplate"%string;
          req_effectiveRootRecordId := Some "001"%string;
          req_maxLevels := 10;
          req_maxNodes := 50 |}]
  /\ snd (refreshHierarchy (error := string) scenarioNormalize overridden)
     = [GetHierarchy
          {| req_templateDeveloperName := Some "MyTemplate"%string;
             req_effectiveRootRecordId := Some "002"%string;
             req_maxLevels := 10;
             req_maxNodes := 50 |}]
  /\ effectiveRootRecordId scenarioNormalize configured = Some "001"%string
  /\ effectiveRootRecordId scenarioNormalize overridden = Some "002"%string.
Proof.
  destruct (@fetch_uses_effective_root unit string scenarioNormalize
              configured) as (_ & Ha1 & _ & Hr1 & _).
  destruct (@fetch_uses_effective_root unit string scenarioNormalize
              overridden) as (Ho2 & _ & Hr2 & _ & _).
  split; [exact (Hr1 eq_refl eq_refl eq_refl)|].
  split; [exact (Hr2 eq_refl eq_refl)|].
  split; [exact (Ha1 eq_refl)|exact (Ho2 eq_refl)].
Defined.



(** C10, at the capped result of the test suite. *)
Lemma capMessage_fallback_witness :
  capMessageOf (with_hierarchy (Some cappedHierarchy) configured)
  = Some "Capped at 50 nodes"%string.
Proof.
  apply (@capMessage_fallback unit
           (with_hierarchy (Some cappedHierarchy) configured) cappedHierarchy
           eq_refl eq_refl).
  - reflexivity.
  - discriminate.
Defined.

(* ------------------------------------------------------------------ *)
(** ** Centering *)

Lemma Qle_bool_pos_false (q : Q) : 0 < q -> Qle_bool q 0 = false.
Proof.
  intro H. destruct (Qle_bool q 0) eqn:E; [|reflexivity].
  apply Qle_bool_iff in E. exfalso. apply (Qlt_not_le _ _ H E).
Qed.

Lemma isCenteredKey_true centered key :
  isCenteredKey centered key = true <-> centered = Some key.
Proof.
  unfold isCenteredKey. destruct centered as [k|].
  - rewrite String.eqb_eq. split; congruence.
  - split; discriminate.
Qed.

Section Centering.

Context {path : Type}.
Variable normalizeString : option string -> option string.
Variable buildOrthogonalPaths :
  list hierarchyEdge -> JsMap.t position -> list path.

Lemma center_without_size viewport (s : @explorer path) :
  viewportWidthOf viewport <= 0 \/ viewportHeightOf viewport <= 0 ->
  centerRootInViewport normalizeString viewport s = (false, s).
Proof.
  intro H. unfold centerRootInViewport.
  destruct viewport as [| |rect]; destruct (_layoutMeta s); try reflexivity.
  cbv zeta. cbn [viewportWidthOf viewportHeightOf] in H.
  destruct H as [H|H]; apply Qle_bool_iff in H; rewrite H.
  - reflexivity.
  - rewrite orb_true_r. reflexivity.
Qed.

Lemma center_with_size viewport (s : @explorer path) lm :
  0 < viewportWidthOf viewport -> 0 < viewportHeightOf viewport ->
  _layoutMeta s = Some lm ->
  centerRootInViewport normalizeString viewport s
  = if isCenteredKey (_centeredHierarchyKey s) (hierarchyKey normalizeString s)
    then (true, s)
    else
      match resolveRootId normalizeString s with
      | Some rootId =>
          if truthy (Some rootId)
          then
            match JsMap.get rootId (positionsById lm) with
            | Some rootPos =>
                (true,
                 with_centeredHierarchyKey
                   (Some (hierarchyKey normalizeString s))
                   (with_translateY
                      (Math_round (viewportHeightOf viewport / 2
                                   - centerY rootPos * currentScale s))
                      (with_translateX
                         (Math_round (viewportWidthOf viewport / 2
                                      - centerX rootPos * currentScale s))
                         s)))
            | None => (false, s)
            end
          else (false, s)
      | None => (false, s)
      end.
Proof.
  intros Hw Hh Hl. unfold centerRootInViewport. rewrite Hl.
  destruct viewport as [| |rect]; cbn [viewportWidthOf viewportHeightOf] in *;
    try (exfalso; apply (Qlt_irrefl 0); assumption).
  cbv zeta.
  rewrite (Qle_bool_pos_false _ Hw), (Qle_bool_pos_false _ Hh).
  cbn [orb].
  destruct (isCenteredKey _ _); [reflexivity|].
  destruct (resolveRootId normalizeString s) as [rootId|]; [|reflexivity].
  destruct (truthy (Some rootId)); [|reflexivity].
  cbn [negb].
  destruct (JsMap.get rootId (positionsById lm)); reflexivity.
Qed.

Lemma center_when_centered viewport (s : @explorer path) :
  _centeredHierarchyKey s = Some (hierarchyKey normalizeString s) ->
  centerRootInViewport normalizeString viewport s = (false, s)
  \/ centerRootInViewport normalizeString viewport s = (true, s).
Proof.
  intro Hk. apply isCenteredKey_true in Hk.
  unfold centerRootInViewport.
  destruct viewport; destruct (_layoutMeta s); auto; cbv zeta;
    match goal with
    | |- context [if ?b then _ else _] => destruct b; auto
    end; rewrite Hk; auto.
Qed.

(** C4 (as amended).  With a viewport of positive width and height, a
    layout, a resolvable root position, and a hierarchy that is not
    already centred under its current key, [recenter] sets the transform
    to [round(width/2 - rootCenterX * scale)] and
    [round(height/2 - rootCenterY * scale)] at the current zoom scale,
    records the key and clears the pending flag.  With a viewport of zero
    or missing size, centering returns false, [recenter] leaves the
    pending flag set and the transform unchanged, and another attempt
    leaves the component as it is.  While the flag is set, a size
    observation of the viewport attempts the centering again. *)
Theorem centering_transform :
  (forall viewport (s : @explorer path) lm rootId rootPos,
      0 < viewportWidthOf viewport -> 0 < viewportHeightOf viewport ->
      _layoutMeta s = Some lm ->
      _centeredHierarchyKey s <> Some (hierarchyKey normalizeString s) ->
      resolveRootId normalizeString s = Some rootId ->
      rootId <> ""%string ->
      JsMap.get rootId (positionsById lm) = Some rootPos ->
      let s' := recenter normalizeString viewport s in
      _translateX s'
      = Math_round (viewportWidthOf viewport / 2
                    - centerX rootPos * currentScale s)
      /\ _translateY s'
         = Math_round (viewportHeightOf viewport / 2
                       - centerY rootPos * currentScale s)
      /\ _scale s' = _scale s
      /\ _centeredHierarchyKey s' = Some (hierarchyKey normalizeString s)
      /\ _pendingCenter s' = false)
  /\ (forall viewport (s : @explorer path),
        viewportWidthOf viewport <= 0 \/ viewportHeightOf viewport <= 0 ->
        fst (centerRootInViewport normalizeString viewport s) = false
        /\ recenter normalizeString viewport s = with_pendingCenter true s
        /\ _pendingCenter (recenter normalizeString viewport s) = true
        /\ _translateX (recenter normalizeString viewport s) = _translateX s
        /\ _translateY (recenter normalizeString viewport s) = _translateY s
        /\ tryCenterRootInViewport normalizeString viewport s = s)
  /\ (forall viewport height (s : @explorer path),
        _pendingCenter s = true ->
        handleNodeResizes normalizeString viewport
          [ {| resize_isViewport := true;
               resize_nodeId := None;
               resize_height := height |} ] s
        = tryCenterRootInViewport normalizeString viewport s).
Proof.
  split; [|split].
  - intros viewport s lm rootId rootPos Hw Hh Hl Hk Hr Hne Hget s'.
    subst s'. unfold recenter, tryCenterRootInViewport.
    rewrite (center_with_size viewport (with_pendingCenter true s) lm Hw Hh Hl).
    change (hierarchyKey normalizeString (with_pendingCenter true s))
      with (hierarchyKey normalizeString s).
    change (_centeredHierarchyKey (with_pendingCenter true s))
      with (_centeredHierarchyKey s).
    change (resolveRootId normalizeString (with_pendingCenter true s))
      with (resolveRootId normalizeString s).
    destruct (isCenteredKey (_centeredHierarchyKey s)
                (hierarchyKey normalizeString s)) eqn:E.
    { apply isCenteredKey_true in E. contradiction. }
    rewrite Hr, Hget.
    assert (Ht : truthy (Some rootId) = true).
    { unfold truthy. destruct (String.eqb_spec rootId ""); [contradiction|].
      reflexivity. }
    rewrite Ht. repeat split.
  - intros viewport s H. unfold recenter, tryCenterRootInViewport.
    rewrite !(center_without_size viewport _ H). repeat split.
  - intros viewport height s Hp. unfold handleNodeResizes.
    cbn [fold_left handleNodeResize fst snd resize_isViewport resize_nodeId].
    rewrite Hp. reflexivity.
Qed.

Lemma center_success viewport (s s' : @explorer path) :
  centerRootInViewport normalizeString viewport s = (true, s') ->
  _centeredHierarchyKey s' = Some (hierarchyKey normalizeString s')
  /\ hierarchyKey normalizeString s' = hierarchyKey normalizeString s.
Proof.
  unfold centerRootInViewport.
  destruct viewport; destruct (_layoutMeta s); try discriminate; cbv zeta;
    (destruct (_ || _); [discriminate|]);
    (destruct (isCenteredKey _ _) eqn:E;
     [apply isCenteredKey_true in E; intros [= <-]; auto|]);
    (destruct (negb _); [discriminate|]);
    (destruct (resolveRootId normalizeString s); [|discriminate]);
    (destruct (JsMap.get _ _); [|discriminate]);
    intros [= <-]; split; reflexivity.
Qed.

Lemma reflow_keeps_key measured (s : @explorer path) :
  let s' := applyRowHeightLayout buildOrthogonalPaths
              (with_measuredHeightsById measured s) in
  hierarchyKey normalizeString s' = hierarchyKey normalizeString s
  /\ _centeredHierarchyKey s' = _centeredHierarchyKey s
  /\ _translateX s' = _translateX s /\ _translateY s' = _translateY s.
Proof.
  unfold applyRowHeightLayout.
  change (_layoutMeta (with_measuredHeightsById measured s))
    with (_layoutMeta s).
  destruct (_layoutMeta s); repeat split.
Qed.

(** C5 (as amended).  A successful centering leaves the component centred
    under its hierarchy key, and a re-flow with other measured heights
    changes neither the key nor that record.  From then on, as long as the
    key is the same, [recenter] leaves [translateX] and [translateY] as
    they are, whatever the viewport; when the viewport has a positive size
    and a layout exists, centering reports success without recomputing
    and clears the pending flag.  So [recenter] changes the transform only
    in a state whose key differs from the one centred on. *)
Theorem centering_idempotent :
  (forall viewport (s s' : @explorer path),
      centerRootInViewport normalizeString viewport s = (true, s') ->
      _centeredHierarchyKey s' = Some (hierarchyKey normalizeString s'))
  /\ (forall measured (s : @explorer path),
        let s' := applyRowHeightLayout buildOrthogonalPaths
                    (with_measuredHeightsById measured s) in
        hierarchyKey normalizeString s' = hierarchyKey normalizeString s
        /\ _centeredHierarchyKey s' = _centeredHierarchyKey s)
  /\ (forall viewport (s : @explorer path),
        _centeredHierarchyKey s = Some (hierarchyKey normalizeString s) ->
        let s' := recenter normalizeString viewport s in
        _translateX s' = _translateX s
        /\ _translateY s' = _translateY s
        /\ _centeredHierarchyKey s' = _centeredHierarchyKey s
        /\ (0 < viewportWidthOf viewport -> 0 < viewportHeightOf viewport ->
            _layoutMeta s <> None ->
            centerRootInViewport normalizeString viewport
              (with_pendingCenter true s)
            = (true, with_pendingCenter true s)
            /\ _pendingCenter s' = false))
  /\ (forall viewport (s : @explorer path),
        _translateX (recenter normalizeString viewport s) <> _translateX s
        \/ _translateY (recenter normalizeString viewport s) <> _translateY s ->
        _centeredHierarchyKey s <> Some (hierarchyKey normalizeString s)).
Proof.
  assert (Hsame : forall viewport (s : @explorer path),
             _centeredHierarchyKey s = Some (hierarchyKey normalizeString s) ->
             _translateX (recenter normalizeString viewport s) = _translateX s
             /\ _translateY (recenter normalizeString viewport s)
                = _translateY s
             /\ _centeredHierarchyKey (recenter normalizeString viewport s)
                = _centeredHierarchyKey s).
  { intros viewport s Hk. unfold recenter, tryCenterRootInViewport.
    destruct (center_when_centered viewport (with_pendingCenter true s) Hk)
      as [-> | ->]; repeat split. }
  split; [|split; [|split]].
  - intros viewport s s' H. apply (center_success viewport s s' H).
  - intros measured s s'. destruct (reflow_keeps_key measured s) as (H1 & H2 & _).
    split; assumption.
  - intros viewport s Hk s'. destruct (Hsame viewport s Hk) as (Hx & Hy & Hc).
    repeat (split; [assumption|]).
    intros Hw Hh Hl. destruct (_layoutMeta s) as [lm|] eqn:El; [|congruence].
    subst s'. unfold recenter, tryCenterRootInViewport.
    rewrite (center_with_size viewport (with_pendingCenter true s) lm Hw Hh El).
    change (hierarchyKey normalizeString (with_pendingCenter true s))
      with (hierarchyKey normalizeString s).
    change (_centeredHierarchyKey (with_pendingCenter true s))
      with (_centeredHierarchyKey s).
    rewrite (proj2 (isCenteredKey_true _ _) Hk). split; reflexivity.
  - intros viewport s H Hk. destruct (Hsame viewport s Hk) as (Hx & Hy & _).
    destruct H as [H|H]; contradiction.
Qed.

End Centering.

(** C4, at the centering test: the single root, centre (140, 90), in a
    viewport of 800 by 600 at scale 0.7 is translated by (302, 237). *)
Lemma centering_transform_witness :
  let s' := recenter scenarioNormalize viewport800x600 singleLoaded in
  _translateX s' == 302 /\ _translateY s' == 237
  /\ _centeredHierarchyKey s' = Some "MyTemplate|001|001|1|0"%string
  /\ _pendingCenter s' = false.
Proof.
  intro s'.
  assert (Hl : _layoutMeta singleLoaded
               = Some (with_positionsById
                         [("001"%string,
                           {| left := 0; top := 0; depth := 0; centerX := 140;
                              centerY := 0 + 180 / 2; bottomY := 0 + 180 |})]
                         (baseLayout singleNodeLayout)))
    by (vm_compute; reflexivity).
  destruct (proj1 (centering_transform scenarioNormalize) viewport800x600
              singleLoaded _ "001"%string _
              ltac:(vm_compute; reflexivity) ltac:(vm_compute; reflexivity)
              Hl ltac:(vm_compute; discriminate)
              ltac:(vm_compute; reflexivity) ltac:(discriminate)
              ltac:(vm_compute; reflexivity))
    as (Hx & Hy & _ & Hk & Hp).
  fold s' in Hx, Hy, Hk, Hp.
  rewrite Hx, Hy, Hk, Hp.
  split; [vm_compute; reflexivity|]. split; [vm_compute; reflexivity|].
  split; [vm_compute; reflexivity|]. reflexivity.
Defined.

(** C4 as stated fails in a state that is already centred under its key:
    after centering at (302, 237) and a drag by 10 pixels, the viewport
    still has its size and the root its position, yet [recenter] leaves
    [translateX] at 312. *)
Lemma centering_skipped_when_already_centered :
  exists rootPos,
    0 < viewportWidthOf viewport800x600
    /\ 0 < viewportHeightOf viewport800x600
    /\ resolveRootId scenarioNormalize pannedAfterCentering
       = Some "001"%string
    /\ positionOf pannedAfterCentering "001" = Some rootPos
    /\ Math_round (viewportWidthOf viewport800x600 / 2
                   - centerX rootPos * currentScale pannedAfterCentering)
       == 302
    /\ _translateX
         (recenter scenarioNormalize viewport800x600 pannedAfterCentering)
       == 312.
Proof.
  let o := eval vm_compute in (positionOf pannedAfterCentering "001") in
  match o with Some ?p => exists p end.
  split; [vm_compute; reflexivity|].
  split; [vm_compute; reflexivity|].
  split; [vm_compute; reflexivity|].
  split; [vm_compute; reflexivity|].
  split; vm_compute; reflexivity.
Qed.

(** C5, after the measured height of the root has changed to 60: the
    component is still centred under its key and [recenter] keeps the
    transform. *)
Lemma centering_idempotent_witness :
  let s := applyRowHeightLayout scenarioPaths
             (with_measuredHeightsById [("001"%string, 60)] centred) in
  let s' := recenter scenarioNormalize viewport800x600 s in
  _translateX s' = _translateX s /\ _translateY s' = _translateY s
  /\ _pendingCenter s' = false.
Proof.
  intros s s'.
  assert (Hk : _centeredHierarchyKey s
               = Some (hierarchyKey scenarioNormalize s))
    by (vm_compute; reflexivity).
  destruct (proj1 (proj2 (proj2 (centering_idempotent scenarioNormalize
                                   scenarioPaths)))
              viewport800x600 s Hk) as (Hx & Hy & _ & Hp).
  split; [exact Hx|]. split; [exact Hy|].
  apply Hp.
  - vm_compute; reflexivity.
  - vm_compute; reflexivity.
  - vm_compute; discriminate.
Defined.

(** C5 as stated fails where it has every later call report
    already-centred: with the same key but a viewport that has no size,
    centering returns false and the pending flag stays set. *)
Lemma centering_deferred_without_size :
  _centeredHierarchyKey centred = Some (hierarchyKey scenarioNormalize centred)
  /\ fst (centerRootInViewport scenarioNormalize viewportWithoutSize
            (with_pendingCenter true centred)) = false
  /\ _pendingCenter (recenter scenarioNormalize viewportWithoutSize centred)
     = true.
Proof.
  split; [vm_compute; reflexivity|].
  split; vm_compute; reflexivity.
Qed.

(* ------------------------------------------------------------------ *)
(** ** Panning *)

Section Panning.

Context {path error : Type}.

(** C8 (as amended).  A pointer-down whose target lies inside the zoom
    controls, a node box or a card changes nothing and asks for nothing:
    no pan, no pointer capture.  A pointer-down of the primary button on
    the canvas background, while no pan is in progress, starts a pan: the
    pan state records the pointer and the start positions, the transform
    is untouched, the pointer is captured on the viewport and the default
    action is prevented. *)
Theorem pan_gesture_isolation :
  (forall (event : pointerEvent) (t : eventTarget) (s : @explorer path),
      target event = Some t ->
      closest_controls t = true \/ closest_node t = true
      \/ closest_card t = true ->
      handleCanvasPointerDown (error := error) (Some event) s = (s, []))
  /\ (forall (event : pointerEvent) (s : @explorer path),
        hitsExcludedRegion (target event) = false ->
        button event = 0%Z ->
        _isPanning s = false ->
        let r := handleCanvasPointerDown (error := error) (Some event) s in
        _isPanning (fst r) = true
        /\ _activePointerId (fst r) = Some (pointerId event)
        /\ _panStartX (fst r) = clientX event
        /\ _panStartY (fst r) = clientY event
        /\ _panStartTranslateX (fst r) = _translateX s
        /\ _panStartTranslateY (fst r) = _translateY s
        /\ _translateX (fst r) = _translateX s
        /\ _translateY (fst r) = _translateY s
        /\ _scale (fst r) = _scale s
        /\ (currentTarget_capturesPointer event = true ->
            snd r = [SetPointerCapture (pointerId event); PreventDefault])).
Proof.
  split.
  - intros event t s Ht Hin. unfold handleCanvasPointerDown.
    destruct (_isPanning s); [reflexivity|].
    rewrite Ht. unfold hitsExcludedRegion.
    destruct Hin as [-> | [-> | ->]]; rewrite ?orb_true_r; reflexivity.
  - intros event s Ht Hb Hp r. subst r. unfold handleCanvasPointerDown.
    rewrite Hp, Ht, Hb. cbn [Z.eqb negb fst snd].
    repeat (split; [reflexivity|]).
    intros ->. reflexivity.
Qed.

End Panning.

(** C8, at the pointer events of the tests: a press on a node box leaves
    the component alone, a primary-button press on the canvas captures
    pointer 1. *)
Lemma pan_gesture_isolation_witness :
  handleCanvasPointerDown (error := string)
    (Some (pointerAt onNode 0 10 10)) singleLoaded = (singleLoaded, [])
  /\ snd (handleCanvasPointerDown (error := string)
            (Some (pointerAt onCanvas 0 10 10)) singleLoaded)
     = [SetPointerCapture 1; PreventDefault].
Proof.
  split.
  - apply (proj1 (@pan_gesture_isolation unit string)
             (pointerAt onNode 0 10 10) onNode singleLoaded eq_refl).
    right; left; reflexivity.
  - apply (proj2 (@pan_gesture_isolation unit string)
             (pointerAt onCanvas 0 10 10) singleLoaded eq_refl eq_refl).
    + vm_compute; reflexivity.
    + reflexivity.
Defined.

(** C8 as stated fails where it has every pointer-down on the canvas
    background start a pan: a press of the secondary button there leaves
    the component alone, without pan and without pointer capture. *)
Lemma secondary_button_starts_no_pan :
  hitsExcludedRegion (target (pointerAt onCanvas 2 10 10)) = false
  /\ _isPanning singleLoaded = false
  /\ handleCanvasPointerDown (error := string)
       (Some (pointerAt onCanvas 2 10 10)) singleLoaded
     = (singleLoaded, []).
Proof.
  split; [reflexivity|]. split; [vm_compute; reflexivity|].
  unfold handleCanvasPointerDown.
  replace (_isPanning singleLoaded) with false by (vm_compute; reflexivity).
  reflexivity.
Qed.

(* ------------------------------------------------------------------ *)
(** ** Imperative re-layout with supplied heights *)

Section SuppliedHeights.

Context {path : Type}.
Variable buildOrthogonalPaths :
  list hierarchyEdge -> JsMap.t position -> list path.
Variable StringToNumber : string -> number.

Local Abbreviation keptHeights := (keptHeights StringToNumber).
Local Abbreviation convertible := (convertible StringToNumber).

(** The guard of [relayoutWithHeights] on a value that is no object. *)
Lemma collectHeights_kept entries acc :
  NoDup (JsMap.keys acc ++ map fst entries) ->
  convertible entries ->
  collectHeights StringToNumber entries acc
  = Normal (acc ++ keptHeights entries).
Proof.
  revert acc; induction entries as [|[id v] entries IH]; intros acc Hnd Hc.
  - simpl. now rewrite app_nil_r.
  - inversion Hc as [|? ? Hv Hc']; subst. cbn [fst snd map] in *.
    cbn [collectHeights keptHeights flat_map fst snd].
    fold (keptHeights entries).
    assert (Hnd' : NoDup (JsMap.keys acc ++ map fst entries))
      by (apply NoDup_remove_1 in Hnd; exact Hnd).
    destruct (String.eqb_spec id "") as [->|Hne].
    + apply IH; assumption.
    + destruct Hv as [Hv|(n & Hv)]; [contradiction|]. rewrite Hv.
      destruct (positiveFinite n) as [q|]; [|apply IH; assumption].
      assert (Hk : JsMap.get id acc = None).
      { apply map_get_None_keys. intro Hin.
        apply NoDup_remove_2 in Hnd. apply Hnd. apply in_or_app. auto. }
      rewrite (map_set_new id q acc Hk).
      rewrite IH; [now rewrite <- app_assoc| |assumption].
      unfold JsMap.keys in *. rewrite map_app. cbn [map fst].
      rewrite <- app_assoc. exact Hnd.
Qed.

Lemma collectHeights_throws entries acc e :
  collectHeights StringToNumber entries acc = Throw e ->
  exists id v,
    In (id, v) entries /\ id <> ""%string
    /\ Number StringToNumber v = Throw e.
Proof.
  revert acc; induction entries as [|[id v] entries IH]; intros acc;
    cbn [collectHeights]; [discriminate|].
  destruct (String.eqb_spec id "") as [->|Hne].
  - intro H. destruct (IH _ H) as (id' & v' & Hin & H').
    exists id', v'. split; [right; exact Hin|exact H'].
  - destruct (Number StringToNumber v) as [n|e'] eqn:Hv.
    + intro H.
      assert (Hrest : exists acc',
                 collectHeights StringToNumber entries acc' = Throw e).
      { destruct (positiveFinite n); eexists; exact H. }
      destruct Hrest as (acc' & Hrest).
      destruct (IH _ Hrest) as (id' & v' & Hin & H').
      exists id', v'. split; [right; exact Hin|exact H'].
    + intros [= <-]. exists id, v. split; [left; reflexivity|]. auto.
Qed.

Lemma collectHeights_throws_at entries acc id v e :
  In (id, v) entries -> id <> ""%string ->
  Number StringToNumber v = Throw e ->
  exists e', collectHeights StringToNumber entries acc = Throw e'.
Proof.
  revert acc; induction entries as [|[id' v'] entries IH]; intros acc Hin Hne Hv;
    [destruct Hin|].
  cbn [collectHeights]. destruct Hin as [[= -> ->]|Hin].
  - destruct (String.eqb_spec id "") as [Heq|_]; [contradiction|].
    rewrite Hv. exists e. reflexivity.
  - destruct (String.eqb_spec id' "") as [_|_]; [apply IH; assumption|].
    destruct (Number StringToNumber v') as [n|e']; [|exists e'; reflexivity].
    destruct (positiveFinite n); apply IH; assumption.
Qed.

Lemma measured_applyRowHeightLayout (s : @explorer path) :
  _measuredHeightsById (applyRowHeightLayout buildOrthogonalPaths s)
  = _measuredHeightsById s.
Proof.
  unfold applyRowHeightLayout. destruct (_layoutMeta s); reflexivity.
Qed.

Lemma nextMapOf_entries callable entries toPrimitive :
  nextMapOf StringToNumber (VObject callable entries toPrimitive)
  = if callable then Normal JsMap.empty
    else
      match entries with
      | Normal entries => collectHeights StringToNumber entries JsMap.empty
      | Throw e => Throw e
      end.
Proof. destruct callable; reflexivity. Qed.

Lemma nextMapOf_primitive p :
  nextMapOf StringToNumber (VPrimitive p) = Normal JsMap.empty.
Proof.
  unfold nextMapOf.
  destruct (value_truthy (VPrimitive p) && typeof_object (VPrimitive p)) eqn:E;
    [|reflexivity].
  destruct p; try reflexivity; cbn in E; rewrite ?andb_false_r in E;
    discriminate.
Qed.

Lemma Number_throws v e :
  Number StringToNumber v = Throw e
  <-> (v = VPrimitive PSymbol /\ e = TypeError)
      \/ exists callable entries,
          v = VObject callable entries (Throw e)
          \/ (v = VObject callable entries (Normal PSymbol) /\ e = TypeError).
Proof.
  split.
  - destruct v as [p|callable entries [p|e']]; cbn [Number].
    + destruct p; cbn; try discriminate. intros [= <-]. auto.
    + destruct p; cbn; try discriminate. intros [= <-].
      right. exists callable, entries. auto.
    + intros [= <-]. right. exists callable, entries. auto.
  - intros [[-> ->]|(callable & entries & [->|[-> ->]])]; reflexivity.
Qed.

(** X17.  What [relayoutWithHeights] keeps.  An argument that is not an
    object (a primitive, a function) leaves an empty measured-height map.
    For an object whose entries [Object.entries] lists and whose values,
    under non-empty ids, all have a number, be they primitives, arrays or
    objects with a [valueOf], the map is replaced by exactly the entries
    with a non-empty id and a finite positive number, and then one
    re-flow runs.  The call throws, leaving the component as it was,
    exactly when [Object.entries] throws or [Number] throws on a value
    under a non-empty id, and [Number] throws exactly on a symbol and on
    an object whose conversion to a primitive throws or gives a
    symbol. *)
Theorem relayout_with_heights_filters :
  (forall (heightsById : value) (s : @explorer path),
      value_truthy heightsById && typeof_object heightsById = false ->
      relayoutWithHeights buildOrthogonalPaths StringToNumber heightsById s
      = Normal (applyRowHeightLayout buildOrthogonalPaths
                  (with_measuredHeightsById JsMap.empty s)))
  /\ (forall entries toPrimitive (s : @explorer path),
        NoDup (map fst entries) -> convertible entries ->
        exists s',
          relayoutWithHeights buildOrthogonalPaths StringToNumber
            (VObject false (Normal entries) toPrimitive) s = Normal s'
          /\ s' = applyRowHeightLayout buildOrthogonalPaths
                    (with_measuredHeightsById (keptHeights entries) s)
          /\ _measuredHeightsById s' = keptHeights entries)
  /\ (forall entries id q,
        In (id, q) (keptHeights entries)
        <-> id <> ""%string
            /\ exists v n,
                In (id, v) entries
                /\ Number StringToNumber v = Normal n
                /\ positiveFinite n = Some q)
  /\ (forall heightsById (s : @explorer path),
        (exists e,
            relayoutWithHeights buildOrthogonalPaths StringToNumber
              heightsById s = Throw e)
        <-> exists entries toPrimitive,
            heightsById = VObject false entries toPrimitive
            /\ ((exists e, entries = Throw e)
                \/ exists listed id v e,
                    entries = Normal listed /\ In (id, v) listed
                    /\ id <> ""%string
                    /\ Number StringToNumber v = Throw e))
  /\ (forall v e,
        Number StringToNumber v = Throw e
        <-> (v = VPrimitive PSymbol /\ e = TypeError)
            \/ exists callable entries,
                v = VObject callable entries (Throw e)
                \/ (v = VObject callable entries (Normal PSymbol)
                    /\ e = TypeError)).
Proof.
  split; [|split; [|split; [|split]]].
  - intros heightsById s Hno. unfold relayoutWithHeights, nextMapOf.
    rewrite Hno. reflexivity.
  - intros entries toPrimitive s Hnd Hc. unfold relayoutWithHeights.
    rewrite nextMapOf_entries.
    rewrite (collectHeights_kept entries JsMap.empty Hnd Hc).
    cbn [app JsMap.empty]. eexists. split; [reflexivity|].
    split; [reflexivity|]. rewrite measured_applyRowHeightLayout. reflexivity.
  - intros entries id q. unfold keptHeights. rewrite in_flat_map. split.
    + intros ([id' v] & Hin & Hk). cbn [fst snd] in Hk.
      destruct (String.eqb_spec id' "") as [->|Hne]; [destruct Hk|].
      destruct (Number StringToNumber v) as [n|] eqn:Hv; [|destruct Hk].
      destruct (positiveFinite n) as [q'|] eqn:Hq; [|destruct Hk].
      destruct Hk as [[= -> ->]|[]].
      split; [assumption|]. exists v, n. auto.
    + intros (Hne & v & n & Hin & Hv & Hq). exists (id, v).
      split; [assumption|]. cbn [fst snd].
      destruct (String.eqb_spec id ""); [contradiction|].
      rewrite Hv, Hq. left. reflexivity.
  - intros heightsById s. unfold relayoutWithHeights. split.
    + intros (e & He). revert He.
      destruct heightsById as [p|callable entries toPrimitive].
      { rewrite nextMapOf_primitive. discriminate. }
      rewrite nextMapOf_entries. destruct callable; [discriminate|].
      intro He. exists entries, toPrimitive. split; [reflexivity|].
      destruct entries as [listed|e']; [|left; exists e'; reflexivity].
      right.
      destruct (collectHeights StringToNumber listed JsMap.empty)
        as [m|e''] eqn:Hc; [discriminate|].
      destruct (collectHeights_throws _ _ _ Hc) as (id & v & Hin & Hne & Hv).
      exists listed, id, v, e''. auto.
    + intros (entries & toPrimitive & -> & H).
      rewrite nextMapOf_entries.
      destruct H as [(e & ->)|(listed & id & v & e & -> & Hin & Hne & Hv)].
      * exists e. reflexivity.
      * destruct (collectHeights_throws_at listed JsMap.empty id v e
                    Hin Hne Hv) as (e' & He').
        exists e'. rewrite He'. reflexivity.
  - exact Number_throws.
Qed.

End SuppliedHeights.

(** X17, at an argument with malformed entries: the good number and the
    object whose [valueOf] gives 60 are kept, the rest is dropped, and
    the call returns. *)
Lemma relayout_with_heights_filters_witness :
  exists s',
    relayoutWithHeights scenarioPaths scenarioStringToNumber
      malformedHeights singleLoaded = Normal s'
    /\ _measuredHeightsById s' = [("e"%string, 42); ("g"%string, 60)].
Proof.
  destruct (proj1 (proj2 (relayout_with_heights_filters scenarioPaths
                            scenarioStringToNumber))
              malformedEntries (Normal (PString "[object Object]"))
              singleLoaded)
    as (s' & Hs' & _ & Hm).
  - repeat (apply NoDup_cons; [simpl; intuition discriminate|]).
    apply NoDup_nil.
  - unfold convertible, malformedEntries.
    repeat (apply Forall_cons; [right; eexists; reflexivity|]).
    apply Forall_nil.
  - exists s'. split; [exact Hs'|]. rewrite Hm. reflexivity.
Defined.

(** C6.  The method at a failing input: a symbol, or an object whose
    conversion to a primitive throws, under a non-empty id makes
    [Number] throw a TypeError, which nothing in the method catches, so
    the call throws where the specification has it never throw. *)
Lemma relayout_with_heights_throws :
  relayoutWithHeights scenarioPaths scenarioStringToNumber
    symbolHeight singleLoaded = Throw TypeError
  /\ relayoutWithHeights scenarioPaths scenarioStringToNumber
       opaqueObjectHeight singleLoaded = Throw TypeError.
Proof. split; reflexivity. Qed.

(* ================================================================== *)
(** * Further properties of the component *)

(* ------------------------------------------------------------------ *)
(** ** The pan gesture, from press to release *)

Section PanGesture.

Context {path error : Type}.

Lemma pointerDown_started (down : pointerEvent) (s : @explorer path) :
  _isPanning s = false ->
  hitsExcludedRegion (target down) = false ->
  button down = 0%Z ->
  fst (handleCanvasPointerDown (error := error) (Some down) s)
  = with_panStartTranslateY (_translateY s)
      (with_panStartTranslateX (_translateX s)
         (with_panStartY (clientY down)
            (with_panStartX (clientX down)
               (with_activePointerId (Some (pointerId down))
                  (with_isPanning true s))))).
Proof.
  intros Hp Ht Hb. unfold handleCanvasPointerDown. rewrite Hp, Ht, Hb.
  reflexivity.
Qed.

Lemma pointerMove_active (move : pointerEvent) (s : @explorer path) :
  _isPanning s = true ->
  _activePointerId s = Some (pointerId move) ->
  handleCanvasPointerMove (error := error) move s
  = (with_translateY (_panStartTranslateY s + (clientY move - _panStartY s))
       (with_translateX (_panStartTranslateX s + (clientX move - _panStartX s))
          s),
     [PreventDefault]).
Proof.
  intros Hp Ha. unfold handleCanvasPointerMove, otherPointer.
  rewrite Hp, Ha, Z.eqb_refl. reflexivity.
Qed.

Lemma pointerMove_other (move : pointerEvent) (s : @explorer path) active :
  _activePointerId s = Some active ->
  pointerId move <> active ->
  handleCanvasPointerMove (error := error) move s = (s, []).
Proof.
  intros Ha Hne. unfold handleCanvasPointerMove, otherPointer.
  apply Z.eqb_neq in Hne. rewrite Ha, Hne.
  destruct (negb (_isPanning s)); reflexivity.
Qed.

(** X1.  Once a press on the canvas background has started a pan, a move
    of the same pointer puts the transform at the transform of the press
    plus the pointer's displacement since the press, and prevents the
    default action.  The displacement is measured from the press, not from
    the previous move: after any move, a further move gives what it would
    have given straight after the press.  A move of another pointer, and a
    press of any pointer, change nothing while the pan goes on. *)
Theorem pan_follows_pointer (down move : pointerEvent) (s : @explorer path) :
  _isPanning s = false ->
  hitsExcludedRegion (target down) = false ->
  button down = 0%Z ->
  pointerId move = pointerId down ->
  let started := fst (handleCanvasPointerDown (error := error) (Some down) s) in
  let moved := handleCanvasPointerMove (error := error) move started in
  _translateX (fst moved) = _translateX s + (clientX move - clientX down)
  /\ _translateY (fst moved) = _translateY s + (clientY move - clientY down)
  /\ _isPanning (fst moved) = true
  /\ _activePointerId (fst moved) = Some (pointerId down)
  /\ snd moved = [PreventDefault]
  /\ (forall next : pointerEvent,
        pointerId next = pointerId down ->
        handleCanvasPointerMove (error := error) next (fst moved)
        = handleCanvasPointerMove (error := error) next started)
  /\ (forall other : pointerEvent,
        pointerId other <> pointerId down ->
        handleCanvasPointerMove (error := error) other (fst moved)
        = (fst moved, []))
  /\ (forall press : option pointerEvent,
        handleCanvasPointerDown (error := error) press (fst moved)
        = (fst moved, [])).
Proof.
  intros Hp Ht Hb Hid started moved.
  pose proof (pointerDown_started down s Hp Ht Hb) as Hs.
  fold started in Hs.
  assert (H1 : _isPanning started = true) by (rewrite Hs; reflexivity).
  assert (H2 : _activePointerId started = Some (pointerId down))
    by (rewrite Hs; reflexivity).
  assert (H3 : _panStartX started = clientX down) by (rewrite Hs; reflexivity).
  assert (H4 : _panStartY started = clientY down) by (rewrite Hs; reflexivity).
  assert (H5 : _panStartTranslateX started = _translateX s)
    by (rewrite Hs; reflexivity).
  assert (H6 : _panStartTranslateY started = _translateY s)
    by (rewrite Hs; reflexivity).
  clear Hs. clearbody started.
  assert (Hm : moved
               = (with_translateY (_translateY s + (clientY move - clientY down))
                    (with_translateX
                       (_translateX s + (clientX move - clientX down)) started),
                  [PreventDefault])).
  { subst moved. rewrite pointerMove_active by congruence.
    rewrite H3, H4, H5, H6. reflexivity. }
  clearbody moved. subst moved. cbn [fst snd].
  repeat (split; [first [reflexivity | assumption]|]).
  split; [|split].
  - intros next Hn. rewrite <- Hn in H2.
    rewrite (pointerMove_active next started H1 H2).
    rewrite (pointerMove_active next
               (with_translateY _ (with_translateX _ started)) H1 H2).
    reflexivity.
  - intros other Ho.
    apply (pointerMove_other other _ (pointerId down)); [exact H2|exact Ho].
  - intros [press|]; [|reflexivity]. unfold handleCanvasPointerDown.
    change (_isPanning (with_translateY ?a (with_translateX ?b started)))
      with (_isPanning started).
    rewrite H1. reflexivity.
Qed.

(** X2.  The release of the pointer that pans ends the pan: the pan flag
    and the active pointer are cleared, the transform stays where the pan
    left it, and from then on pointer moves change nothing.  While a
    pointer pans, the release of any other pointer, and a release without
    an event, are ignored: the pan goes on. *)
Theorem pan_ends_on_release (up : pointerEvent) (s : @explorer path) :
  _isPanning s = true ->
  _activePointerId s = Some (pointerId up) ->
  let ended := fst (handleCanvasPointerUp (error := error) (Some up) s) in
  _isPanning ended = false
  /\ _activePointerId ended = None
  /\ _translateX ended = _translateX s
  /\ _translateY ended = _translateY s
  /\ (forall move : pointerEvent,
        handleCanvasPointerMove (error := error) move ended = (ended, []))
  /\ (forall other : pointerEvent,
        pointerId other <> pointerId up ->
        handleCanvasPointerUp (error := error) (Some other) s = (s, []))
  /\ handleCanvasPointerUp (error := error) None s = (s, []).
Proof.
  intros Hp Ha ended.
  assert (He : ended = with_activePointerId None (with_isPanning false s)).
  { subst ended. unfold handleCanvasPointerUp. rewrite Ha, Z.eqb_refl.
    reflexivity. }
  clearbody ended. subst ended.
  do 5 (split; [reflexivity|]).
  split.
  - intros other Ho. apply Z.eqb_neq in Ho. unfold handleCanvasPointerUp.
    rewrite Ha, Ho. reflexivity.
  - unfold handleCanvasPointerUp. rewrite Ha. reflexivity.
Qed.

End PanGesture.

(* ------------------------------------------------------------------ *)
(** ** The measured heights the component keeps *)

Lemma Math_round_nonneg (q : Q) : 0 <= q -> 0 <= Math_round q.
Proof.
  intro H. unfold Math_round.
  change 0 with (inject_Z 0). rewrite <- Zle_Qle.
  change 0%Z with (Qfloor 0). apply Qfloor_resp_le.
  apply Qle_trans with q; [assumption|].
  rewrite <- (Qplus_0_r q) at 1. apply Qplus_le_r. discriminate.
Qed.

Lemma positiveFinite_pos n q : positiveFinite n = Some q -> 0 < q.
Proof.
  unfold positiveFinite. destruct n as [| | |x]; try discriminate.
  destruct (Qlt_b 0 x) eqn:E; [|discriminate].
  intros [= <-]. apply Qlt_b_true. exact E.
Qed.

Lemma map_set_Forall {V} (P : string * V -> Prop) k (v : V) m :
  Forall P m -> P (k, v) -> Forall P (JsMap.set k v m).
Proof.
  intros Hm Hk. apply Forall_forall. intros [k' v'] Hin.
  apply map_In_set in Hin. destruct Hin as [->|Hin]; [assumption|].
  apply (proj1 (Forall_forall _ _) Hm _ Hin).
Qed.

Section Measurements.

Context {path error : Type}.
Variable normalizeString : option string -> option string.
Variable computeTreeLayout :
  list hierarchyNode -> list hierarchyEdge -> layoutOptions ->
  JsMap.t treePosition * layoutBounds.
Variable buildOrthogonalPaths :
  list hierarchyEdge -> JsMap.t position -> list path.
Variable parseError : error -> option string.
Variable StringToNumber : string -> number.

Lemma collectHeights_sound entries acc m :
  soundHeights acc ->
  collectHeights StringToNumber entries acc = Normal m -> soundHeights m.
Proof.
  revert acc; induction entries as [|[id v] entries IH]; intros acc Hacc;
    cbn [collectHeights].
  - intros [= <-]. exact Hacc.
  - destruct (String.eqb_spec id "") as [->|Hne]; [apply IH; exact Hacc|].
    destruct (Number StringToNumber v) as [n|e]; [|discriminate].
    destruct (positiveFinite n) as [q|] eqn:Hq; [|apply IH; exact Hacc].
    apply IH. destruct Hacc as [Hnd Hall]. split.
    + apply map_set_NoDup. exact Hnd.
    + apply map_set_Forall; [exact Hall|]. split; [exact Hne|].
      apply Qlt_le_weak. apply (positiveFinite_pos n q Hq).
Qed.

Lemma measured_relayoutWithHeights heightsById (s s' : @explorer path) :
  relayoutWithHeights buildOrthogonalPaths StringToNumber heightsById s
  = Normal s' ->
  soundHeights (_measuredHeightsById s').
Proof.
  unfold relayoutWithHeights.
  destruct (nextMapOf StringToNumber heightsById) as [nextMap|e] eqn:Hc;
    [|discriminate].
  intros [= <-]. rewrite measured_applyRowHeightLayout.
  change (soundHeights nextMap).
  unfold nextMapOf in Hc.
  destruct (value_truthy heightsById && typeof_object heightsById).
  - destruct (Object_entries heightsById) as [entries|e]; [|discriminate].
    apply (collectHeights_sound entries JsMap.empty nextMap); [|exact Hc].
    split; constructor.
  - injection Hc as <-. split; constructor.
Qed.

Lemma measured_tryCenter viewport (s : @explorer path) :
  _measuredHeightsById (tryCenterRootInViewport normalizeString viewport s)
  = _measuredHeightsById s.
Proof.
  unfold tryCenterRootInViewport.
  destruct (centerRootInViewport_cases normalizeString viewport s)
    as [-> | [-> | (x & y & ->)]]; reflexivity.
Qed.

Lemma measured_with_pendingCenter v (s : @explorer path) :
  _measuredHeightsById (with_pendingCenter v s) = _measuredHeightsById s.
Proof. reflexivity. Qed.

Lemma measured_with_isLoading v (s : @explorer path) :
  _measuredHeightsById (with_isLoading v s) = _measuredHeightsById s.
Proof. reflexivity. Qed.

Lemma measured_buildRenderModel (s : @explorer path) :
  _measuredHeightsById
    (buildRenderModel computeTreeLayout buildOrthogonalPaths s)
  = JsMap.empty.
Proof.
  unfold buildRenderModel. cbv beta zeta.
  rewrite measured_with_pendingCenter, measured_applyRowHeightLayout.
  reflexivity.
Qed.

Lemma measured_settleHierarchy o (s : @explorer path) :
  soundHeights (_measuredHeightsById s) ->
  soundHeights (_measuredHeightsById
           (fst (settleHierarchy normalizeString computeTreeLayout
                   buildOrthogonalPaths parseError o s))).
Proof.
  intro H. destruct o as [result|e]; [|exact H].
  unfold settleHierarchy, onHierarchySettled, onHierarchyResolved.
  cbv beta zeta. cbn [fst].
  rewrite measured_with_isLoading, measured_with_pendingCenter.
  rewrite measured_buildRenderModel. split; constructor.
Qed.

Lemma measured_handleNodeResize viewport (acc : @explorer path * bool) entry :
  soundHeights (_measuredHeightsById (fst acc)) ->
  soundHeights (_measuredHeightsById
           (fst (handleNodeResize normalizeString viewport acc entry))).
Proof.
  intro H. unfold handleNodeResize. cbv zeta.
  set (s1 := if _pendingCenter (fst acc) && resize_isViewport entry
             then tryCenterRootInViewport normalizeString viewport (fst acc)
             else fst acc).
  assert (H1 : _measuredHeightsById s1 = _measuredHeightsById (fst acc)).
  { subst s1. destruct (_ && _); [apply measured_tryCenter|reflexivity]. }
  clearbody s1. rewrite <- H1 in H. clear H1.
  destruct (resize_nodeId entry) as [id|]; [|exact H].
  destruct (negb (truthy (Some id))) eqn:Ht; [exact H|].
  destruct (positiveFinite (resize_height entry)) as [height|] eqn:Hq;
    [|exact H].
  destruct (heightDiffers _ _); [|exact H].
  cbn [fst]. change (soundHeights (JsMap.set id (Math_round height)
                              (_measuredHeightsById s1))).
  destruct H as [Hnd Hall]. split.
  - apply map_set_NoDup. exact Hnd.
  - apply map_set_Forall; [exact Hall|]. cbn [fst snd]. split.
    + intros ->. discriminate.
    + apply Math_round_nonneg. apply Qlt_le_weak.
      apply (positiveFinite_pos _ _ Hq).
Qed.

Lemma measured_handleNodeResizes viewport entries (s : @explorer path) :
  soundHeights (_measuredHeightsById s) ->
  soundHeights (_measuredHeightsById
           (handleNodeResizes normalizeString viewport entries s)).
Proof.
  intro Hs. unfold handleNodeResizes. cbv zeta.
  assert (H : forall acc : @explorer path * bool,
             soundHeights (_measuredHeightsById (fst acc)) ->
             soundHeights (_measuredHeightsById
                      (fst (fold_left
                              (handleNodeResize normalizeString viewport)
                              entries acc)))).
  { induction entries as [|e entries IH]; intros acc Hacc; [exact Hacc|].
    cbn [fold_left]. apply IH. apply measured_handleNodeResize. exact Hacc. }
  specialize (H (s, false) Hs).
  destruct (fold_left _ entries (s, false)) as [s' didUpdate].
  cbn [fst snd] in *. destruct didUpdate; [|exact H].
  unfold queueRelayout. destruct (_relayoutQueued s'); exact H.
Qed.

Lemma measured_runQueuedRelayout isConnected viewport (s : @explorer path) :
  _measuredHeightsById
    (runQueuedRelayout normalizeString buildOrthogonalPaths isConnected
       viewport s)
  = _measuredHeightsById s.
Proof.
  unfold runQueuedRelayout. cbv zeta.
  destruct (negb isConnected || negb (hasData (with_relayoutQueued false s)));
    [reflexivity|].
  destruct (_pendingCenter _);
    rewrite ?measured_tryCenter, measured_applyRowHeightLayout; reflexivity.
Qed.

Lemma measured_pointerDown event (s : @explorer path) :
  _measuredHeightsById (fst (handleCanvasPointerDown (error := error) event s))
  = _measuredHeightsById s.
Proof.
  unfold handleCanvasPointerDown. destruct event as [event|]; [|reflexivity].
  destruct (_isPanning s); [reflexivity|].
  destruct (hitsExcludedRegion (target event)); [reflexivity|].
  destruct (negb (button event =? 0)%Z); reflexivity.
Qed.

Lemma measured_pointerMove event (s : @explorer path) :
  _measuredHeightsById (fst (handleCanvasPointerMove (error := error) event s))
  = _measuredHeightsById s.
Proof.
  unfold handleCanvasPointerMove.
  destruct (negb (_isPanning s)); [reflexivity|].
  destruct (otherPointer event s); reflexivity.
Qed.

Lemma measured_pointerUp event (s : @explorer path) :
  _measuredHeightsById (fst (handleCanvasPointerUp (error := error) event s))
  = _measuredHeightsById s.
Proof.
  unfold handleCanvasPointerUp.
  destruct (_activePointerId s) as [active|], event as [e|]; cbv zeta;
    try reflexivity.
  destruct (negb (pointerId e =? active)%Z); reflexivity.
Qed.

Lemma measured_refreshHierarchy (s : @explorer path) :
  _measuredHeightsById (fst (refreshHierarchy (error := error) normalizeString s))
  = _measuredHeightsById s.
Proof.
  unfold refreshHierarchy. destruct (_ || _); reflexivity.
Qed.


End Measurements.

(* ------------------------------------------------------------------ *)
(** ** Size observation *)

Section SizeObservation.

Context {path : Type}.
Variable normalizeString : option string -> option string.
Variable buildOrthogonalPaths :
  list hierarchyEdge -> JsMap.t position -> list path.

Lemma heightDiffers_false measured rounded :
  heightDiffers measured rounded = false
  <-> exists m, measured = Some m /\ m == rounded.
Proof.
  unfold heightDiffers. destruct measured as [m|].
  - rewrite negb_false_iff, Qeq_bool_iff. split.
    + intro H. exists m. auto.
    + intros (m' & [= <-] & H). exact H.
  - split; [discriminate|]. intros (m & H & _). discriminate.
Qed.

Lemma handleNodeResize_known viewport (s : @explorer path) didUpdate entry :
  _pendingCenter s = false ->
  (forall id height,
      resize_nodeId entry = Some id -> id <> ""%string ->
      positiveFinite (resize_height entry) = Some height ->
      exists m,
        JsMap.get id (_measuredHeightsById s) = Some m
        /\ m == Math_round height) ->
  handleNodeResize normalizeString viewport (s, didUpdate) entry
  = (s, didUpdate).
Proof.
  intros Hp Hk. unfold handleNodeResize. cbn [fst snd]. rewrite Hp.
  cbn [andb].
  destruct (resize_nodeId entry) as [id|]; [|reflexivity].
  destruct (String.eqb_spec id "") as [->|Hne]; [reflexivity|].
  assert (Ht : truthy (Some id) = true).
  { unfold truthy. destruct (String.eqb_spec id ""); [contradiction|].
    reflexivity. }
  rewrite Ht. cbn [negb].
  destruct (positiveFinite (resize_height entry)) as [height|]; [|reflexivity].
  specialize (Hk id height eq_refl Hne eq_refl).
  apply heightDiffers_false in Hk. rewrite Hk. reflexivity.
Qed.

(** X4.  A size report that brings nothing new changes nothing: when no
    centering is pending and every reported node height, rounded, is the
    height already stored for that node, [handleNodeResizes] returns the
    component as it was, and in particular queues no re-layout.  Entries
    without a node id, and entries whose height is not a positive finite
    number, never count as new. *)
Theorem resize_without_news viewport entries (s : @explorer path) :
  _pendingCenter s = false ->
  (forall entry id height,
      In entry entries ->
      resize_nodeId entry = Some id -> id <> ""%string ->
      positiveFinite (resize_height entry) = Some height ->
      exists m,
        JsMap.get id (_measuredHeightsById s) = Some m
        /\ m == Math_round height) ->
  handleNodeResizes normalizeString viewport entries s = s.
Proof.
  intros Hp Hk. unfold handleNodeResizes. cbv zeta.
  assert (H : fold_left (handleNodeResize normalizeString viewport) entries
                (s, false) = (s, false)).
  { induction entries as [|e entries IH]; [reflexivity|].
    cbn [fold_left]. rewrite handleNodeResize_known.
    - apply IH. intros entry id height Hin. apply Hk. right. exact Hin.
    - exact Hp.
    - intros id height. apply Hk. left. reflexivity. }
  rewrite H. reflexivity.
Qed.

Lemma transform_applyRowHeightLayout (s : @explorer path) :
  let s' := applyRowHeightLayout buildOrthogonalPaths s in
  _translateX s' = _translateX s /\ _translateY s' = _translateY s
  /\ _scale s' = _scale s /\ _pendingCenter s' = _pendingCenter s
  /\ _centeredHierarchyKey s' = _centeredHierarchyKey s.
Proof.
  unfold applyRowHeightLayout. destruct (_layoutMeta s); repeat split.
Qed.

Lemma transform_handleNodeResize viewport (acc : @explorer path * bool) entry :
  _pendingCenter (fst acc) = false ->
  let s' := fst (handleNodeResize normalizeString viewport acc entry) in
  _translateX s' = _translateX (fst acc)
  /\ _translateY s' = _translateY (fst acc)
  /\ _scale s' = _scale (fst acc)
  /\ _pendingCenter s' = false
  /\ _centeredHierarchyKey s' = _centeredHierarchyKey (fst acc).
Proof.
  intro Hp. unfold handleNodeResize. cbv zeta. rewrite Hp. cbn [andb].
  destruct (resize_nodeId entry) as [id|]; [|repeat split; assumption].
  destruct (negb (truthy (Some id))); [repeat split; assumption|].
  destruct (positiveFinite (resize_height entry));
    [|repeat split; assumption].
  destruct (heightDiffers _ _); repeat split; assumption.
Qed.

Lemma transform_handleNodeResizes viewport entries (s : @explorer path) :
  _pendingCenter s = false ->
  let s' := handleNodeResizes normalizeString viewport entries s in
  _translateX s' = _translateX s /\ _translateY s' = _translateY s
  /\ _scale s' = _scale s /\ _pendingCenter s' = false
  /\ _centeredHierarchyKey s' = _centeredHierarchyKey s.
Proof.
  intro Hp. unfold handleNodeResizes. cbv zeta.
  assert (H : forall acc : @explorer path * bool,
             _pendingCenter (fst acc) = false ->
             let s' := fst (fold_left
                              (handleNodeResize normalizeString viewport)
                              entries acc) in
             _translateX s' = _translateX (fst acc)
             /\ _translateY s' = _translateY (fst acc)
             /\ _scale s' = _scale (fst acc)
             /\ _pendingCenter s' = false
             /\ _centeredHierarchyKey s' = _centeredHierarchyKey (fst acc)).
  { induction entries as [|e entries IH]; intros acc Hacc.
    - repeat split. exact Hacc.
    - cbn [fold_left].
      destruct (transform_handleNodeResize viewport acc e Hacc)
        as (H1 & H2 & H3 & H4 & H5).
      destruct (IH _ H4) as (I1 & I2 & I3 & I4 & I5).
      cbv zeta. rewrite I1, I2, I3, I4, I5. auto. }
  specialize (H (s, false) Hp). cbv zeta in H.
  destruct (fold_left _ entries (s, false)) as [s1 didUpdate].
  cbn [fst snd] in *. destruct didUpdate; [|exact H].
  unfold queueRelayout. destruct (_relayoutQueued s1); exact H.
Qed.

(** X5.  Size changes never move the canvas once it has been centred:
    when no centering is pending, a report of the resize observer followed
    by the re-layout it queues leaves the transform (translation and
    scale), the record of what was centred and the pending flag as they
    were, whatever sizes were reported. *)
Theorem observation_keeps_transform viewport entries isConnected viewport'
  (s : @explorer path) :
  _pendingCenter s = false ->
  let s' :=
    runQueuedRelayout normalizeString buildOrthogonalPaths isConnected
      viewport' (handleNodeResizes normalizeString viewport entries s) in
  _translateX s' = _translateX s /\ _translateY s' = _translateY s
  /\ _scale s' = _scale s /\ _pendingCenter s' = false
  /\ _centeredHierarchyKey s' = _centeredHierarchyKey s.
Proof.
  intro Hp.
  destruct (transform_handleNodeResizes viewport entries s Hp)
    as (H1 & H2 & H3 & H4 & H5).
  revert H1 H2 H3 H4 H5.
  generalize (handleNodeResizes normalizeString viewport entries s).
  intros s1 H1 H2 H3 H4 H5. cbv zeta.
  unfold runQueuedRelayout. cbv zeta.
  destruct (negb isConnected || negb (hasData (with_relayoutQueued false s1))).
  - repeat split; assumption.
  - destruct (transform_applyRowHeightLayout (with_relayoutQueued false s1))
      as (A1 & A2 & A3 & A4 & A5).
    assert (A4' : _pendingCenter
                    (applyRowHeightLayout buildOrthogonalPaths
                       (with_relayoutQueued false s1)) = false)
      by (rewrite A4; exact H4).
    rewrite A4', A1, A2, A3, A5. repeat split; assumption.
Qed.

End SizeObservation.

(* ------------------------------------------------------------------ *)
(** ** The geometry of the rows *)

Lemma resolvedHeight_le m H : resolvedHeight m H <= H.
Proof.
  unfold resolvedHeight. destruct m as [m|]; [|apply Qle_refl].
  destruct (Qlt_b 0 m); [apply Q.le_min_r|apply Qle_refl].
Qed.

Lemma fold_Qmax_lub hs h b :
  Forall (fun x => x <= b) hs -> h <= b -> fold_left Qmax hs h <= b.
Proof.
  revert h; induction hs as [|x hs IH]; intros h Hhs Hh; [assumption|].
  inversion Hhs; subst. simpl. apply IH; [assumption|].
  apply Q.max_lub; assumption.
Qed.

Lemma fold_Qmax_In hs h x : In x hs -> x <= fold_left Qmax hs h.
Proof.
  revert h; induction hs as [|y hs IH]; intros h Hin; [destruct Hin|].
  destruct Hin as [<-|Hin]; simpl.
  - eapply Qle_trans; [apply (Q.le_max_r h y)|apply fold_Qmax_le].
  - apply IH. assumption.
Qed.

Lemma rowMaxHeight_pos lm measured d :
  0 < nodeMaxHeight lm -> 0 < rowMaxHeight lm measured d.
Proof.
  intro HH. unfold rowMaxHeight.
  destruct (rowHeights lm measured d) as [|h hs] eqn:E; [assumption|].
  apply Qlt_le_trans with h; [|apply fold_Qmax_le].
  assert (Hin : In h (rowHeights lm measured d)) by (rewrite E; left; reflexivity).
  unfold rowHeights in Hin. apply in_map_iff in Hin.
  destruct Hin as (e & <- & _). apply resolvedHeight_pos. assumption.
Qed.

Lemma rowMaxHeight_le lm measured d :
  rowMaxHeight lm measured d <= nodeMaxHeight lm.
Proof.
  unfold rowMaxHeight.
  assert (Hall : Forall (fun x => x <= nodeMaxHeight lm)
                   (rowHeights lm measured d)).
  { unfold rowHeights. apply Forall_forall. intros h Hin.
    apply in_map_iff in Hin. destruct Hin as (e & <- & _).
    apply resolvedHeight_le. }
  destruct (rowHeights lm measured d) as [|h hs]; [apply Qle_refl|].
  inversion Hall; subst. apply fold_Qmax_lub; assumption.
Qed.

Lemma rowMaxHeight_ge lm measured id bp :
  In (id, bp) (basePositionsById lm) ->
  resolvedHeight (JsMap.get id measured) (nodeMaxHeight lm)
  <= rowMaxHeight lm measured (base_depth bp).
Proof.
  intro Hin. unfold rowMaxHeight.
  assert (Hrow : In (resolvedHeight (JsMap.get id measured) (nodeMaxHeight lm))
                   (rowHeights lm measured (base_depth bp))).
  { unfold rowHeights. apply in_map_iff. exists (id, bp). split; [reflexivity|].
    apply filter_In. split; [assumption|]. apply Nat.eqb_refl. }
  destruct (rowHeights lm measured (base_depth bp)) as [|h hs]; [destruct Hrow|].
  destruct Hrow as [<-|Hrow]; [apply fold_Qmax_le|].
  apply fold_Qmax_In. assumption.
Qed.

Lemma rowTop_next lm measured d1 d2 :
  0 < nodeMaxHeight lm -> 0 <= gapY lm -> (d1 < d2)%nat ->
  rowTop lm measured d1 + rowMaxHeight lm measured d1 + gapY lm
  <= rowTop lm measured d2.
Proof.
  intros HH Hg Hlt. induction d2 as [|d2 IH]; [lia|].
  cbn [rowTop].
  destruct (Nat.eq_dec d1 d2) as [->|Hne].
  - rewrite Qplus_assoc. apply Qle_refl.
  - assert (Hd : (d1 < d2)%nat) by lia. specialize (IH Hd).
    pose proof (rowMaxHeight_pos lm measured d2 HH) as Hp. lra.
Qed.

Lemma rowTop_last lm measured d1 d2 :
  0 < nodeMaxHeight lm -> 0 <= gapY lm -> (d1 <= d2)%nat ->
  rowTop lm measured d1 + rowMaxHeight lm measured d1
  <= rowTop lm measured d2 + rowMaxHeight lm measured d2.
Proof.
  intros HH Hg Hle. destruct (Nat.eq_dec d1 d2) as [->|Hne];
    [apply Qle_refl|].
  assert (Hlt : (d1 < d2)%nat) by lia.
  pose proof (rowTop_next lm measured d1 d2 HH Hg Hlt) as H1.
  pose proof (rowMaxHeight_pos lm measured d2 HH) as H2. lra.
Qed.

Lemma rowTop_nonneg lm measured d :
  0 < nodeMaxHeight lm -> 0 <= gapY lm -> 0 <= rowTop lm measured d.
Proof.
  intros HH Hg. induction d as [|d IH]; cbn [rowTop]; [apply Qle_refl|].
  pose proof (rowMaxHeight_pos lm measured d HH) as Hp. lra.
Qed.

Lemma rowTop_le lm measured d :
  nodeMaxHeight lm = 180 -> gapY lm = 70 ->
  rowTop lm measured d <= 250 * inject_Z (Z.of_nat d).
Proof.
  intros HH Hg. induction d as [|d IH]; cbn [rowTop].
  - discriminate.
  - pose proof (rowMaxHeight_le lm measured d) as Hle.
    rewrite HH in Hle. rewrite Hg.
    rewrite Nat2Z.inj_succ. unfold Z.succ. rewrite inject_Z_plus.
    change (inject_Z 1) with 1. lra.
Qed.

Lemma fold_Qmax_const hs h b :
  Forall (fun x => x == b) hs -> h == b -> fold_left Qmax hs h == b.
Proof.
  intros Hhs Hh. apply Qle_antisym.
  - apply fold_Qmax_lub.
    + apply Forall_forall. intros x Hx.
      rewrite (proj1 (Forall_forall _ _) Hhs x Hx). apply Qle_refl.
    + rewrite Hh. apply Qle_refl.
  - rewrite <- Hh. apply fold_Qmax_le.
Qed.

Lemma rowMaxHeight_nominal lm d :
  rowMaxHeight lm JsMap.empty d == nodeMaxHeight lm.
Proof.
  unfold rowMaxHeight.
  assert (Hall : Forall (fun x => x == nodeMaxHeight lm)
                   (rowHeights lm JsMap.empty d)).
  { unfold rowHeights. apply Forall_forall. intros h Hin.
    apply in_map_iff in Hin. destruct Hin as (e & <- & _). reflexivity. }
  destruct (rowHeights lm JsMap.empty d) as [|h hs]; [reflexivity|].
  inversion Hall; subst. apply fold_Qmax_const; assumption.
Qed.

Lemma rowTop_nominal lm d :
  nodeMaxHeight lm = 180 -> gapY lm = 70 ->
  rowTop lm JsMap.empty d == 250 * inject_Z (Z.of_nat d).
Proof.
  intros HH Hg. induction d as [|d IH]; cbn [rowTop].
  - reflexivity.
  - rewrite IH, rowMaxHeight_nominal, HH, Hg.
    rewrite Nat2Z.inj_succ. unfold Z.succ. rewrite inject_Z_plus.
    change (inject_Z 1) with 1. ring.
Qed.

(** The positions a re-flow yields, read back from the position map. *)
Lemma adjusted_geometry lm measured id p :
  wellFormed lm ->
  JsMap.get id
    (adjustedPositions lm measured
       (topByDepth lm (maxHeightByDepth lm measured))) = Some p ->
  exists bp,
    In (id, bp) (basePositionsById lm)
    /\ left p = base_left bp /\ centerX p = base_centerX bp
    /\ depth p = base_depth bp
    /\ (depth p <= maxDepth lm)%nat
    /\ top p == rowTop lm measured (depth p)
    /\ centerY p
       = top p + resolvedHeight (JsMap.get id measured) (nodeMaxHeight lm) / 2
    /\ bottomY p
       = top p + resolvedHeight (JsMap.get id measured) (nodeMaxHeight lm).
Proof.
  intros (Hnd & Hdepth & Hpos) Hget.
  apply map_get_In in Hget. unfold adjustedPositions in Hget.
  apply collect_In in Hget. destruct Hget as [[]|(bp & Hin & ->)].
  exists bp. split; [exact Hin|].
  cbn [left centerX depth top centerY bottomY adjustedPosition fst snd].
  do 3 (split; [reflexivity|]).
  pose proof (Hdepth id bp Hin) as Hd.
  split; [exact Hd|]. split; [|split; reflexivity].
  destruct (row_top lm measured (base_depth bp) Hpos Hd) as (t & Ht & Heq).
  rewrite Ht, or_zero_eq. exact Heq.
Qed.

Lemma canvasHeightOf_rows lm measured :
  wellFormed lm ->
  canvasHeightOf lm (maxHeightByDepth lm measured)
    (topByDepth lm (maxHeightByDepth lm measured))
  = Math_ceil (rowTop lm measured (maxDepth lm)
               + rowMaxHeight lm measured (maxDepth lm) + gapY lm).
Proof.
  intros (_ & _ & Hpos).
  unfold canvasHeightOf, Math_ceil. f_equal. apply Qceiling_comp.
  destruct (row_top lm measured (maxDepth lm) Hpos (Nat.le_refl _))
    as (t & Ht & Heq).
  rewrite Ht.
  rewrite (row_height lm measured (maxDepth lm) Hpos (Nat.le_refl _)).
  rewrite !or_zero_eq, Heq. reflexivity.
Qed.

Lemma Math_ceil_ge q : q <= Math_ceil q.
Proof. unfold Math_ceil. apply Qle_ceiling. Qed.

Section LayoutInvariants.

Context {path error : Type}.
Variable normalizeString : option string -> option string.
Variable computeTreeLayout :
  list hierarchyNode -> list hierarchyEdge -> layoutOptions ->
  JsMap.t treePosition * layoutBounds.
Variable buildOrthogonalPaths :
  list hierarchyEdge -> JsMap.t position -> list path.
Variable parseError : error -> option string.
Variable StringToNumber : string -> number.

Lemma sameLayout_refl (s : @explorer path) : sameLayout s s.
Proof. repeat split. Qed.

Lemma sameLayout_trans (s1 s2 s3 : @explorer path) :
  sameLayout s1 s2 -> sameLayout s2 s3 -> sameLayout s1 s3.
Proof.
  intros (A1 & A2 & A3) (B1 & B2 & B3).
  repeat split; congruence.
Qed.

Lemma sameLayout_tryCenter viewport (s : @explorer path) :
  sameLayout s (tryCenterRootInViewport normalizeString viewport s).
Proof.
  unfold tryCenterRootInViewport.
  destruct (centerRootInViewport_cases normalizeString viewport s)
    as [-> | [-> | (x & y & ->)]]; repeat split.
Qed.

Lemma sameLayout_handleNodeResize viewport (acc : @explorer path * bool) entry :
  sameLayout (fst acc)
    (fst (handleNodeResize normalizeString viewport acc entry)).
Proof.
  unfold handleNodeResize. cbv zeta.
  set (s1 := if _pendingCenter (fst acc) && resize_isViewport entry
             then tryCenterRootInViewport normalizeString viewport (fst acc)
             else fst acc).
  assert (H1 : sameLayout (fst acc) s1).
  { subst s1. destruct (_ && _);
      [apply sameLayout_tryCenter|apply sameLayout_refl]. }
  clearbody s1.
  destruct (resize_nodeId entry) as [id|]; [|exact H1].
  destruct (negb (truthy (Some id))); [exact H1|].
  destruct (positiveFinite (resize_height entry)); [|exact H1].
  destruct (heightDiffers _ _); exact H1.
Qed.

Lemma sameLayout_handleNodeResizes viewport entries (s : @explorer path) :
  sameLayout s (handleNodeResizes normalizeString viewport entries s).
Proof.
  unfold handleNodeResizes. cbv zeta.
  assert (H : forall acc : @explorer path * bool,
             sameLayout (fst acc)
               (fst (fold_left (handleNodeResize normalizeString viewport)
                       entries acc))).
  { induction entries as [|e entries IH]; intro acc; [apply sameLayout_refl|].
    cbn [fold_left].
    apply (sameLayout_trans _ _ _ (sameLayout_handleNodeResize viewport acc e)).
    apply IH. }
  specialize (H (s, false)).
  destruct (fold_left _ entries (s, false)) as [s' didUpdate].
  cbn [fst snd] in *. destruct didUpdate; [|exact H].
  unfold queueRelayout. destruct (_relayoutQueued s'); exact H.
Qed.

Lemma sameLayout_pointerDown event (s : @explorer path) :
  sameLayout s (fst (handleCanvasPointerDown (error := error) event s)).
Proof.
  unfold handleCanvasPointerDown.
  destruct event as [event|]; [|apply sameLayout_refl].
  destruct (_isPanning s); [apply sameLayout_refl|].
  destruct (hitsExcludedRegion (target event)); [apply sameLayout_refl|].
  destruct (negb (button event =? 0)%Z); repeat split.
Qed.

Lemma sameLayout_pointerMove event (s : @explorer path) :
  sameLayout s (fst (handleCanvasPointerMove (error := error) event s)).
Proof.
  unfold handleCanvasPointerMove.
  destruct (negb (_isPanning s)); [apply sameLayout_refl|].
  destruct (otherPointer event s); repeat split.
Qed.

Lemma sameLayout_pointerUp event (s : @explorer path) :
  sameLayout s (fst (handleCanvasPointerUp (error := error) event s)).
Proof.
  unfold handleCanvasPointerUp.
  destruct (_activePointerId s) as [active|], event as [e|]; cbv zeta;
    try (destruct (negb (pointerId e =? active)%Z)); repeat split.
Qed.

Lemma sameLayout_refreshHierarchy (s : @explorer path) :
  sameLayout s (fst (refreshHierarchy (error := error) normalizeString s)).
Proof.
  unfold refreshHierarchy. destruct (_ || _); repeat split.
Qed.

(** A property of the layout, the canvas height and the rendered nodes
    that the re-flow, the building of the render model and the clearing of
    the rendered nodes keep. *)
Variable kept : @explorer path -> Prop.
Hypothesis kept_same :
  forall s s' : @explorer path, sameLayout s s' -> kept s -> kept s'.
Hypothesis kept_initial : kept initial.
Hypothesis kept_reflow :
  forall s : @explorer path,
    kept s -> kept (applyRowHeightLayout buildOrthogonalPaths s).
Hypothesis kept_build :
  forall s : @explorer path,
    kept (buildRenderModel computeTreeLayout buildOrthogonalPaths s).
Hypothesis kept_clear :
  forall s : @explorer path, kept s -> kept (with_positionedNodes [] s).

Lemma kept_settleHierarchy o (s : @explorer path) :
  kept s ->
  kept (fst (settleHierarchy normalizeString computeTreeLayout
               buildOrthogonalPaths parseError o s)).
Proof.
  intro H. destruct o as [result|e].
  - unfold settleHierarchy, onHierarchySettled, onHierarchyResolved.
    cbv beta zeta. cbn [fst].
    match goal with
    | |- kept (with_isLoading false (with_pendingCenter true ?x)) =>
        generalize (kept_build
                      (with_objectApiNames
                         (extractObjectApiNames normalizeString
                            match result with
                            | Some h =>
                                match nodes h with Some ns => ns | None => [] end
                            | None => []
                            end) (with_hierarchy result s)));
        generalize x
    end.
    intros x Hx. revert Hx. apply kept_same. repeat split.
  - unfold settleHierarchy, onHierarchySettled, onHierarchyRejected.
    cbv beta zeta. cbn [fst].
    apply (kept_same (with_positionedNodes [] s)); [repeat split|].
    apply kept_clear. exact H.
Qed.

Lemma kept_runQueuedRelayout isConnected viewport (s : @explorer path) :
  kept s ->
  kept (runQueuedRelayout normalizeString buildOrthogonalPaths isConnected
          viewport s).
Proof.
  intro H. unfold runQueuedRelayout. cbv zeta.
  assert (H0 : kept (with_relayoutQueued false s)).
  { revert H. apply kept_same. repeat split. }
  destruct (negb isConnected || negb (hasData (with_relayoutQueued false s)));
    [exact H0|].
  apply kept_reflow in H0.
  destruct (_pendingCenter _); [|exact H0].
  revert H0. apply kept_same. apply sameLayout_tryCenter.
Qed.

Lemma kept_reachable (r : @running path) :
  reachable normalizeString computeTreeLayout buildOrthogonalPaths parseError
    StringToNumber r ->
  kept (component r).
Proof.
  induction 1 as [|r r' Hr IH Hstep]; [exact kept_initial|].
  destruct Hstep; cbn [component].
  - revert IH. apply kept_same. repeat split.
  - revert IH. apply kept_same. repeat split.
  - revert IH. apply kept_same. repeat split.
  - revert IH. apply kept_same. apply sameLayout_refreshHierarchy.
  - apply kept_settleHierarchy. exact IH.
  - unfold recenter.
    assert (H0 : kept (with_pendingCenter true (component r))).
    { revert IH. apply kept_same. repeat split. }
    revert H0. apply kept_same. apply sameLayout_tryCenter.
  - unfold relayout. apply kept_reflow. exact IH.
  - match goal with
    | H : relayoutWithHeights _ _ _ _ = Normal _ |- _ =>
        apply relayoutWithHeights_Normal in H; destruct H as (m & ->)
    end.
    apply kept_reflow. revert IH. apply kept_same. repeat split.
  - revert IH. apply kept_same. apply sameLayout_pointerDown.
  - revert IH. apply kept_same. apply sameLayout_pointerMove.
  - revert IH. apply kept_same. apply sameLayout_pointerUp.
  - revert IH. apply kept_same. apply sameLayout_handleNodeResizes.
  - apply kept_runQueuedRelayout. exact IH.
Qed.

End LayoutInvariants.

Section RowGeometry.

Context {path error : Type}.
Variable normalizeString : option string -> option string.
Variable computeTreeLayout :
  list hierarchyNode -> list hierarchyEdge -> layoutOptions ->
  JsMap.t treePosition * layoutBounds.
Variable buildOrthogonalPaths :
  list hierarchyEdge -> JsMap.t position -> list path.
Variable parseError : error -> option string.
Variable StringToNumber : string -> number.

Lemma reflowed_same (s s' : @explorer path) :
  sameLayout s s' -> reflowed s -> reflowed s'.
Proof. unfold reflowed. intros (-> & -> & _). auto. Qed.

Lemma reflowed_applyRowHeightLayout (s : @explorer path) lm :
  _layoutMeta s = Some lm -> wellFormed lm ->
  nodeMaxHeight lm = DEFAULT_NODE_HEIGHT -> gapY lm = GAP_Y ->
  reflowed (applyRowHeightLayout buildOrthogonalPaths s).
Proof.
  intros Hl Hwf HH Hg. unfold reflowed.
  destruct (applyRowHeightLayout_layout buildOrthogonalPaths s lm Hl)
    as (-> & -> & _).
  split; [exact Hwf|]. split; [exact HH|]. split; [exact Hg|].
  exists (_measuredHeightsById s). split; reflexivity.
Qed.

Lemma reflowed_reflow (s : @explorer path) :
  reflowed s -> reflowed (applyRowHeightLayout buildOrthogonalPaths s).
Proof.
  intro H. destruct (_layoutMeta s) as [lm|] eqn:Hl.
  - unfold reflowed in H. rewrite Hl in H.
    destruct H as (Hwf & HH & Hg & _).
    apply (reflowed_applyRowHeightLayout s lm Hl Hwf HH Hg).
  - unfold applyRowHeightLayout. rewrite Hl. exact H.
Qed.

Lemma buildRenderModel_reflow (s : @explorer path) :
  exists built : @explorer path,
    buildRenderModel computeTreeLayout buildOrthogonalPaths s
    = with_pendingCenter true (applyRowHeightLayout buildOrthogonalPaths built)
    /\ _layoutMeta built
       = Some (baseLayout
                 (computeTreeLayout (hierarchyNodes s) (hierarchyEdges s)
                    layoutOptionsOfComponent))
    /\ _measuredHeightsById built = JsMap.empty
    /\ _nodeEntries built = nodeEntriesOf (hierarchyNodes s).
Proof.
  unfold buildRenderModel. cbv beta zeta.
  eexists. split; [reflexivity|].
  split; [destruct s; reflexivity|]. split; destruct s; reflexivity.
Qed.

Lemma reflowed_buildRenderModel (s : @explorer path) :
  reflowed (buildRenderModel computeTreeLayout buildOrthogonalPaths s).
Proof.
  destruct (buildRenderModel_reflow s) as (built & -> & Hl & _).
  apply (reflowed_same (applyRowHeightLayout buildOrthogonalPaths built));
    [repeat split|].
  apply (reflowed_applyRowHeightLayout built _ Hl);
    [apply baseLayout_wellFormed|reflexivity|reflexivity].
Qed.

Lemma reachable_reflowed (r : @running path) :
  reachable normalizeString computeTreeLayout buildOrthogonalPaths parseError
    StringToNumber r ->
  reflowed (component r).
Proof.
  apply (kept_reachable normalizeString computeTreeLayout buildOrthogonalPaths
           parseError StringToNumber reflowed).
  - exact reflowed_same.
  - exact I.
  - exact reflowed_reflow.
  - exact reflowed_buildRenderModel.
  - intros s H. exact H.
Qed.

Lemma reflowed_with_measured (measured : JsMap.t Q) (s : @explorer path) :
  reflowed s -> reflowed (with_measuredHeightsById measured s).
Proof. apply reflowed_same. repeat split. Qed.

(** What a re-flowed layout says of two of its nodes and of the canvas. *)
Lemma reflowed_rows (s : @explorer path) :
  reflowed s ->
  (forall id p,
      positionOf s id = Some p ->
      top p < centerY p /\ centerY p < bottomY p
      /\ bottomY p - top p <= 180
      /\ 0 <= top p
      /\ top p <= 250 * inject_Z (Z.of_nat (depth p))
      /\ bottomY p + 70 <= _canvasHeight s)
  /\ (forall id1 id2 p1 p2,
        positionOf s id1 = Some p1 -> positionOf s id2 = Some p2 ->
        (depth p1 < depth p2)%nat -> bottomY p1 + 70 <= top p2).
Proof.
  unfold reflowed, positionOf.
  destruct (_layoutMeta s) as [lm|]; [|split; discriminate].
  intros (Hwf & HH & Hg & measured & -> & ->).
  assert (Hpos : 0 < nodeMaxHeight lm) by (rewrite HH; reflexivity).
  assert (Hgap : 0 <= gapY lm) by (rewrite Hg; discriminate).
  change DEFAULT_NODE_HEIGHT with 180 in HH. change GAP_Y with 70 in Hg.
  split.
  - intros id p Hp.
    destruct (adjusted_geometry lm measured id p Hwf Hp)
      as (bp & Hin & _ & _ & Hd & Hmax & Ht & Hc & Hb).
    pose proof (resolvedHeight_pos (JsMap.get id measured) _ Hpos) as H1.
    pose proof (resolvedHeight_le (JsMap.get id measured) (nodeMaxHeight lm))
      as H2.
    pose proof (rowMaxHeight_ge lm measured id bp Hin) as H3.
    rewrite <- Hd in H3.
    pose proof (rowTop_nonneg lm measured (depth p) Hpos Hgap) as H4.
    pose proof (rowTop_le lm measured (depth p) HH Hg) as H5.
    pose proof (rowTop_last lm measured (depth p) (maxDepth lm) Hpos Hgap Hmax)
      as H6.
    rewrite (canvasHeightOf_rows lm measured Hwf).
    pose proof (Math_ceil_ge (rowTop lm measured (maxDepth lm)
                              + rowMaxHeight lm measured (maxDepth lm)
                              + gapY lm)) as H7.
    rewrite HH in *. rewrite Hg in *. rewrite Hc, Hb.
    revert H1 H2 H3 H4 H5 H6 H7 Ht.
    generalize (resolvedHeight (JsMap.get id measured) 180).
    generalize (rowTop lm measured (depth p)).
    generalize (rowMaxHeight lm measured (depth p)).
    generalize (Math_ceil (rowTop lm measured (maxDepth lm)
                           + rowMaxHeight lm measured (maxDepth lm) + 70)).
    generalize (rowTop lm measured (maxDepth lm)
                + rowMaxHeight lm measured (maxDepth lm)).
    generalize (inject_Z (Z.of_nat (depth p))).
    generalize (top p).
    intros t n last canvas rowmax rowtop h. intros.
    unfold Qdiv. change (/ 2) with (1 # 2).
    repeat split; lra.
  - intros id1 id2 p1 p2 Hp1 Hp2 Hlt.
    destruct (adjusted_geometry lm measured id1 p1 Hwf Hp1)
      as (bp1 & Hin1 & _ & _ & Hd1 & _ & Ht1 & _ & Hb1).
    destruct (adjusted_geometry lm measured id2 p2 Hwf Hp2)
      as (bp2 & _ & _ & _ & _ & _ & Ht2 & _ & _).
    pose proof (rowMaxHeight_ge lm measured id1 bp1 Hin1) as H3.
    rewrite <- Hd1 in H3.
    pose proof (rowTop_next lm measured (depth p1) (depth p2) Hpos Hgap Hlt)
      as H4.
    rewrite Hg in H4. rewrite Hb1.
    revert H3 H4 Ht1 Ht2.
    generalize (resolvedHeight (JsMap.get id1 measured) (nodeMaxHeight lm)).
    generalize (rowTop lm measured (depth p1)).
    generalize (rowTop lm measured (depth p2)).
    generalize (rowMaxHeight lm measured (depth p1)).
    generalize (top p1). generalize (top p2).
    intros. lra.
Qed.

(** X6.  After a hierarchy has loaded and the layout is re-flowed under
    measured heights in whole pixels, as the resize observer stores them
    and for which the sums of the code are exact, the rows of the layout
    do not overlap: a node of a deeper row starts at least the gap of 70
    below the bottom of every node of a row above it. *)
Theorem rows_never_overlap (s0 : @explorer path) (measured : JsMap.t Q)
  (id1 id2 : string) (p1 p2 : position) :
  Forall (fun e => whole (snd e)) measured ->
  let s :=
    applyRowHeightLayout buildOrthogonalPaths
      (with_measuredHeightsById measured
         (buildRenderModel computeTreeLayout buildOrthogonalPaths s0)) in
  positionOf s id1 = Some p1 ->
  positionOf s id2 = Some p2 ->
  (depth p1 < depth p2)%nat ->
  bottomY p1 + 70 <= top p2.
Proof.
  intros _ s.
  assert (Hs : reflowed s).
  { apply reflowed_reflow. apply reflowed_with_measured.
    apply reflowed_buildRenderModel. }
  clearbody s. apply (proj2 (reflowed_rows s Hs)).
Qed.

(** X7.  After a hierarchy has loaded and the layout is re-flowed under
    measured heights in whole pixels, every laid-out node has a box of
    positive height of at most the nominal 180, with its centre strictly
    inside; its top is not negative and at most 250 times its depth; and
    the canvas is high enough to hold the node and the gap of 70 below
    it. *)
Theorem node_box_bounds (s0 : @explorer path) (measured : JsMap.t Q)
  (id : string) (p : position) :
  Forall (fun e => whole (snd e)) measured ->
  let s :=
    applyRowHeightLayout buildOrthogonalPaths
      (with_measuredHeightsById measured
         (buildRenderModel computeTreeLayout buildOrthogonalPaths s0)) in
  positionOf s id = Some p ->
  top p < centerY p /\ centerY p < bottomY p
  /\ bottomY p - top p <= 180
  /\ 0 <= top p
  /\ top p <= 250 * inject_Z (Z.of_nat (depth p))
  /\ bottomY p + 70 <= _canvasHeight s.
Proof.
  intros _ s.
  assert (Hs : reflowed s).
  { apply reflowed_reflow. apply reflowed_with_measured.
    apply reflowed_buildRenderModel. }
  clearbody s. apply (proj1 (reflowed_rows s Hs)).
Qed.

End RowGeometry.

(* ------------------------------------------------------------------ *)
(** ** Rendered nodes, fresh layouts, repeated re-layouts *)

Section RenderedLayout.

Context {path error : Type}.
Variable normalizeString : option string -> option string.
Variable computeTreeLayout :
  list hierarchyNode -> list hierarchyEdge -> layoutOptions ->
  JsMap.t treePosition * layoutBounds.
Variable buildOrthogonalPaths :
  list hierarchyEdge -> JsMap.t position -> list path.
Variable parseError : error -> option string.
Variable StringToNumber : string -> number.

Lemma applyRowHeightLayout_nodes (s : @explorer path) lm :
  _layoutMeta s = Some lm ->
  positionedNodes (applyRowHeightLayout buildOrthogonalPaths s)
  = renderNodes lm
      (adjustedPositions lm (_measuredHeightsById s)
         (topByDepth lm (maxHeightByDepth lm (_measuredHeightsById s))))
      (_nodeEntries s).
Proof.
  intro H. unfold applyRowHeightLayout. rewrite H. reflexivity.
Qed.

Lemma renderNodes_In lm positions entries pn :
  In pn (renderNodes lm positions entries) ->
  exists entry p,
    In entry entries /\ pn_id pn = entry_id entry
    /\ JsMap.get (pn_id pn) positions = Some p
    /\ style_left pn = left p /\ style_top pn = top p
    /\ style_width pn = nodeWidth lm
    /\ scrollStyle_maxHeight pn = nodeMaxHeight lm.
Proof.
  unfold renderNodes. rewrite in_flat_map. intros (entry & Hin & Hpn).
  destruct (JsMap.get (entry_id entry) positions) as [pos|] eqn:Hg;
    [|destruct Hpn].
  destruct Hpn as [<-|[]]. exists entry, pos. cbn. auto 10.
Qed.

Lemma drawn_same (s s' : @explorer path) :
  sameLayout s s' -> drawnAtLayout s -> drawnAtLayout s'.
Proof.
  unfold drawnAtLayout, positionOf. intros (-> & _ & ->). auto.
Qed.

Lemma drawn_applyRowHeightLayout (s : @explorer path) lm :
  _layoutMeta s = Some lm ->
  nodeWidth lm = DEFAULT_NODE_WIDTH ->
  nodeMaxHeight lm = DEFAULT_NODE_HEIGHT ->
  drawnAtLayout (applyRowHeightLayout buildOrthogonalPaths s).
Proof.
  intros Hl Hw HH. unfold drawnAtLayout, positionOf.
  rewrite (applyRowHeightLayout_nodes s lm Hl).
  destruct (applyRowHeightLayout_layout buildOrthogonalPaths s lm Hl)
    as (-> & _).
  split; [split; assumption|].
  intros pn Hin. apply renderNodes_In in Hin.
  destruct Hin as (entry & p & _ & _ & Hg & H1 & H2 & H3 & H4).
  exists p. split; [exact Hg|]. rewrite H3, H4. auto.
Qed.

Lemma drawn_reflow (s : @explorer path) :
  drawnAtLayout s -> drawnAtLayout (applyRowHeightLayout buildOrthogonalPaths s).
Proof.
  intro H. destruct (_layoutMeta s) as [lm|] eqn:Hl.
  - pose proof (proj1 H) as Hlm. rewrite Hl in Hlm. destruct Hlm as [Hw HH].
    apply (drawn_applyRowHeightLayout s lm Hl Hw HH).
  - unfold applyRowHeightLayout. rewrite Hl. exact H.
Qed.

Lemma drawn_buildRenderModel (s : @explorer path) :
  drawnAtLayout (buildRenderModel computeTreeLayout buildOrthogonalPaths s).
Proof.
  destruct (buildRenderModel_reflow computeTreeLayout buildOrthogonalPaths s)
    as (built & -> & Hl & _).
  apply (drawn_same (applyRowHeightLayout buildOrthogonalPaths built));
    [repeat split|].
  apply (drawn_applyRowHeightLayout built _ Hl); reflexivity.
Qed.

Lemma drawn_clear (s : @explorer path) :
  drawnAtLayout s -> drawnAtLayout (with_positionedNodes [] s).
Proof.
  intros [H _]. split; [exact H|]. intros pn [].
Qed.


(** X9.  A freshly loaded hierarchy is laid out on the nominal grid,
    whatever the component measured before: every positioned node has its
    top at 250 times its depth, a box 180 high and its centre 90 below
    the top; the canvas is 250 high per row; and the map of measured
    heights is empty. *)
Theorem fresh_layout_is_nominal (result : option hierarchyResult)
  (s : @explorer path) :
  let loaded :=
    onHierarchyResolved normalizeString computeTreeLayout buildOrthogonalPaths
      result s in
  (forall id p,
      positionOf loaded id = Some p ->
      top p == 250 * inject_Z (Z.of_nat (depth p))
      /\ bottomY p == top p + 180
      /\ centerY p == top p + 90)
  /\ (exists lm,
        _layoutMeta loaded = Some lm
        /\ _canvasHeight loaded
           == 250 * (inject_Z (Z.of_nat (maxDepth lm)) + 1))
  /\ _measuredHeightsById loaded = JsMap.empty.
Proof.
  unfold onHierarchyResolved. cbv beta zeta.
  match goal with
  | |- context [buildRenderModel _ _ ?s2] =>
      destruct (buildRenderModel_reflow computeTreeLayout buildOrthogonalPaths
                  s2) as (built & -> & Hl & Hm & _);
      generalize dependent (computeTreeLayout (hierarchyNodes s2)
                              (hierarchyEdges s2) layoutOptionsOfComponent)
  end.
  intros layout Hl.
  pose proof (baseLayout_wellFormed layout) as Hwf.
  destruct (applyRowHeightLayout_layout buildOrthogonalPaths built _ Hl)
    as (Hlay & Hcanvas & Hmeasured).
  rewrite Hm in Hlay, Hcanvas, Hmeasured.
  generalize dependent (applyRowHeightLayout buildOrthogonalPaths built).
  intros reflowedState Hlay Hcanvas Hmeasured.
  unfold positionOf.
  change (_layoutMeta (with_pendingCenter true
                         (with_pendingCenter true reflowedState)))
    with (_layoutMeta reflowedState).
  change (_canvasHeight (with_pendingCenter true
                           (with_pendingCenter true reflowedState)))
    with (_canvasHeight reflowedState).
  change (_measuredHeightsById (with_pendingCenter true
                                  (with_pendingCenter true reflowedState)))
    with (_measuredHeightsById reflowedState).
  rewrite Hlay, Hcanvas, Hmeasured.
  split; [|split; [|reflexivity]].
  - intros id p Hp. cbn [positionsById with_positionsById] in Hp.
    destruct (adjusted_geometry _ _ id p Hwf Hp)
      as (bp & _ & _ & _ & _ & _ & Ht & Hc & Hb).
    rewrite (rowTop_nominal (baseLayout layout) (depth p) eq_refl eq_refl)
      in Ht.
    rewrite Hc, Hb. cbn [JsMap.get JsMap.empty resolvedHeight].
    change (nodeMaxHeight (baseLayout layout)) with 180.
    split; [exact Ht|]. split; [reflexivity|].
    unfold Qdiv. change (/ 2) with (1 # 2). ring.
  - eexists. split; [reflexivity|].
    rewrite (canvasHeightOf_rows (baseLayout layout) JsMap.empty Hwf).
    change (maxDepth (with_positionsById _ (baseLayout layout)))
      with (maxDepth (baseLayout layout)).
    assert (Hsum : rowTop (baseLayout layout) JsMap.empty
                     (maxDepth (baseLayout layout))
                   + rowMaxHeight (baseLayout layout) JsMap.empty
                       (maxDepth (baseLayout layout))
                   + gapY (baseLayout layout)
                   == inject_Z (250 * (Z.of_nat (maxDepth (baseLayout layout))
                                       + 1))).
    { rewrite (rowTop_nominal (baseLayout layout) _ eq_refl eq_refl).
      rewrite rowMaxHeight_nominal.
      change (nodeMaxHeight (baseLayout layout)) with 180.
      change (gapY (baseLayout layout)) with 70.
      rewrite inject_Z_mult, inject_Z_plus.
      change (inject_Z 250) with 250. change (inject_Z 1) with 1. ring. }
    unfold Math_ceil. rewrite (Qceiling_comp _ _ Hsum), Qceiling_Z.
    rewrite inject_Z_mult, inject_Z_plus. reflexivity.
Qed.

Lemma reflow_replaces (s : @explorer path) (m1 m2 : JsMap.t Q) :
  applyRowHeightLayout buildOrthogonalPaths
    (with_measuredHeightsById m2
       (applyRowHeightLayout buildOrthogonalPaths
          (with_measuredHeightsById m1 s)))
  = applyRowHeightLayout buildOrthogonalPaths (with_measuredHeightsById m2 s).
Proof.
  unfold applyRowHeightLayout.
  destruct (_layoutMeta s) as [lm|] eqn:Hl.
  - cbv zeta. destruct s. cbn in Hl. subst. reflexivity.
  - change (_layoutMeta (with_measuredHeightsById m1 s)) with (_layoutMeta s).
    rewrite Hl.
    change (_layoutMeta (with_measuredHeightsById m2
                           (with_measuredHeightsById m1 s)))
      with (_layoutMeta s).
    change (_layoutMeta (with_measuredHeightsById m2 s)) with (_layoutMeta s).
    rewrite Hl. destruct s. reflexivity.
Qed.

(** X10.  Heights supplied to [relayoutWithHeights] do not accumulate
    from call to call: after a call that returned, another call gives
    what it would have given without the first, the same state or the same
    exception.  Each call replaces the whole map of measured heights. *)
Theorem relayoutWithHeights_replaces (first second : value)
  (s s1 : @explorer path) :
  relayoutWithHeights buildOrthogonalPaths StringToNumber first s = Normal s1 ->
  relayoutWithHeights buildOrthogonalPaths StringToNumber second s1
  = relayoutWithHeights buildOrthogonalPaths StringToNumber second s.
Proof.
  intro H1. apply relayoutWithHeights_Normal in H1. destruct H1 as (m1 & ->).
  unfold relayoutWithHeights.
  destruct (nextMapOf StringToNumber second) as [m2|e]; [|reflexivity].
  f_equal. apply reflow_replaces.
Qed.

End RenderedLayout.

(* ------------------------------------------------------------------ *)
(** ** Object names, observed elements, opened records *)

Section ObjectNames.

Variable normalizeString : option string -> option string.

Lemma truthy_nonempty (x : string) : truthy (Some x) = true <-> x <> ""%string.
Proof.
  unfold truthy. destruct (String.eqb_spec x ""); split; intro H;
    try reflexivity; try discriminate; try assumption.
  contradiction.
Qed.

Lemma existsb_eqb_In (x : string) l :
  existsb (String.eqb x) l = true <-> In x l.
Proof.
  rewrite existsb_exists. split.
  - intros (y & Hin & Heq). apply String.eqb_eq in Heq. now subst.
  - intro H. exists x. split; [assumption|apply String.eqb_refl].
Qed.

Lemma addName_spec (unique : list string) (node : hierarchyNode) :
  let names :=
    match normalizeString (node_objectApiName node) with
    | Some apiName =>
        if truthy (Some apiName)
        then if existsb (String.eqb apiName) unique
             then unique else unique ++ [apiName]
        else unique
    | None => unique
    end in
  (NoDup unique -> NoDup names)
  /\ forall x,
      In x names
      <-> In x unique
          \/ (x <> ""%string
              /\ normalizeString (node_objectApiName node) = Some x).
Proof.
  destruct (normalizeString (node_objectApiName node)) as [apiName|];
    cbv zeta.
  - destruct (truthy (Some apiName)) eqn:Ht.
    + apply truthy_nonempty in Ht.
      destruct (existsb (String.eqb apiName) unique) eqn:He.
      * apply existsb_eqb_In in He. split; [auto|].
        intro x. split; [auto|]. intros [H|[_ [= <-]]]; assumption.
      * assert (Hnot : ~ In apiName unique).
        { intro Hin. apply existsb_eqb_In in Hin. congruence. }
        split.
        -- intro Hnd. apply NoDup_app; [exact Hnd| |].
           ++ repeat constructor. intros [].
           ++ intros y Hy [<-|[]]. contradiction.
        -- intro x. rewrite in_app_iff. split.
           ++ intros [H|[<-|[]]]; auto.
           ++ intros [H|[_ [= <-]]]; [auto|]. right. left. reflexivity.
    + split; [auto|]. intro x. split; [auto|].
      intros [H|[Hx [= <-]]]; [exact H|].
      apply truthy_nonempty in Hx. congruence.
  - split; [auto|]. intro x. split; [auto|].
    intros [H|[_ H]]; [exact H|discriminate].
Qed.

Lemma uniqueNames_spec (ns : list hierarchyNode) (unique : list string) :
  let names :=
    fold_left
      (fun unique node =>
         match normalizeString (node_objectApiName node) with
         | Some apiName =>
             if truthy (Some apiName)
             then if existsb (String.eqb apiName) unique
                  then unique else unique ++ [apiName]
             else unique
         | None => unique
         end)
      ns unique in
  (NoDup unique -> NoDup names)
  /\ forall x,
      In x names
      <-> In x unique
          \/ (x <> ""%string
              /\ exists node,
                  In node ns
                  /\ normalizeString (node_objectApiName node) = Some x).
Proof.
  revert unique; induction ns as [|node ns IH]; intro unique; cbn [fold_left].
  - split; [auto|]. intro x. split; [auto|].
    intros [H|(_ & node & [] & _)]. exact H.
  - destruct (addName_spec unique node) as [Hnd1 Hin1]. cbv zeta in Hnd1, Hin1.
    match goal with
    | |- context [fold_left _ ns ?u] => destruct (IH u) as [IHnd IHin]
    end.
    cbv zeta in IHnd, IHin.
    split; [auto|].
    intro x. rewrite IHin, Hin1. split.
    + intros [[H|[Hx Hn]]|(Hx & n & Hin & Hn)]; [auto| |].
      * right. split; [exact Hx|]. exists node. split; [left; reflexivity|exact Hn].
      * right. split; [exact Hx|]. exists n. split; [right; exact Hin|exact Hn].
    + intros [H|(Hx & n & [<-|Hin] & Hn)]; [auto| |].
      * left. right. split; assumption.
      * right. split; [exact Hx|]. exists n. split; assumption.
Qed.

(** X11.  [extractObjectApiNames] yields the object names of the nodes
    after normalisation, each once and none empty: a name is in the result
    exactly when it is not empty and some node normalises to it.  When no
    node has such a name the result is [undefined], never an empty
    array. *)
Theorem extractObjectApiNames_distinct (ns : list hierarchyNode) :
  match extractObjectApiNames normalizeString ns with
  | Some names =>
      names <> [] /\ NoDup names
      /\ forall x,
          In x names
          <-> x <> ""%string
              /\ exists node,
                  In node ns
                  /\ normalizeString (node_objectApiName node) = Some x
  | None =>
      forall node,
        In node ns ->
        truthy (normalizeString (node_objectApiName node)) = false
  end.
Proof.
  unfold extractObjectApiNames. cbv zeta.
  destruct (uniqueNames_spec ns []) as [Hnd Hin]. cbv zeta in Hnd, Hin.
  revert Hnd Hin.
  match goal with
  | |- context [fold_left ?f ns []] => generalize (fold_left f ns [])
  end.
  intros unique Hnd Hin. destruct unique as [|name names].
  - intros node Hnode.
    destruct (normalizeString (node_objectApiName node)) as [x|] eqn:Hn;
      [|reflexivity].
    destruct (truthy (Some x)) eqn:Ht; [|reflexivity].
    exfalso. apply truthy_nonempty in Ht.
    apply (proj2 (Hin x)). right. split; [exact Ht|]. exists node. auto.
  - split; [discriminate|]. split; [apply Hnd; constructor|].
    intro x. rewrite Hin. split.
    + intros [[]|H]. exact H.
    + auto.
Qed.

End ObjectNames.

Section Observers.

Context {path : Type}.
Variable normalizeString : option string -> option string.

Lemma isObserved_In id (s : @explorer path) :
  isObserved id s = true <-> In id (_observedNodeIds s).
Proof. apply existsb_eqb_In. Qed.

Ltac trivial_case :=
  intros;
  try solve [ assumption | reflexivity | discriminate | contradiction
            | congruence
            | constructor
            | match goal with H : In _ [] |- _ => destruct H end
            | match goal with H : False |- _ => destruct H end ].

Lemma observeRenderedNode_spec (acc : @explorer path * list observation)
  (nodeId : option string) :
  let r := observeRenderedNode acc nodeId in
  exists new,
    _observedNodeIds (fst r) = _observedNodeIds (fst acc) ++ new
    /\ snd r = snd acc ++ map ObserveNode new
    /\ (NoDup (_observedNodeIds (fst acc)) -> NoDup (_observedNodeIds (fst r)))
    /\ (forall id, In id new -> id <> ""%string /\ nodeId = Some id)
    /\ (forall id, nodeId = Some id -> id <> ""%string ->
                   In id (_observedNodeIds (fst r)))
    /\ hierarchy (fst r) = hierarchy (fst acc)
    /\ _resizeObserver (fst r) = _resizeObserver (fst acc)
    /\ _viewportObserved (fst r) = _viewportObserved (fst acc)
    /\ _pendingCenter (fst r) = _pendingCenter (fst acc).
Proof.
  unfold observeRenderedNode. destruct nodeId as [id|].
  - destruct (truthy (Some id)) eqn:Ht; cbn [negb orb].
    + apply truthy_nonempty in Ht.
      destruct (isObserved id (fst acc)) eqn:Ho.
      * apply isObserved_In in Ho. exists []. cbn [map].
        rewrite !app_nil_r.
        do 3 (split; [trivial_case|]). split; [trivial_case|].
        split; [|repeat split].
        intros id' [= <-] _. exact Ho.
      * assert (Hnot : ~ In id (_observedNodeIds (fst acc))).
        { intro Hin. apply isObserved_In in Hin. congruence. }
        exists [id]. cbn [fst snd map].
        do 2 (split; [reflexivity|]). split; [|split; [|split]].
        -- intro Hnd. cbn. apply NoDup_app; [exact Hnd| |].
           ++ repeat constructor. intros [].
           ++ intros y Hy [<-|[]]. contradiction.
        -- intros id' [<-|[]]. split; [exact Ht|reflexivity].
        -- intros id' [= <-] _. cbn. apply in_or_app. right. left.
           reflexivity.
        -- repeat split.
    + exists []. cbn [map]. rewrite !app_nil_r.
      do 3 (split; [trivial_case|]). split; [trivial_case|].
      split; [|repeat split].
      intros id' [= <-] Hne. apply truthy_nonempty in Hne. congruence.
  - exists []. cbn [map]. rewrite !app_nil_r.
    do 3 (split; [trivial_case|]). split; [trivial_case|].
    split; [trivial_case|repeat split].
Qed.

Lemma observeRenderedNodes_fold (nodeIds : list (option string))
  (acc : @explorer path * list observation) :
  let r := fold_left observeRenderedNode nodeIds acc in
  exists new,
    _observedNodeIds (fst r) = _observedNodeIds (fst acc) ++ new
    /\ snd r = snd acc ++ map ObserveNode new
    /\ (NoDup (_observedNodeIds (fst acc)) -> NoDup (_observedNodeIds (fst r)))
    /\ (forall id, In id new -> id <> ""%string /\ In (Some id) nodeIds)
    /\ (forall id, In (Some id) nodeIds -> id <> ""%string ->
                   In id (_observedNodeIds (fst r)))
    /\ hierarchy (fst r) = hierarchy (fst acc)
    /\ _resizeObserver (fst r) = _resizeObserver (fst acc)
    /\ _viewportObserved (fst r) = _viewportObserved (fst acc)
    /\ _pendingCenter (fst r) = _pendingCenter (fst acc).
Proof.
  revert acc; induction nodeIds as [|nodeId nodeIds IH]; intro acc;
    cbn [fold_left].
  - exists []. cbn [map]. rewrite !app_nil_r. repeat split; trivial_case.
  - destruct (observeRenderedNode_spec acc nodeId)
      as (new1 & A1 & A2 & A3 & A4 & A5 & A6 & A7 & A8 & A9).
    destruct (IH (observeRenderedNode acc nodeId))
      as (new2 & B1 & B2 & B3 & B4 & B5 & B6 & B7 & B8 & B9).
    cbv zeta in *.
    exists (new1 ++ new2).
    split; [rewrite B1, A1, app_assoc; reflexivity|].
    split; [rewrite B2, A2, map_app, app_assoc; reflexivity|].
    split; [auto|].
    split.
    { intros id Hin. apply in_app_or in Hin. destruct Hin as [Hin|Hin].
      - destruct (A4 id Hin) as [Hne ->]. split; [exact Hne|left; reflexivity].
      - destruct (B4 id Hin) as [Hne Hin']. split; [exact Hne|right; exact Hin']. }
    split.
    { intros id [->|Hin] Hne.
      - pose proof (A5 id eq_refl Hne) as Hin. rewrite B1.
        apply in_or_app. left. exact Hin.
      - apply (B5 id Hin Hne). }
    repeat split; congruence.
Qed.

Lemma observers_tryCenter viewport (s : @explorer path) :
  let s' := tryCenterRootInViewport normalizeString viewport s in
  hierarchy s' = hierarchy s
  /\ _resizeObserver s' = _resizeObserver s
  /\ _observedNodeIds s' = _observedNodeIds s
  /\ _viewportObserved s' = _viewportObserved s.
Proof.
  unfold tryCenterRootInViewport.
  destruct (centerRootInViewport_cases normalizeString viewport s)
    as [-> | [-> | (x & y & ->)]]; repeat split.
Qed.

Lemma NoDup_ObserveNode (ids : list string) :
  NoDup ids -> NoDup (map ObserveNode ids).
Proof.
  induction 1 as [|id ids Hnot Hnd IH]; cbn [map]; constructor; [|exact IH].
  intro Hin. apply in_map_iff in Hin. destruct Hin as (id' & [= ->] & Hin).
  contradiction.
Qed.

Lemma ensureResizeObserver_spec supported (s : @explorer path) :
  let s1 := ensureResizeObserver supported s in
  hierarchy s1 = hierarchy s
  /\ _pendingCenter s1 = _pendingCenter s
  /\ _viewportObserved s1 = _viewportObserved s
  /\ (NoDup (_observedNodeIds s) -> NoDup (_observedNodeIds s1))
  /\ (_resizeObserver s = true ->
      _resizeObserver s1 = true /\ _observedNodeIds s1 = _observedNodeIds s)
  /\ (_resizeObserver s1 = true -> ensureResizeObserver supported s1 = s1).
Proof.
  unfold ensureResizeObserver.
  destruct (_resizeObserver s) eqn:Ho; cbn [orb].
  - rewrite Ho. cbn [orb]. repeat split; trivial_case.
  - destruct supported; cbn [negb].
    + repeat split; trivial_case.
    + rewrite Ho. cbn [orb negb]. repeat split; trivial_case.
Qed.

Lemma observeRenderedNodes_known (nodeIds : list (option string))
  (s : @explorer path) observed :
  (forall id, In (Some id) nodeIds -> id <> ""%string ->
              In id (_observedNodeIds s)) ->
  fold_left observeRenderedNode nodeIds (s, observed) = (s, observed).
Proof.
  induction nodeIds as [|nodeId nodeIds IH]; intro Hk; [reflexivity|].
  cbn [fold_left].
  assert (H1 : observeRenderedNode (s, observed) nodeId = (s, observed)).
  { unfold observeRenderedNode. destruct nodeId as [id|]; [|reflexivity].
    destruct (truthy (Some id)) eqn:Ht; [|reflexivity].
    apply truthy_nonempty in Ht. cbn [negb orb fst].
    rewrite (proj2 (isObserved_In id s)); [reflexivity|].
    apply Hk; [left; reflexivity|exact Ht]. }
  rewrite H1. apply IH. intros id Hin. apply Hk. right. exact Hin.
Qed.

Lemma observeRenderedNodes_spec (nodeIds : list (option string))
  (s : @explorer path) :
  let r := observeRenderedNodes nodeIds s in
  hierarchy (fst r) = hierarchy s
  /\ _pendingCenter (fst r) = _pendingCenter s
  /\ _viewportObserved (fst r) = _viewportObserved s
  /\ _resizeObserver (fst r) = _resizeObserver s
  /\ (NoDup (_observedNodeIds s) ->
      NoDup (_observedNodeIds (fst r)) /\ NoDup (snd r))
  /\ (forall o, In o (snd r) ->
        exists id,
          o = ObserveNode id /\ id <> ""%string /\ In (Some id) nodeIds
          /\ (NoDup (_observedNodeIds s) -> ~ In id (_observedNodeIds s)))
  /\ (_resizeObserver s = true ->
      forall id, In (Some id) nodeIds -> id <> ""%string ->
                 In id (_observedNodeIds (fst r)))
  /\ (_resizeObserver s = false -> r = (s, [])).
Proof.
  unfold observeRenderedNodes.
  destruct (_resizeObserver s) eqn:Ho; cbn [negb].
  - destruct (observeRenderedNodes_fold nodeIds (s, []))
      as (new & B1 & B2 & B3 & B4 & B5 & B6 & B7 & B8 & B9).
    cbv zeta in *. cbn [fst snd app] in *.
    destruct (fold_left observeRenderedNode nodeIds (s, []))
      as [s2 observed]. cbn [fst snd] in *. subst observed.
    split; [exact B6|]. split; [exact B9|]. split; [exact B8|].
    split; [congruence|]. split; [|split; [|split]].
    + intro Hnd. split; [auto|]. specialize (B3 Hnd). rewrite B1 in B3.
      apply NoDup_app_remove_l in B3.
      apply NoDup_ObserveNode. exact B3.
    + intros o Hin. apply in_map_iff in Hin. destruct Hin as (id & <- & Hin).
      exists id. split; [reflexivity|]. destruct (B4 id Hin) as [Hne Hdom].
      split; [exact Hne|]. split; [exact Hdom|].
      intros Hnd Hold. specialize (B3 Hnd). rewrite B1 in B3.
      clear -B3 Hold Hin.
      induction (_observedNodeIds s) as [|y l IH]; [destruct Hold|].
      cbn in B3. inversion B3 as [|? ? Hy Hl]; subst.
      destruct Hold as [->|Hold].
      * apply Hy. apply in_or_app. right. exact Hin.
      * apply IH; assumption.
    + intros _. exact B5.
    + discriminate.
  - cbn [fst snd]. repeat split; trivial_case.
Qed.

Lemma observeViewport_spec viewport (s : @explorer path) :
  let r := observeViewportForCentering viewport s in
  hierarchy (fst r) = hierarchy s
  /\ _pendingCenter (fst r) = _pendingCenter s
  /\ _observedNodeIds (fst r) = _observedNodeIds s
  /\ _resizeObserver (fst r) = _resizeObserver s
  /\ (snd r = [] \/ snd r = [ObserveViewport])
  /\ (In ObserveViewport (snd r) ->
      viewport <> NoViewport /\ _viewportObserved s = false
      /\ _resizeObserver s = true)
  /\ (_resizeObserver s = true -> viewport <> NoViewport ->
      _viewportObserved (fst r) = true)
  /\ (_viewportObserved s = true -> r = (s, []))
  /\ (_resizeObserver s = false -> r = (s, []))
  /\ (viewport = NoViewport -> r = (s, [])).
Proof.
  unfold observeViewportForCentering.
  destruct (_viewportObserved s) eqn:Hv; cbn [orb].
  - cbn [fst snd]. repeat split; trivial_case. left. reflexivity.
  - destruct (_resizeObserver s) eqn:Ho; cbn [negb].
    + destruct viewport; cbn [fst snd]; repeat split; trivial_case;
        try (left; reflexivity); try (right; reflexivity).
    + cbn [fst snd]. repeat split; trivial_case. left. reflexivity.
Qed.

(** What one [renderedCallback] observes, told of the state it leaves. *)
Lemma renderedCallback_spec (dom : renderedDom) (s : @explorer path) :
  NoDup (_observedNodeIds s) ->
  let r := renderedCallback normalizeString dom s in
  hierarchy (fst r) = hierarchy s
  /\ NoDup (_observedNodeIds (fst r))
  /\ NoDup (snd r)
  /\ (forall id,
        In (ObserveNode id) (snd r) ->
        id <> ""%string /\ In (Some id) (dom_nodeIds dom)
        /\ (_resizeObserver s = true -> ~ In id (_observedNodeIds s)))
  /\ (In ObserveViewport (snd r) ->
      dom_viewport dom <> NoViewport
      /\ (_resizeObserver s = true -> _viewportObserved s = false))
  /\ (hasData s = true -> _resizeObserver (fst r) = true ->
      (forall id, In (Some id) (dom_nodeIds dom) -> id <> ""%string ->
                  In id (_observedNodeIds (fst r)))
      /\ (dom_viewport dom <> NoViewport -> _viewportObserved (fst r) = true))
  /\ (hasData s = true -> _resizeObserver (fst r) = false ->
      dom_resizeObserverSupported dom = false)
  /\ (hasData s = false -> r = (s, [])).
Proof.
  intro Hnd. unfold renderedCallback.
  destruct (hasData s) eqn:Hd; cbn [negb].
  2:{ cbn [fst snd]. repeat split; trivial_case. }
  cbv zeta.
  destruct (ensureResizeObserver_spec (dom_resizeObserverSupported dom) s)
    as (E1 & E2 & E3 & E4 & E5 & E6).
  cbv zeta in *.
  assert (E7 : _resizeObserver
                 (ensureResizeObserver (dom_resizeObserverSupported dom) s)
               = false ->
               dom_resizeObserverSupported dom = false).
  { unfold ensureResizeObserver. destruct (_resizeObserver s) eqn:Ho;
      cbn [orb]; [intro; congruence|].
    destruct (dom_resizeObserverSupported dom); cbn [negb]; trivial_case. }
  specialize (E4 Hnd). clear E6.
  revert E1 E2 E3 E4 E5 E7.
  generalize (ensureResizeObserver (dom_resizeObserverSupported dom) s).
  intros s1 E1 E2 E3 E4 E5 E7.
  destruct (observeRenderedNodes_spec (dom_nodeIds dom) s1)
    as (N1 & N2 & N3 & N4 & N5 & N6 & N7 & N8).
  cbv zeta in *. specialize (N5 E4). destruct N5 as [N5 N5'].
  revert N1 N2 N3 N4 N5 N5' N6 N7 N8.
  generalize (observeRenderedNodes (dom_nodeIds dom) s1).
  intros [s2 nodesObserved]. cbn [fst snd]. intros N1 N2 N3 N4 N5 N5' N6 N7 N8.
  destruct (observeViewport_spec (dom_viewport dom) s2)
    as (V1 & V2 & V3 & V4 & V5 & V6 & V7 & _).
  cbv zeta in *.
  revert V1 V2 V3 V4 V5 V6 V7.
  generalize (observeViewportForCentering (dom_viewport dom) s2).
  intros [s3 viewportObserved]. cbn [fst snd]. intros V1 V2 V3 V4 V5 V6 V7.
  assert (C : let s4 := if _pendingCenter s3
                        then tryCenterRootInViewport normalizeString
                               (dom_viewport dom) s3
                        else s3 in
              hierarchy s4 = hierarchy s3
              /\ _resizeObserver s4 = _resizeObserver s3
              /\ _observedNodeIds s4 = _observedNodeIds s3
              /\ _viewportObserved s4 = _viewportObserved s3).
  { destruct (_pendingCenter s3); [apply observers_tryCenter|repeat split]. }
  cbv zeta in C. destruct C as (C1 & C2 & C3 & C4).
  revert C1 C2 C3 C4.
  generalize (if _pendingCenter s3
              then tryCenterRootInViewport normalizeString (dom_viewport dom) s3
              else s3).
  intros s4 C1 C2 C3 C4.
  split; [congruence|]. split; [congruence|].
  split.
  { apply NoDup_app; [exact N5'| |].
    - destruct V5 as [-> | ->]; repeat constructor. intros [].
    - intros o Ho Hv. destruct (N6 o Ho) as (id & -> & _).
      destruct V5 as [V5|V5]; rewrite V5 in Hv; [destruct Hv|].
      destruct Hv as [Hv|[]]. discriminate. }
  split.
  { intros id Hin. apply in_app_or in Hin. destruct Hin as [Hin|Hin].
    - destruct (N6 _ Hin) as (id' & [= <-] & Hne & Hdom & Hnew).
      split; [exact Hne|]. split; [exact Hdom|].
      intro Hs. destruct (E5 Hs) as [_ Hk]. rewrite <- Hk. apply Hnew. exact E4.
    - destruct V5 as [V5|V5]; rewrite V5 in Hin; [destruct Hin|].
      destruct Hin as [Hin|[]]. discriminate. }
  split.
  { intro Hin. apply in_app_or in Hin. destruct Hin as [Hin|Hin].
    - destruct (N6 _ Hin) as (id' & Hd' & _). discriminate.
    - destruct (V6 Hin) as (Hv1 & Hv2 & _). split; [exact Hv1|].
      intros _. congruence. }
  split.
  { intros _ Ho4.
    assert (Ho1 : _resizeObserver s1 = true) by congruence.
    split.
    - intros id Hdom Hne. rewrite C3, V3. apply N7; assumption.
    - intro Hv. rewrite C4. apply V7; [congruence|exact Hv]. }
  split.
  { intros _ Ho4. apply E7. congruence. }
  discriminate.
Qed.

(** X12.  [renderedCallback] observes each thing once.  In one call no
    element is observed twice, and only nodes with a non-empty id are
    observed; a node the current observer already observes is not
    observed again, nor is the viewport; without a hierarchy nothing is
    observed.  With a hierarchy, on a platform that has [ResizeObserver],
    every rendered node with a non-empty id and the viewport are under
    observation after the call.  A second call over the same rendered
    elements observes nothing more. *)
Theorem rendered_elements_observed_once (dom : renderedDom)
  (s : @explorer path) :
  NoDup (_observedNodeIds s) ->
  let r := renderedCallback normalizeString dom s in
  NoDup (snd r)
  /\ (forall id,
        In (ObserveNode id) (snd r) ->
        id <> ""%string /\ In (Some id) (dom_nodeIds dom))
  /\ (_resizeObserver s = true ->
      (forall id,
          In id (_observedNodeIds s) -> ~ In (ObserveNode id) (snd r))
      /\ (_viewportObserved s = true -> ~ In ObserveViewport (snd r)))
  /\ (hasData s = false -> r = (s, []))
  /\ (hasData s = true -> dom_resizeObserverSupported dom = true ->
      (forall id,
          In (Some id) (dom_nodeIds dom) -> id <> ""%string ->
          In id (_observedNodeIds (fst r)))
      /\ (dom_viewport dom <> NoViewport -> _viewportObserved (fst r) = true))
  /\ NoDup (_observedNodeIds (fst r))
  /\ snd (renderedCallback normalizeString dom (fst r)) = [].
Proof.
  intros Hnd r.
  destruct (renderedCallback_spec dom s Hnd)
    as (R1 & R2 & R3 & R4 & R5 & R6 & R7 & R8).
  fold r in R1, R2, R3, R4, R5, R6, R7, R8.
  split; [exact R3|].
  split; [intros id Hin; destruct (R4 id Hin) as (H1 & H2 & _); auto|].
  split.
  { intro Hs. split.
    - intros id Hold Hin. destruct (R4 id Hin) as (_ & _ & H3).
      apply (H3 Hs Hold).
    - intros Hv Hin. destruct (R5 Hin) as [_ H2]. specialize (H2 Hs).
      congruence. }
  split; [exact R8|].
  split.
  { intros Hd Hsup. destruct (_resizeObserver (fst r)) eqn:Ho.
    - apply (R6 Hd eq_refl).
    - pose proof (R7 Hd eq_refl) as Hno. congruence. }
  split; [exact R2|].
  clearbody r. destruct r as [s' observed]. cbn [fst snd] in *.
  unfold renderedCallback.
  assert (Hd' : hasData s' = hasData s) by (unfold hasData; rewrite R1; reflexivity).
  destruct (hasData s) eqn:Hd; rewrite Hd'; cbn [negb]; [|reflexivity].
  cbv zeta.
  destruct (_resizeObserver s') eqn:Ho'.
  - destruct (R6 eq_refl eq_refl) as [Hall Hview].
    assert (He : ensureResizeObserver (dom_resizeObserverSupported dom) s' = s').
    { unfold ensureResizeObserver. rewrite Ho'. reflexivity. }
    rewrite He. unfold observeRenderedNodes. rewrite Ho'. cbn [negb].
    rewrite (observeRenderedNodes_known (dom_nodeIds dom) s' [] Hall).
    cbn [fst snd app].
    destruct (observeViewport_spec (dom_viewport dom) s')
      as (_ & _ & _ & _ & _ & _ & _ & V8 & _ & V10).
    cbv zeta in *.
    destruct (dom_viewport dom) eqn:Hq.
    + rewrite (V10 eq_refl). reflexivity.
    + rewrite V8; [reflexivity|]. apply Hview. discriminate.
    + rewrite V8; [reflexivity|]. apply Hview. discriminate.
  - pose proof (R7 eq_refl eq_refl) as Hsup.
    assert (He : ensureResizeObserver (dom_resizeObserverSupported dom) s' = s').
    { unfold ensureResizeObserver. rewrite Ho', Hsup. reflexivity. }
    rewrite He.
    destruct (observeRenderedNodes_spec (dom_nodeIds dom) s')
      as (_ & _ & _ & _ & _ & _ & _ & N8).
    cbv zeta in N8. rewrite (N8 Ho'). cbn [fst snd app].
    destruct (observeViewport_spec (dom_viewport dom) s')
      as (_ & _ & _ & _ & _ & _ & _ & _ & V9 & _).
    cbv zeta in V9. rewrite (V9 Ho'). reflexivity.
Qed.

End Observers.

(* ------------------------------------------------------------------ *)
(** ** Opening a record from a card *)

Lemma truthy_Some_nonempty (x : string) :
  x <> ""%string -> truthy (Some x) = true.
Proof.
  intro H. unfold truthy. destruct (String.eqb_spec x "");
    [contradiction|reflexivity].
Qed.

(** The three ways [openRecordInNewTab] can go. *)
Lemma openRecordInNewTab_cases (host : navigationHost) (recordId : string) :
  openRecordInNewTab host recordId = standardNavigation host recordId
  \/ (host_isConsoleNavigation host = Some true
      /\ exists tab,
          tab <> ""%string
          /\ openRecordInNewTab host recordId
             = OpenSubtab tab recordId
               :: (if host_openSubtab host then []
                   else standardNavigation host recordId))
  \/ (host_isConsoleNavigation host = Some true
      /\ openRecordInNewTab host recordId
         = OpenTab recordId
           :: (if host_openTab host then []
               else standardNavigation host recordId)).
Proof.
  unfold openRecordInNewTab.
  destruct (host_isConsoleNavigation host) as [[|]|]; auto.
  destruct (host_focusedTabId host) as [[tab|]|]; auto.
  destruct (String.eqb_spec tab "") as [->|Hne]; [auto|].
  rewrite (truthy_Some_nonempty tab Hne).
  right. left. split; [reflexivity|]. exists tab. auto.
Qed.

Ltac in_cases :=
  repeat match goal with
         | H : In _ (_ :: _) |- _ => destruct H as [H|H]
         | H : In _ [] |- _ => destruct H
         | H : _ /\ _ |- _ => destruct H
         | H : exists _, _ |- _ => destruct H
         | H : _ \/ _ |- _ => destruct H
         | H : False |- _ => destruct H
         end;
  try discriminate.


(* ------------------------------------------------------------------ *)
(** ** From an observed height to the re-flowed row *)

Lemma resolvedHeight_compat (m m' H : Q) :
  m == m' -> resolvedHeight (Some m) H == resolvedHeight (Some m') H.
Proof.
  intro E. unfold resolvedHeight.
  destruct (Qlt_b 0 m) eqn:A, (Qlt_b 0 m') eqn:B.
  - apply Qle_antisym; apply Q.min_le_compat_r; rewrite E; apply Qle_refl.
  - apply Qlt_b_true in A. apply Qlt_b_false in B. rewrite E in A.
    exfalso. apply (Qlt_not_le _ _ A B).
  - apply Qlt_b_false in A. apply Qlt_b_true in B. rewrite E in A.
    exfalso. apply (Qlt_not_le _ _ B A).
  - reflexivity.
Qed.

Section ObservedHeight.

Context {path error : Type}.
Variable normalizeString : option string -> option string.
Variable computeTreeLayout :
  list hierarchyNode -> list hierarchyEdge -> layoutOptions ->
  JsMap.t treePosition * layoutBounds.
Variable buildOrthogonalPaths :
  list hierarchyEdge -> JsMap.t position -> list path.
Variable parseError : error -> option string.
Variable StringToNumber : string -> number.

Lemma queued_tryCenter viewport (s : @explorer path) :
  _relayoutQueued (tryCenterRootInViewport normalizeString viewport s)
  = _relayoutQueued s.
Proof.
  unfold tryCenterRootInViewport.
  destruct (centerRootInViewport_cases normalizeString viewport s)
    as [-> | [-> | (x & y & ->)]]; reflexivity.
Qed.

Lemma queued_applyRowHeightLayout (s : @explorer path) :
  _relayoutQueued (applyRowHeightLayout buildOrthogonalPaths s)
  = _relayoutQueued s.
Proof.
  unfold applyRowHeightLayout. destruct (_layoutMeta s); reflexivity.
Qed.

Lemma handleNodeResizes_one viewport entry id height (s : @explorer path) :
  resize_nodeId entry = Some id -> id <> ""%string ->
  positiveFinite (resize_height entry) = Some height ->
  let s1 := handleNodeResizes normalizeString viewport [entry] s in
  (exists m,
      JsMap.get id (_measuredHeightsById s1) = Some m
      /\ m == Math_round height)
  /\ hierarchy s1 = hierarchy s
  /\ (heightDiffers (JsMap.get id (_measuredHeightsById s))
        (Math_round height) = true ->
      _relayoutQueued s1 = true).
Proof.
  intros Hid Hne Hh. unfold handleNodeResizes, handleNodeResize.
  cbn [fold_left fst snd]. rewrite Hid, (truthy_Some_nonempty id Hne), Hh.
  cbn [negb].
  set (s0 := if _pendingCenter s && resize_isViewport entry
             then tryCenterRootInViewport normalizeString viewport s else s).
  assert (H0 : _measuredHeightsById s0 = _measuredHeightsById s
               /\ hierarchy s0 = hierarchy s).
  { subst s0. destruct (_ && _); [|split; reflexivity]. split.
    - apply measured_tryCenter.
    - apply observers_tryCenter. }
  destruct H0 as [Hm0 Hh0]. clearbody s0. rewrite Hm0.
  destruct (heightDiffers (JsMap.get id (_measuredHeightsById s))
              (Math_round height)) eqn:Hd; cbn [fst snd].
  - unfold queueRelayout.
    change (_relayoutQueued
              (with_measuredHeightsById
                 (JsMap.set id (Math_round height) (_measuredHeightsById s))
                 s0))
      with (_relayoutQueued s0).
    destruct (_relayoutQueued s0) eqn:Hq0.
    + split; [|split; [exact Hh0|intros _; exact Hq0]].
      exists (Math_round height). split; [|reflexivity].
      apply map_get_set_same.
    + split; [|split; [exact Hh0|intros _; reflexivity]].
      exists (Math_round height). split; [|reflexivity].
      apply map_get_set_same.
  - apply heightDiffers_false in Hd. destruct Hd as (m & Hg & Hm).
    split; [|split].
    + exists m. rewrite Hm0. auto.
    + exact Hh0.
    + discriminate.
Qed.


End ObservedHeight.

(* ------------------------------------------------------------------ *)
(** ** Scheduling a refresh *)

Section ScheduledRefresh.

Context {path error : Type}.
Variable normalizeString : option string -> option string.

Lemma setProperties_fold assignments (st : @scheduledExplorer path) (n : nat) :
  let r :=
    fold_left
      (fun acc assignment =>
         let r := setProperty (fst assignment) (snd assignment) (fst acc) in
         (fst r, (snd acc + snd r)%nat))
      assignments (st, n) in
  scheduled_component (fst r)
  = fold_left
      (fun s assignment =>
         match fst assignment with
         | RecordId => with_recordId (snd assignment) s
         | TemplateDeveloperName =>
             with_templateDeveloperName (snd assignment) s
         | RootRecordId => with_rootRecordId (snd assignment) s
         end)
      assignments (scheduled_component st)
  /\ (_refreshScheduled st = true ->
      snd r = n /\ _refreshScheduled (fst r) = true)
  /\ (_refreshScheduled st = false -> assignments <> [] ->
      snd r = S n /\ _refreshScheduled (fst r) = true)
  /\ (assignments = [] -> r = (st, n)).
Proof.
  revert st n; induction assignments as [|[property value] rest IH];
    intros st n; cbn [fold_left].
  - split; [reflexivity|].
    split; [intro Hs; split; [reflexivity|exact Hs]|].
    split; [intros _ Hne; contradiction|reflexivity].
  - cbn [fst snd]. unfold setProperty, scheduleRefresh at 1.
    cbn [scheduled_component _refreshScheduled].
    destruct (_refreshScheduled st) eqn:Hs; cbn [fst snd].
    + match goal with
      | |- context [fold_left _ rest (?st1, ?n1)] =>
          destruct (IH st1 n1) as (I1 & I2 & _ & _)
      end.
      cbv zeta in I1, I2. cbn [scheduled_component _refreshScheduled] in I1, I2.
      specialize (I2 eq_refl). rewrite Nat.add_0_r in *.
      split; [exact I1|]. split; [intros _; exact I2|].
      split; [discriminate|discriminate].
    + match goal with
      | |- context [fold_left _ rest (?st1, ?n1)] =>
          destruct (IH st1 n1) as (I1 & I2 & _ & _)
      end.
      cbv zeta in I1, I2. cbn [scheduled_component _refreshScheduled] in I1, I2.
      specialize (I2 eq_refl). rewrite Nat.add_1_r in *.
      split; [exact I1|]. split; [discriminate|].
      split; [intros _ _; exact I2|discriminate].
Qed.

(** X15.  Property changes are coalesced into one refresh.  However many
    of [recordId], [templateDeveloperName] and [rootRecordId] are set
    before the queued microtask runs, one microtask is queued, none if one
    was queued already; the fields hold the values assigned last; and the
    microtask, on the connected component, runs [refreshHierarchy] once on
    those values and clears the latch, so that the next change schedules
    again.  On a disconnected component the microtask only clears the
    latch. *)
Theorem refresh_coalesced (assignments : list (publicProperty * option string))
  (st : @scheduledExplorer path) :
  let r := setProperties assignments st in
  let final :=
    fold_left
      (fun s assignment =>
         match fst assignment with
         | RecordId => with_recordId (snd assignment) s
         | TemplateDeveloperName =>
             with_templateDeveloperName (snd assignment) s
         | RootRecordId => with_rootRecordId (snd assignment) s
         end)
      assignments (scheduled_component st) in
  scheduled_component (fst r) = final
  /\ (_refreshScheduled st = true -> snd r = 0%nat)
  /\ (_refreshScheduled st = false -> assignments <> [] ->
      snd r = 1%nat /\ _refreshScheduled (fst r) = true)
  /\ (let run := runScheduledRefresh (error := error) normalizeString true
                   (fst r) in
      snd run = snd (refreshHierarchy (error := error) normalizeString final)
      /\ scheduled_component (fst run)
         = fst (refreshHierarchy (error := error) normalizeString final)
      /\ _refreshScheduled (fst run) = false
      /\ forall property value,
          snd (setProperty property value (fst run)) = 1%nat)
  /\ runScheduledRefresh (error := error) normalizeString false (fst r)
     = ({| scheduled_component := final; _refreshScheduled := false |}, []).
Proof.
  intros r final.
  destruct (setProperties_fold assignments st 0) as (F1 & F2 & F3 & _).
  cbv zeta in F1, F2, F3. fold (setProperties assignments st) in F1, F2, F3.
  fold r in F1, F2, F3. fold final in F1. clearbody r final.
  split; [exact F1|]. split; [intro H; apply (F2 H)|].
  split; [exact F3|]. split.
  - cbv zeta. unfold runScheduledRefresh. cbn [negb fst snd].
    rewrite F1. cbn [scheduled_component _refreshScheduled].
    repeat split.
  - unfold runScheduledRefresh. cbn [negb]. rewrite F1. reflexivity.
Qed.

End ScheduledRefresh.

(* ------------------------------------------------------------------ *)
(** ** Cards for display *)

Section DisplayedCards.

Context {other objectInfo : Type}.
Variable normalizeString : option string -> option string.
Variable resolveEmoji : string -> option string.
Variable coerceIconName : string -> option string.
Variable getFieldLabel : string -> objectInfo -> string -> option string.

Lemma parseIconEntry_one rawValue :
  let entry := parseIconEntry normalizeString resolveEmoji coerceIconName
                 rawValue in
  (iconName entry = None \/ emoji entry = None)
  /\ (truthy (normalizeString rawValue) = false ->
      iconName entry = None /\ emoji entry = None).
Proof.
  unfold parseIconEntry.
  destruct (normalizeString rawValue) as [value|]; [|cbn; auto].
  destruct (truthy (Some value)) eqn:Ht; cbn [negb]; [|cbn; auto].
  destruct (truthy (resolveEmoji value)); cbn; split; auto; discriminate.
Qed.

Lemma iconOf_one a b :
  let entry := iconOf normalizeString resolveEmoji coerceIconName a b in
  (iconName entry = None \/ emoji entry = None)
  /\ (truthy a = false -> truthy b = false ->
      iconName entry = None /\ emoji entry = None).
Proof.
  unfold iconOf. cbv zeta. unfold js_or.
  destruct (truthy a) eqn:Ha.
  - rewrite Ha. split; [|discriminate].
    apply (parseIconEntry_one a).
  - destruct (truthy b) eqn:Hb.
    + split; [|discriminate]. apply (parseIconEntry_one b).
    + cbn. auto.
Qed.

Lemma resolveDetailLabel_unknown (infos : JsMap.t objectInfo)
  objectApiName fieldPath fallbackLabel :
  (forall apiName,
      normalizeString objectApiName = Some apiName ->
      JsMap.get apiName infos = None) ->
  resolveDetailLabel normalizeString getFieldLabel infos objectApiName
    fieldPath fallbackLabel = fallbackLabel.
Proof.
  intro Hno. unfold resolveDetailLabel.
  destruct (normalizeString objectApiName) as [apiName|]; [|reflexivity].
  destruct (normalizeString fieldPath) as [field|]; [|reflexivity].
  destruct (truthy (Some apiName) && truthy (Some field)); [|reflexivity].
  rewrite (Hno apiName eq_refl). reflexivity.
Qed.


End DisplayedCards.

(* ------------------------------------------------------------------ *)
(** ** The further properties at the scenarios of the test suite *)

Lemma fourLoadedRun_reachable :
  reachable scenarioNormalize scenarioLayout scenarioPaths scenarioParseError
    scenarioStringToNumber fourLoadedRun.
Proof.
  pose (r0 := {| component := @initial unit; pendingFetches := 0 |}).
  pose (r1 := {| component :=
                   with_recordId (Some "001"%string) (@initial unit);
                 pendingFetches := 0 |}).
  pose (r2 := {| component := configured; pendingFetches := 0 |}).
  pose (r3 := {| component :=
                   fst (refreshHierarchy (error := string) scenarioNormalize
                          configured);
                 pendingFetches :=
                   0 + fetchesIn
                         (snd (refreshHierarchy (error := string)
                                 scenarioNormalize configured)) |}).
  assert (H1 : reachable scenarioNormalize scenarioLayout scenarioPaths
                 scenarioParseError scenarioStringToNumber r1).
  { apply (reachable_step _ _ _ _ _ r0 r1); [apply reachable_initial|].
    apply (step_setRecordId _ _ _ _ _ (Some "001"%string) r0). }
  assert (H2 : reachable scenarioNormalize scenarioLayout scenarioPaths
                 scenarioParseError scenarioStringToNumber r2).
  { apply (reachable_step _ _ _ _ _ r1 r2 H1).
    apply (step_setTemplateDeveloperName _ _ _ _ _
             (Some "MyTemplate"%string) r1). }
  assert (H3 : reachable scenarioNormalize scenarioLayout scenarioPaths
                 scenarioParseError scenarioStringToNumber r3).
  { apply (reachable_step _ _ _ _ _ r2 r3 H2).
    apply (step_refresh _ _ _ _ _ r2). }
  apply (reachable_step _ _ _ _ _ r3 fourLoadedRun H3).
  apply (step_settle _ _ _ _ _ (Resolved (Some fourNodeHierarchy)) r3 0).
  vm_compute; reflexivity.
Qed.

Lemma fourMeasuredRun_reachable :
  reachable scenarioNormalize scenarioLayout scenarioPaths scenarioParseError
    scenarioStringToNumber fourMeasuredRun.
Proof.
  unfold fourMeasuredRun.
  exact (reachable_step scenarioNormalize scenarioLayout scenarioPaths
           scenarioParseError scenarioStringToNumber fourLoadedRun _
           fourLoadedRun_reachable
           (step_resize scenarioNormalize scenarioLayout scenarioPaths
              scenarioParseError scenarioStringToNumber viewport800x600
              observedSizes fourLoadedRun)).
Qed.

(** X1, at the drag of the centred canvas from (10, 10) to (20, 10). *)
Lemma pan_follows_pointer_witness :
  _translateX pannedAfterCentering
  = _translateX centred
    + (clientX (pointerAt onCanvas 0 20 10)
       - clientX (pointerAt onCanvas 0 10 10)).
Proof.
  assert (Hp : _isPanning centred = false) by (vm_compute; reflexivity).
  destruct (@pan_follows_pointer unit string (pointerAt onCanvas 0 10 10)
              (pointerAt onCanvas 0 20 10) centred Hp eq_refl eq_refl eq_refl)
    as (Hx & _).
  exact Hx.
Defined.

(** X2, at the release that ends that drag. *)
Lemma pan_ends_on_release_witness :
  _isPanning
    (fst (handleCanvasPointerUp (error := string)
            (Some (pointerAt onCanvas 0 20 10)) pannedAfterCentering))
  = false.
Proof.
  assert (Hp : _isPanning pannedAfterCentering = true)
    by (vm_compute; reflexivity).
  assert (Ha : _activePointerId pannedAfterCentering
               = Some (pointerId (pointerAt onCanvas 0 20 10)))
    by (vm_compute; reflexivity).
  destruct (@pan_ends_on_release unit string (pointerAt onCanvas 0 20 10)
              pannedAfterCentering Hp Ha) as (H & _).
  exact H.
Defined.


(** X4, at the centred single-node component: the same report a second
    time changes nothing. *)
Lemma resize_without_news_witness :
  handleNodeResizes scenarioNormalize viewport800x600 rootSize centredMeasured
  = centredMeasured.
Proof.
  apply (resize_without_news scenarioNormalize viewport800x600 rootSize
           centredMeasured).
  - vm_compute; reflexivity.
  - intros entry id height [<-|[]] [= <-] _ [= <-].
    exists 120. split; vm_compute; reflexivity.
Defined.

(** X5, at the centred single-node component: the report and its
    re-layout leave the translation of the centering. *)
Lemma observation_keeps_transform_witness :
  _translateX
    (runQueuedRelayout scenarioNormalize scenarioPaths true viewport800x600
       (handleNodeResizes scenarioNormalize viewport800x600 rootSize centred))
  = _translateX centred.
Proof.
  assert (Hp : _pendingCenter centred = false) by (vm_compute; reflexivity).
  destruct (observation_keeps_transform scenarioNormalize scenarioPaths
              viewport800x600 rootSize true viewport800x600 centred Hp)
    as (Hx & _).
  exact Hx.
Defined.

(** X6, at the four-node hierarchy under the explicit heights of the
    test suite: the grandchild starts below the root's bottom plus the
    gap. *)
Lemma rows_never_overlap_witness :
  let s :=
    applyRowHeightLayout scenarioPaths
      (with_measuredHeightsById
         [("001", 60); ("002", 150); ("003", 80); ("004", 70)]%string
         (buildRenderModel scenarioLayout scenarioPaths
            (with_hierarchy (Some fourNodeHierarchy) configured))) in
  exists p1 p2,
    positionOf s "001"%string = Some p1
    /\ positionOf s "004"%string = Some p2
    /\ bottomY p1 + 70 <= top p2.
Proof.
  intro s.
  assert (Hw : Forall (fun e : string * Q => whole (snd e))
                 [("001", 60); ("002", 150); ("003", 80); ("004", 70)]%string).
  { repeat (apply Forall_cons; [eexists; reflexivity|]). apply Forall_nil. }
  let o1 := eval vm_compute in (positionOf s "001"%string) in
  let o2 := eval vm_compute in (positionOf s "004"%string) in
  match o1 with
  | Some ?p1 =>
      match o2 with
      | Some ?p2 =>
          assert (H1 : positionOf s "001"%string = Some p1)
            by (vm_compute; reflexivity);
          assert (H2 : positionOf s "004"%string = Some p2)
            by (vm_compute; reflexivity);
          exists p1, p2; split; [exact H1|]; split; [exact H2|];
          apply (rows_never_overlap scenarioLayout scenarioPaths
                   (with_hierarchy (Some fourNodeHierarchy) configured)
                   [("001", 60); ("002", 150); ("003", 80); ("004", 70)]%string
                   "001"%string "004"%string p1 p2 Hw H1 H2)
      end
  end.
  cbn [depth]. lia.
Defined.

(** X7, at the grandchild of the four-node hierarchy under the explicit
    heights of the test suite. *)
Lemma node_box_bounds_witness :
  let s :=
    applyRowHeightLayout scenarioPaths
      (with_measuredHeightsById
         [("001", 60); ("002", 150); ("003", 80); ("004", 70)]%string
         (buildRenderModel scenarioLayout scenarioPaths
            (with_hierarchy (Some fourNodeHierarchy) configured))) in
  exists p,
    positionOf s "004"%string = Some p
    /\ bottomY p - top p <= 180
    /\ bottomY p + 70 <= _canvasHeight s.
Proof.
  intro s.
  assert (Hw : Forall (fun e : string * Q => whole (snd e))
                 [("001", 60); ("002", 150); ("003", 80); ("004", 70)]%string).
  { repeat (apply Forall_cons; [eexists; reflexivity|]). apply Forall_nil. }
  let o := eval vm_compute in (positionOf s "004"%string) in
  match o with
  | Some ?p =>
      assert (H : positionOf s "004"%string = Some p)
        by (vm_compute; reflexivity);
      exists p; split; [exact H|];
      destruct (node_box_bounds scenarioLayout scenarioPaths
                  (with_hierarchy (Some fourNodeHierarchy) configured)
                  [("001", 60); ("002", 150); ("003", 80); ("004", 70)]%string
                  "004"%string p Hw H)
        as (_ & _ & Hbox & _ & _ & Hcanvas)
  end.
  split; assumption.
Defined.


(** X9, at the four-node hierarchy: the grandchild, at depth 2, has its
    top at 500. *)
Lemma fresh_layout_is_nominal_witness :
  exists p,
    positionOf fourLoaded "004"%string = Some p
    /\ top p == 250 * inject_Z (Z.of_nat (depth p)).
Proof.
  let o := eval vm_compute in (positionOf fourLoaded "004"%string) in
  match o with
  | Some ?p =>
      assert (H : positionOf fourLoaded "004"%string = Some p)
        by (vm_compute; reflexivity);
      exists p; split; [exact H|];
      destruct (proj1 (fresh_layout_is_nominal scenarioNormalize
                         scenarioLayout scenarioPaths
                         (Some fourNodeHierarchy) configured) "004"%string p H)
        as (Ht & _)
  end.
  exact Ht.
Defined.

(** X10, at the four-node component: half a pixel for the root after the
    heights of the test gives what it gives on its own. *)
Lemma relayoutWithHeights_replaces_witness :
  relayoutWithHeights scenarioPaths scenarioStringToNumber halfPixelHeight
    (applyRowHeightLayout scenarioPaths
       (with_measuredHeightsById
          [("001"%string, 60); ("002"%string, 150); ("003"%string, 80); ("004"%string, 70)]%string
          fourLoaded))
  = relayoutWithHeights scenarioPaths scenarioStringToNumber halfPixelHeight
      fourLoaded.
Proof.
  apply (relayoutWithHeights_replaces scenarioPaths scenarioStringToNumber
           explicitHeights halfPixelHeight fourLoaded).
  apply relayoutWithHeights_explicit.
Defined.

(** X12, at the rendered single-node component: the root's element is
    observed once although the template shows its id twice, the element
    with the empty id is not observed, and a second rendering observes
    nothing. *)
Lemma rendered_elements_observed_once_witness :
  snd (renderedCallback scenarioNormalize renderedSingle singleLoaded)
  = [ObserveNode "001"%string; ObserveViewport]
  /\ snd (renderedCallback scenarioNormalize renderedSingle
            (fst (renderedCallback scenarioNormalize renderedSingle
                    singleLoaded))) = [].
Proof.
  split; [vm_compute; reflexivity|].
  assert (Hnd : NoDup (_observedNodeIds singleLoaded))
    by (vm_compute; constructor).
  destruct (rendered_elements_observed_once scenarioNormalize renderedSingle
              singleLoaded Hnd) as (_ & _ & _ & _ & _ & _ & H).
  exact H.
Defined.



(** X15, at the override test: three properties set in one task queue one
    microtask. *)
Lemma refresh_coalesced_witness :
  snd (setProperties overrideAssignments fresh) = 1%nat
  /\ _refreshScheduled (fst (setProperties overrideAssignments fresh)) = true.
Proof.
  destruct (refresh_coalesced (error := string) scenarioNormalize
              overrideAssignments fresh) as (_ & _ & H & _).
  apply H; [reflexivity|discriminate].
Defined.

